(** * WorkTrack-Pro: the time-entry engine and the audit-note ledger

    A shallow embedding of [app.py].  The three global lists of the program
    ([users], [time_entries], [notes]) and the three JSON files that shadow
    them form one [store]; every request handler is a function from its
    request fields and the store to a new store and an HTTP status.

    Conventions of the embedding.
    - A naive [datetime] is the number of microseconds it lies after
      0001-01-01T00:00; [isoformat]/[fromisoformat] are a round trip on such
      values and are left implicit, and a [date] string is its day number.
    - [totalHours] is held in hundredths of an hour: the stored numbers are
      results of [round(_, 2)] (the integer [0] written at clock-in is
      identified with [0.0]).
    - Every call of [datetime.now()] and of [uuid.uuid4()] is an argument of
      the handler, in the order in which the handler makes the calls.
    - A dictionary key read with [.get(key, default)] is a record field that
      holds the default when the key is absent.
    - Rounding of a duration, [str] of a number and [strftime] belong to the
      Python runtime; they are the fields of the class [Runtime].
    - An id or a note that the request body lacks is the empty string (an
      id that no user carries); the ISO strings of a request are those of
      naive datetimes, as [datetime.now().isoformat()] writes them.
    - An exception that no [except] clause catches is the answer 500. *)

From Stdlib Require Import ZArith List String Ascii Bool Lia DecimalString.
Import ListNotations.

Local Open Scope string_scope.
Local Open Scope Z_scope.
Local Open Scope list_scope.

(** ** Data model *)

Definition ident := string.
Definition datetime := Z.

Definition us_per_day : Z := 86400000000.

(** [dt.date()] and [dt.strftime('%Y-%m-%d')]: the calendar day of [dt]. *)
Definition date_of (dt : datetime) : Z := dt / us_per_day.

(** [timedelta(days=n)] in microseconds. *)
Definition timedelta_days (n : Z) : Z := n * us_per_day.

Record User := mkUser {
  uid : ident;
  name : string;
  email : option string;
  phone : option string;
  role : string;
  pin : string;
  createdAt : datetime;
  is_suspended : bool;
  suspension_notes : list ident
}.

Record TimeEntry := mkTimeEntry {
  eid : ident;
  userId : ident;
  loginTime : datetime;
  logoutTime : option datetime;
  totalHours : Z;
  date : Z;
  edited : bool;
  lastModified : option datetime;
  editNotes : list ident
}.

Inductive EntityType := time_entry | user_suspension.

Record Note := mkNote {
  nid : ident;
  entityId : ident;
  entityType : EntityType;
  timestamp : datetime;
  editor : string;
  note : string
}.

(** The in-memory lists and the files written by [save_data]. *)
Record store := mkStore {
  users : list User;
  time_entries : list TimeEntry;
  notes : list Note;
  users_file : list User;
  time_entries_file : list TimeEntry;
  notes_file : list Note
}.

(** *** Field assignment *)

Definition set_loginTime (v : datetime) (e : TimeEntry) : TimeEntry :=
  mkTimeEntry (eid e) (userId e) v (logoutTime e) (totalHours e) (date e)
              (edited e) (lastModified e) (editNotes e).

Definition set_logoutTime (v : option datetime) (e : TimeEntry) : TimeEntry :=
  mkTimeEntry (eid e) (userId e) (loginTime e) v (totalHours e) (date e)
              (edited e) (lastModified e) (editNotes e).

Definition set_totalHours (v : Z) (e : TimeEntry) : TimeEntry :=
  mkTimeEntry (eid e) (userId e) (loginTime e) (logoutTime e) v (date e)
              (edited e) (lastModified e) (editNotes e).

Definition set_edited (v : bool) (e : TimeEntry) : TimeEntry :=
  mkTimeEntry (eid e) (userId e) (loginTime e) (logoutTime e) (totalHours e)
              (date e) v (lastModified e) (editNotes e).

Definition set_lastModified (v : option datetime) (e : TimeEntry) : TimeEntry :=
  mkTimeEntry (eid e) (userId e) (loginTime e) (logoutTime e) (totalHours e)
              (date e) (edited e) v (editNotes e).

Definition set_editNotes (v : list ident) (e : TimeEntry) : TimeEntry :=
  mkTimeEntry (eid e) (userId e) (loginTime e) (logoutTime e) (totalHours e)
              (date e) (edited e) (lastModified e) v.

Definition set_is_suspended (v : bool) (u : User) : User :=
  mkUser (uid u) (name u) (email u) (phone u) (role u) (pin u) (createdAt u)
         v (suspension_notes u).

Definition set_suspension_notes (v : list ident) (u : User) : User :=
  mkUser (uid u) (name u) (email u) (phone u) (role u) (pin u) (createdAt u)
         (is_suspended u) v.

Definition set_users (v : list User) (st : store) : store :=
  mkStore v (time_entries st) (notes st)
          (users_file st) (time_entries_file st) (notes_file st).

Definition set_time_entries (v : list TimeEntry) (st : store) : store :=
  mkStore (users st) v (notes st)
          (users_file st) (time_entries_file st) (notes_file st).

Definition set_notes (v : list Note) (st : store) : store :=
  mkStore (users st) (time_entries st) v
          (users_file st) (time_entries_file st) (notes_file st).

(** [save_data(USERS_FILE, users)] and its two siblings: the whole list
    replaces the file. *)
Definition save_users (st : store) : store :=
  mkStore (users st) (time_entries st) (notes st)
          (users st) (time_entries_file st) (notes_file st).

Definition save_time_entries (st : store) : store :=
  mkStore (users st) (time_entries st) (notes st)
          (users_file st) (time_entries st) (notes_file st).

Definition save_notes (st : store) : store :=
  mkStore (users st) (time_entries st) (notes st)
          (users_file st) (time_entries_file st) (notes st).

(** *** Equality of dictionaries, used by [list.remove] *)

Definition option_eqb {A} (eqb : A -> A -> bool) (a b : option A) : bool :=
  match a, b with
  | Some x, Some y => eqb x y
  | None, None => true
  | _, _ => false
  end.

Fixpoint list_eqb {A} (eqb : A -> A -> bool) (a b : list A) : bool :=
  match a, b with
  | [], [] => true
  | x :: a', y :: b' => eqb x y && list_eqb eqb a' b'
  | _, _ => false
  end.

Definition TimeEntry_eqb (a b : TimeEntry) : bool :=
  (eid a =? eid b)%string && (userId a =? userId b)%string
  && (loginTime a =? loginTime b)
  && option_eqb Z.eqb (logoutTime a) (logoutTime b)
  && (totalHours a =? totalHours b) && (date a =? date b)
  && Bool.eqb (edited a) (edited b)
  && option_eqb Z.eqb (lastModified a) (lastModified b)
  && list_eqb String.eqb (editNotes a) (editNotes b).

(** ** List idioms of the program *)

(** Assignment through the reference returned by
    [next((x for x in l if p(x)), None)]: the first element that satisfies
    [p] is changed in place. *)
Fixpoint update_first {A} (p : A -> bool) (f : A -> A) (l : list A) : list A :=
  match l with
  | [] => []
  | x :: r => if p x then f x :: r else x :: update_first p f r
  end.

(** [l.remove(x)]: the first element equal to [x] is dropped. *)
Fixpoint remove_first {A} (eqb : A -> A -> bool) (x : A) (l : list A) : list A :=
  match l with
  | [] => []
  | y :: r => if eqb y x then r else y :: remove_first eqb x r
  end.

(** [x in l] for a list or set of identifiers. *)
Definition mem (x : ident) (l : list ident) : bool :=
  existsb (String.eqb x) l.

(** [next((u for u in users if u['id'] == user_id), None)]. *)
Definition find_user (user_id : ident) (us : list User) : option User :=
  find (fun u => (uid u =? user_id)%string) us.

(** [role in ['ADMIN', 'TIMEKEEPER']]. *)
Definition is_manager (r : string) : bool :=
  (r =? "ADMIN")%string || (r =? "TIMEKEEPER")%string.

(** The generator condition
    [entry['userId'] == user_id and entry['logoutTime'] is None]. *)
Definition is_active_for (user_id : ident) (entry : TimeEntry) : bool :=
  (userId entry =? user_id)%string
  && match logoutTime entry with None => true | Some _ => false end.

(** ** The Python runtime *)

Class Runtime := {
  (** [round(d.total_seconds() / 3600, 2)] of a duration of [d]
      microseconds, in hundredths of an hour. *)
  round_hours : Z -> Z;
  (** [str] of a stored [totalHours]. *)
  str_hours : Z -> string;
  (** [dt.strftime('%Y-%m-%d %H:%M')]. *)
  strftime_minutes : datetime -> string
}.

Definition nl : string := String "010"%char EmptyString.

Section Handlers.

Context {RT : Runtime}.

(** *** [clock_in] *)

Definition clock_in (user_id new_id : ident)
    (now_login now_date now_modified : datetime) (st : store) : store * Z :=
  match find_user user_id (users st) with
  | None => (st, 404)
  | Some user =>
    if is_suspended user then (st, 403)
    else
      match find (is_active_for user_id) (time_entries st) with
      | Some _ => (st, 400)
      | None =>
        let new_entry :=
          {| eid := new_id;
             userId := user_id;
             loginTime := now_login;
             logoutTime := None;
             totalHours := 0;
             date := date_of now_date;
             edited := false;
             lastModified := Some now_modified;
             editNotes := [] |} in
        (save_time_entries
           (set_time_entries (time_entries st ++ [new_entry]) st), 200)
      end
  end.

(** *** [clock_out] *)

(** The condition of the search for [existing_today_entry]. *)
Definition is_completed_today (user_id : ident) (today : Z)
    (logout_time : datetime) (entry : TimeEntry) : bool :=
  (userId entry =? user_id)%string
  && (date entry =? today)
  && match logoutTime entry with Some _ => true | None => false end
  && (date_of (loginTime entry) =? date_of logout_time).

Definition clock_out (user_id : ident)
    (now_logout now_today now_modified : datetime) (st : store) : store * Z :=
  match find_user user_id (users st) with
  | None => (st, 404)
  | Some user =>
    match find (is_active_for user_id) (time_entries st) with
    | Some active_entry =>
      let logout_time := now_logout in
      let current_session_hours :=
        round_hours (logout_time - loginTime active_entry) in
      let today := date_of now_today in
      let today_p := is_completed_today user_id today logout_time in
      match find today_p (time_entries st) with
      | Some _ =>
        (* [round(total + hours, 2)] of two numbers with two decimals is
           their sum *)
        let consolidated :=
          update_first today_p
            (fun e =>
               set_lastModified (Some now_modified)
                 (set_logoutTime (Some logout_time)
                    (set_totalHours (totalHours e + current_session_hours) e)))
            (time_entries st) in
        (save_time_entries
           (set_time_entries
              (remove_first TimeEntry_eqb active_entry consolidated) st), 200)
      | None =>
        let closed :=
          update_first (is_active_for user_id)
            (fun e =>
               set_lastModified (Some now_modified)
                 (set_totalHours current_session_hours
                    (set_logoutTime (Some logout_time) e)))
            (time_entries st) in
        (save_time_entries (set_time_entries closed st), 200)
      end
    | None => (st, 400)
    end
  end.

(** *** [delete_user] *)

Definition delete_user (user_id requester_id : ident) (st : store)
    : store * Z :=
  match find_user user_id (users st) with
  | None => (st, 404)
  | Some user_to_delete =>
    match find_user requester_id (users st) with
    | None =>
      (* the log line before the role check reads [requester_user.get] on
         [None]: AttributeError, answered with status 500 *)
      (st, 500)
    | Some requester_user =>
      if negb (role requester_user =? "ADMIN")%string then (st, 403)
      else if (uid user_to_delete =? requester_id)%string then (st, 403)
      else if (role user_to_delete =? "ADMIN")%string
              && (Z.of_nat
                    (List.length (filter (fun u => (role u =? "ADMIN")%string)
                                    (users st))) <=? 1)
      then (st, 403)
      else
        let notes_to_delete_ids :=
          flat_map editNotes
            (filter (fun entry => (userId entry =? user_id)%string)
                    (time_entries st))
          ++ suspension_notes user_to_delete in
        let st1 :=
          save_users
            (set_users
               (filter (fun u => negb (uid u =? user_id)%string) (users st))
               st) in
        let st2 :=
          save_time_entries
            (set_time_entries
               (filter (fun entry => negb (userId entry =? user_id)%string)
                       (time_entries st1))
               st1) in
        let st3 :=
          save_notes
            (set_notes
               (filter (fun n => negb (mem (nid n) notes_to_delete_ids))
                       (notes st2))
               st2) in
        (st3, 200)
    end
  end.

(** *** [format_time_for_log] and the text of an audit note *)

Definition format_time_for_log (iso_string : option datetime) : string :=
  match iso_string with
  | Some dt => strftime_minutes dt
  | None => "N/A"
  end.

(** The eight lines that the notes of [logout] and of [edit_time_entry]
    have in common, as the pieces of the f-string. *)
Definition before_lines (login : datetime) (logout : option datetime)
    (hours : Z) : list string :=
  [ "Before:"; nl;
    "  Clock In: "; format_time_for_log (Some login); nl;
    "  Clock Out: "; format_time_for_log logout; nl;
    "  Hours: "; str_hours hours; nl ].

Definition after_lines (login : datetime) (logout : option datetime)
    (hours : Z) : list string :=
  [ "After:"; nl;
    "  Clock In: "; format_time_for_log (Some login); nl;
    "  Clock Out: "; format_time_for_log logout; nl;
    "  Hours: "; str_hours hours ].

Definition fstring (pieces : list string) : string :=
  String.concat "" pieces.

(** *** [logout] (forced logout) *)

Definition logout (user_id : ident) (note_content : string)
    (requester_id new_note_id : ident)
    (now_logout now_modified now_note : datetime) (st : store) : store * Z :=
  match find_user requester_id (users st) with
  | None => (st, 500) (* [requester_user.get] on [None] in the log line *)
  | Some requester_user =>
    if negb (is_manager (role requester_user)) then (st, 403)
    else
      match find_user user_id (users st) with
      | None => (st, 404)
      | Some user_to_logout =>
        match find (is_active_for user_id) (time_entries st) with
        | Some active_entry =>
          let logout_time := now_logout in
          let total_hours :=
            round_hours (logout_time - loginTime active_entry) in
          let new_note_content :=
            fstring
              ([ "Logged out by "; name requester_user;
                 ". Reason: "; note_content; nl ]
               ++ before_lines (loginTime active_entry)
                               (logoutTime active_entry)
                               (totalHours active_entry)
               ++ after_lines (loginTime active_entry) (Some logout_time)
                              total_hours) in
          let new_note :=
            {| nid := new_note_id;
               entityId := eid active_entry;
               entityType := time_entry;
               timestamp := now_note;
               editor := name requester_user;
               note := new_note_content |} in
          let updated :=
            update_first (is_active_for user_id)
              (fun e =>
                 set_editNotes (editNotes e ++ [new_note_id])
                   (set_lastModified (Some now_modified)
                      (set_edited true
                         (set_totalHours total_hours
                            (set_logoutTime (Some logout_time) e)))))
              (time_entries st) in
          let st1 := save_notes (set_notes (notes st ++ [new_note]) st) in
          (save_time_entries (set_time_entries updated st1), 200)
        | None => (st, 400)
        end
      end
  end.

(** *** [edit_time_entry] *)

(** A time field of the request body, as [data.get] returns it. *)
Inductive json_time :=
| JAbsent                  (* the key is missing or null: [None] *)
| JEmptyStr                (* the empty string *)
| JBadStr                  (* a non-empty string that is not an ISO time *)
| JNotStr (truthy : bool)  (* a number, boolean, array or object *)
| JIso (dt : datetime).    (* an ISO string of a naive datetime *)

Inductive parsed :=
| Parsed (dt : datetime)
| ValueError
| TypeError.

Definition fromisoformat (v : json_time) : parsed :=
  match v with
  | JAbsent => TypeError
  | JEmptyStr => ValueError
  | JBadStr => ValueError
  | JNotStr _ => TypeError
  | JIso dt => Parsed dt
  end.

Definition truthy_time (v : json_time) : bool :=
  match v with
  | JAbsent => false
  | JEmptyStr => false
  | JBadStr => true
  | JNotStr b => b
  | JIso _ => true
  end.

(** The body of the [try] block once both times are parsed. *)
Definition apply_edit (entry_id edit_note_content : string)
    (editor_user : User) (entry_to_edit : TimeEntry)
    (login_dt : datetime) (logout_dt : option datetime)
    (new_note_id : ident) (now_modified now_note : datetime)
    (st : store) : store * Z :=
  let after_total_hours :=
    match logout_dt with
    | Some lo => round_hours (lo - login_dt)
    | None => 0
    end in
  let new_note_content :=
    fstring
      ([ "Edited by "; name editor_user;
         ". Reason: "; edit_note_content; nl ]
       ++ before_lines (loginTime entry_to_edit) (logoutTime entry_to_edit)
                       (totalHours entry_to_edit)
       ++ after_lines login_dt logout_dt after_total_hours) in
  let new_note :=
    {| nid := new_note_id;
       entityId := entry_id;
       entityType := time_entry;
       timestamp := now_note;
       editor := name editor_user;
       note := new_note_content |} in
  let updated :=
    update_first (fun entry => (eid entry =? entry_id)%string)
      (fun e =>
         set_editNotes (editNotes e ++ [new_note_id])
           (set_lastModified (Some now_modified)
              (set_edited true
                 (set_totalHours after_total_hours
                    (set_logoutTime logout_dt
                       (set_loginTime login_dt e))))))
      (time_entries st) in
  let st1 := save_notes (set_notes (notes st ++ [new_note]) st) in
  (save_time_entries (set_time_entries updated st1), 200).

Definition edit_time_entry (entry_id : string)
    (new_login_time_str new_logout_time_str : json_time)
    (edit_note_content : string) (editor_user_id new_note_id : ident)
    (now_modified now_note : datetime) (st : store) : store * Z :=
  if (entry_id =? "")%string || (edit_note_content =? "")%string
  then (st, 400)
  else
    match find (fun entry => (eid entry =? entry_id)%string)
               (time_entries st) with
    | None => (st, 404)
    | Some entry_to_edit =>
      match find_user editor_user_id (users st) with
      | None => (st, 500) (* [editor_user.get] on [None] in the log line *)
      | Some editor_user =>
        if negb (is_manager (role editor_user)) then (st, 403)
        else
          (* try: *)
          match fromisoformat new_login_time_str with
          | TypeError => (st, 500)
          | ValueError => (st, 400)
          | Parsed login_dt =>
            if truthy_time new_logout_time_str then
              match fromisoformat new_logout_time_str with
              | TypeError => (st, 500)
              | ValueError => (st, 400)
              | Parsed logout_dt =>
                if logout_dt <? login_dt then (st, 400)
                else
                  apply_edit entry_id edit_note_content editor_user
                    entry_to_edit login_dt (Some logout_dt)
                    new_note_id now_modified now_note st
              end
            else
              apply_edit entry_id edit_note_content editor_user
                entry_to_edit login_dt None
                new_note_id now_modified now_note st
          end
      end
    end.

(** *** [get_all_time_entries] *)

Record ListedEntry := mkListed {
  entry_copy : TimeEntry;
  userName : string;
  editNotesFull : list Note
}.

(** The loop over [time_entries]: the listed copies, and
    [updated_entries_flag]. *)
Fixpoint listing_loop (current_time : datetime) (us : list User)
    (ns : list Note) (entries : list TimeEntry) : list ListedEntry * bool :=
  match entries with
  | [] => ([], false)
  | entry :: rest =>
    let expired :=
      edited entry
      && match lastModified entry with
         | Some last_mod_dt =>
           current_time - last_mod_dt >? timedelta_days 3
         | None => false
         end in
    let entry_copy := if expired then set_edited false entry else entry in
    let user_name :=
      match find_user (userId entry) us with
      | Some user => name user
      | None => "Unknown User"
      end in
    let full := filter (fun n => mem (nid n) (editNotes entry)) ns in
    let '(listed, flag) := listing_loop current_time us ns rest in
    (mkListed entry_copy user_name full :: listed, expired || flag)
  end.

Definition get_all_time_entries (current_time : datetime) (st : store)
    : store * (list ListedEntry * Z) :=
  let '(entries_with_names, updated_entries_flag) :=
    listing_loop current_time (users st) (notes st) (time_entries st) in
  ((if updated_entries_flag then save_time_entries st else st),
   (entries_with_names, 200)).

(** *** [suspend_user] *)

(** Whitespace of [str.strip], on the ASCII range. *)
Definition is_space (c : ascii) : bool :=
  let n := nat_of_ascii c in
  (Nat.leb 9 n && Nat.leb n 13) || (Nat.leb 28 n && Nat.leb n 32).

Fixpoint lstrip (s : string) : string :=
  match s with
  | EmptyString => EmptyString
  | String c r => if is_space c then lstrip r else s
  end.

Fixpoint rstrip (s : string) : string :=
  match s with
  | EmptyString => EmptyString
  | String c r =>
    let r' := rstrip r in
    if is_space c && (r' =? "")%string then EmptyString else String c r'
  end.

Definition strip (s : string) : string := rstrip (lstrip s).

(** [str] of a boolean. *)
Definition str_bool (b : bool) : string := if b then "True" else "False".

Definition suspend_user (user_id : ident) (suspend : bool)
    (note_content : string) (requester_id new_note_id : ident)
    (now_note : datetime) (st : store) : store * Z :=
  match find_user user_id (users st) with
  | None => (st, 404)
  | Some user_to_modify =>
    match find_user requester_id (users st) with
    | None => (st, 500) (* [requester_user.get] on [None] in the log line *)
    | Some requester_user =>
      if negb (is_manager (role requester_user)) then (st, 403)
      else if (user_id =? requester_id)%string then (st, 403)
      else if (role requester_user =? "TIMEKEEPER")%string
              && (role user_to_modify =? "ADMIN")%string
      then (st, 403)
      else if (note_content =? "")%string
              || (strip note_content =? "")%string
      then (st, 400)
      else
        let action := if suspend then "Suspended" else "Unsuspended" in
        let new_note_content :=
          fstring
            [ action; " by "; name requester_user;
              ". Reason: "; note_content; nl;
              "Before: Suspended: "; str_bool (is_suspended user_to_modify);
              ", Role: "; role user_to_modify; nl;
              "After: Suspended: "; str_bool suspend;
              ", Role: "; role user_to_modify ] in
        let new_note :=
          {| nid := new_note_id;
             entityId := user_id;
             entityType := user_suspension;
             timestamp := now_note;
             editor := name requester_user;
             note := new_note_content |} in
        let updated :=
          update_first (fun u => (uid u =? user_id)%string)
            (fun u =>
               set_suspension_notes (suspension_notes u ++ [new_note_id])
                 (set_is_suspended suspend u))
            (users st) in
        let st1 := save_notes (set_notes (notes st ++ [new_note]) st) in
        (save_users (set_users updated st1), 200)
    end
  end.

End Handlers.

(** ** Requests and runs *)

Inductive request :=
| ClockIn (user_id new_id : ident)
    (now_login now_date now_modified : datetime)
| ClockOut (user_id : ident) (now_logout now_today now_modified : datetime)
| ForceLogout (user_id : ident) (note_content : string)
    (requester_id new_note_id : ident)
    (now_logout now_modified now_note : datetime)
| EditEntry (entry_id : string) (login_time logout_time : json_time)
    (edit_note : string) (editor_user_id new_note_id : ident)
    (now_modified now_note : datetime)
| DeleteUser (user_id requester_id : ident)
| SetSuspension (user_id : ident) (suspend : bool) (note_content : string)
    (requester_id new_note_id : ident) (now_note : datetime)
| ListEntries (current_time : datetime).

Section Runs.

Context {RT : Runtime}.

(** The store after one request. *)
Definition handle (r : request) (st : store) : store :=
  match r with
  | ClockIn u i t1 t2 t3 => fst (clock_in u i t1 t2 t3 st)
  | ClockOut u t1 t2 t3 => fst (clock_out u t1 t2 t3 st)
  | ForceLogout u c q i t1 t2 t3 => fst (logout u c q i t1 t2 t3 st)
  | EditEntry e li lo c q i t1 t2 =>
    fst (edit_time_entry e li lo c q i t1 t2 st)
  | DeleteUser u q => fst (delete_user u q st)
  | SetSuspension u b c q i t => fst (suspend_user u b c q i t st)
  | ListEntries t => fst (get_all_time_entries t st)
  end.

(** The request is an edit without a logout time that addresses a closed
    entry. *)
Definition reopens (r : request) (st : store) : bool :=
  match r with
  | EditEntry entry_id _ logout_time _ _ _ _ _ =>
    negb (truthy_time logout_time)
    && match find (fun entry => (eid entry =? entry_id)%string)
                  (time_entries st) with
       | Some e =>
         match logoutTime e with Some _ => true | None => false end
       | None => false
       end
  | _ => false
  end.

(** The store after a sequence of requests, and whether one of them
    reopens an entry on the way. *)
Fixpoint run (rs : list request) (st : store) : store :=
  match rs with
  | [] => st
  | r :: rest => run rest (handle r st)
  end.

Fixpoint never_reopens (rs : list request) (st : store) : bool :=
  match rs with
  | [] => true
  | r :: rest => negb (reopens r st) && never_reopens rest (handle r st)
  end.

End Runs.

(** ** A reference runtime

    Exact arithmetic in place of the floating point of CPython: a duration is
    rounded to the nearest hundredth of an hour, ties to the even hundredth;
    a number of hundredths is printed the way [str] prints the float; a
    datetime is printed by the proleptic Gregorian calendar. *)

Definition us_per_hundredth : Z := 36000000.

Definition round_half_even (n d : Z) : Z :=
  let q := n / d in
  let r := n mod d in
  if 2 * r <? d then q
  else if d <? 2 * r then q + 1
  else if Z.even q then q else q + 1.

Definition str_Z (z : Z) : string :=
  DecimalString.NilZero.string_of_int (Z.to_int z).

Definition pad2 (z : Z) : string :=
  if z <? 10 then ("0" ++ str_Z z)%string else str_Z z.

Definition pad4 (z : Z) : string :=
  if z <? 10 then ("000" ++ str_Z z)%string
  else if z <? 100 then ("00" ++ str_Z z)%string
  else if z <? 1000 then ("0" ++ str_Z z)%string
  else str_Z z.

(** [str(h / 100)] for a float with two decimals. *)
Definition str_hundredths (h : Z) : string :=
  let a := Z.abs h in
  let frac := a mod 100 in
  let sign := if h <? 0 then "-" else "" in
  let decimals := if frac mod 10 =? 0 then str_Z (frac / 10) else pad2 frac in
  (sign ++ str_Z (a / 100) ++ "." ++ decimals)%string.

(** Year, month and day of a day number (day 0 is 0001-01-01). *)
Definition civil_of_day (day : Z) : Z * Z * Z :=
  let z := day + 306 in
  let era := z / 146097 in
  let doe := z mod 146097 in
  let yoe := (doe - doe / 1460 + doe / 36524 - doe / 146096) / 365 in
  let doy := doe - (365 * yoe + yoe / 4 - yoe / 100) in
  let mp := (5 * doy + 2) / 153 in
  let d := doy - (153 * mp + 2) / 5 + 1 in
  let m := if mp <? 10 then mp + 3 else mp - 9 in
  let y := yoe + era * 400 + (if m <=? 2 then 1 else 0) in
  (y, m, d).

Definition strftime_ymd_hm (dt : datetime) : string :=
  let '(y, m, d) := civil_of_day (date_of dt) in
  let minute_of_day := (dt mod us_per_day) / 60000000 in
  let hh := pad2 (minute_of_day / 60) in
  let mm := pad2 (minute_of_day mod 60) in
  (pad4 y ++ "-" ++ pad2 m ++ "-" ++ pad2 d ++ " " ++ hh ++ ":" ++ mm)%string.

#[global] Instance reference_runtime : Runtime := {
  round_hours := fun us => round_half_even us us_per_hundredth;
  str_hours := str_hundredths;
  strftime_minutes := strftime_ymd_hm
}.

(** ** Sample data *)

(** The datetime [h]:[m] on day number [day]. *)
Definition at_time (day h m : Z) : datetime :=
  day * us_per_day + (h * 3600 + m * 60) * 1000000.

(** 2024-01-15. *)
Definition monday : Z := 738899.

Definition admin_user : User :=
  {| uid := "u-admin"; name := "System Admin";
     email := Some "admin@example.com"; phone := Some "555-111-2222";
     role := "ADMIN"; pin := "0000"; createdAt := at_time monday 8 0;
     is_suspended := false; suspension_notes := [] |}.

Definition keeper_user : User :=
  {| uid := "u-keeper"; name := "Lead Timekeeper";
     email := Some "timekeeper@example.com"; phone := Some "555-333-4444";
     role := "TIMEKEEPER"; pin := "1111"; createdAt := at_time monday 8 0;
     is_suspended := false; suspension_notes := [] |}.

Definition john_user : User :=
  {| uid := "u-john"; name := "John Doe";
     email := Some "john@example.com"; phone := Some "555-555-6666";
     role := "worker"; pin := "1234"; createdAt := at_time monday 8 0;
     is_suspended := false; suspension_notes := [] |}.

(** The store after [initialize_users] on empty files. *)
Definition fresh_store : store :=
  let us := [admin_user; keeper_user; john_user] in
  mkStore us [] [] us [] [].

(** John has clocked in at 09:00. *)
Definition john_at_work : store :=
  fst (clock_in "u-john" "e-1" (at_time monday 9 0) (at_time monday 9 0)
         (at_time monday 9 0) fresh_store).


(** John is at work and an active entry already exists for him: used to
    probe the status of a second clock-in. *)
Definition second_clock_in : store * Z :=
  clock_in "u-john" "e-2" (at_time monday 9 30) (at_time monday 9 30)
    (at_time monday 9 30) john_at_work.

(** The morning session ends at 12:00; John returns at 13:00; then the
    administrator edits the morning entry and sends no logout time. *)
Definition morning_done : store * Z :=
  clock_out "u-john" (at_time monday 12 0) (at_time monday 12 0)
    (at_time monday 12 0) john_at_work.

Definition john_back : store * Z :=
  clock_in "u-john" "e-2" (at_time monday 13 0) (at_time monday 13 0)
    (at_time monday 13 0) (fst morning_done).

Definition reopen_morning : store * Z :=
  edit_time_entry "e-1" (JIso (at_time monday 9 0)) JAbsent
    "Still at work" "u-admin" "n-1"
    (at_time monday 14 0) (at_time monday 14 0) (fst john_back).

(** The same four requests as a run from the fresh store. *)
Definition reopening_run : list request :=
  [ ClockIn "u-john" "e-1" (at_time monday 9 0) (at_time monday 9 0)
      (at_time monday 9 0);
    ClockOut "u-john" (at_time monday 12 0) (at_time monday 12 0)
      (at_time monday 12 0);
    ClockIn "u-john" "e-2" (at_time monday 13 0) (at_time monday 13 0)
      (at_time monday 13 0);
    EditEntry "e-1" (JIso (at_time monday 9 0)) JAbsent
      "Still at work" "u-admin" "n-1"
      (at_time monday 14 0) (at_time monday 14 0) ].

(** The administrator logs John out at 17:00 (the entry is now flagged as
    edited); the entries are listed four days later, and once more after
    that. *)
Definition forced_out : store * Z :=
  logout "u-john" "Forgot to clock out" "u-admin" "n-1"
    (at_time monday 17 0) (at_time monday 17 0) (at_time monday 17 0)
    john_at_work.

Definition listing_on_friday : store * (list ListedEntry * Z) :=
  get_all_time_entries (at_time (monday + 4) 9 0) (fst forced_out).

Definition listing_on_saturday : store * (list ListedEntry * Z) :=
  get_all_time_entries (at_time (monday + 5) 9 0) (fst listing_on_friday).

(** The administrator suspends John while John is at work; John then
    clocks out at 17:00. *)
Definition john_suspended : store * Z :=
  suspend_user "u-john" true "Badge lost" "u-admin" "n-1"
    (at_time monday 10 0) john_at_work.

Definition suspended_clock_out : store * Z :=
  clock_out "u-john" (at_time monday 17 0) (at_time monday 17 0)
    (at_time monday 17 0) (fst john_suspended).


(** The morning entry is edited with the two times swapped, and then
    without a login time. *)
Definition swapped_edit : store * Z :=
  edit_time_entry "e-1" (JIso (at_time monday 12 0))
    (JIso (at_time monday 9 0)) "Swap" "u-admin" "n-1"
    (at_time monday 14 0) (at_time monday 14 0) (fst morning_done).


(** A regular edit of the morning entry: 08:30 to 12:00. *)
Definition early_start_edit : store * Z :=
  edit_time_entry "e-1" (JIso (at_time monday 8 30))
    (JIso (at_time monday 12 0)) "Came early" "u-keeper" "n-1"
    (at_time monday 14 0) (at_time monday 14 0) (fst morning_done).

(** 09:00 to 17:00 and 18:00 to 19:30 on one day. *)
Definition long_day : store * Z :=
  let s1 := john_at_work in
  let s2 := clock_out "u-john" (at_time monday 17 0) (at_time monday 17 0)
              (at_time monday 17 0) s1 in
  let s3 := clock_in "u-john" "e-2" (at_time monday 18 0)
              (at_time monday 18 0) (at_time monday 18 0) (fst s2) in
  clock_out "u-john" (at_time monday 19 30) (at_time monday 19 30)
    (at_time monday 19 30) (fst s3).

(** After the forced logout the administrator clocks in, the timekeeper
    suspends John and corrects the entry of the administrator, and the
    administrator deletes John. *)
Definition before_removal : store :=
  let s1 := clock_in "u-admin" "e-2" (at_time monday 18 0)
              (at_time monday 18 0) (at_time monday 18 0) (fst forced_out) in
  let s2 := suspend_user "u-john" true "Left the company" "u-keeper" "n-2"
              (at_time monday 18 30) (fst s1) in
  fst (edit_time_entry "e-2" (JIso (at_time monday 18 5)) JAbsent
         "Late badge" "u-keeper" "n-3"
         (at_time monday 18 40) (at_time monday 18 40) (fst s2)).

Definition john_removed : store * Z :=
  delete_user "u-john" "u-admin" before_removal.

(** ** Vocabulary of the statements *)

(** The entry addressed by an edit request exists. *)
Definition entry_exists (entry_id : ident) (st : store) : Prop :=
  exists entry, In entry (time_entries st) /\ eid entry = entry_id.

(** The requester is a user with role ADMIN or TIMEKEEPER. *)
Definition is_authorised (requester_id : ident) (st : store) : Prop :=
  exists user, find_user requester_id (users st) = Some user
               /\ is_manager (role user) = true.






(** The entries of [user_id] that have no logout time. *)
Definition active_entries_of (user_id : ident) (es : list TimeEntry)
    : list TimeEntry :=
  filter (is_active_for user_id) es.

(** The invariant of the data model: no user has two active entries. *)
Definition at_most_one_active (st : store) : Prop :=
  forall user_id,
    (List.length (active_entries_of user_id (time_entries st)) <= 1)%nat.

(** A test of the invariant: it is enough to look at the users that own an
    entry. *)
Definition at_most_one_activeb (st : store) : bool :=
  forallb
    (fun e =>
       Nat.leb
         (List.length (active_entries_of (userId e) (time_entries st))) 1)
    (time_entries st).

(** [kept P l l']: [l'] is [l] without the elements that fail [P], the
    others in their order and number. *)
Inductive kept {A} (P : A -> Prop) : list A -> list A -> Prop :=
| kept_nil : kept P [] []
| kept_keep x l l' : P x -> kept P l l' -> kept P (x :: l) (x :: l')
| kept_drop x l l' : ~ P x -> kept P l l' -> kept P (x :: l) l'.

(** A note that goes with the deletion of [deleted]: its id is listed by
    one of the entries of that user or by the suspension notes of the
    user. *)
Definition note_of_deleted (deleted : User) (st : store) (n : Note) : Prop :=
  (exists e, In e (time_entries st) /\ userId e = uid deleted
             /\ In (nid n) (editNotes e))
  \/ In (nid n) (suspension_notes deleted).

(** [contains s t]: the text [t] has [s] as a part. *)
Definition contains (s t : string) : Prop :=
  exists a b, t = (a ++ s ++ b)%string.

(** The text is a heading followed by a part that shows every value of
    [before] and a part that shows every value of [after]. *)
Definition shows_before_after (text : string) (before after : list string)
    : Prop :=
  exists head b a,
    text = (head ++ b ++ a)%string
    /\ Forall (fun s => contains s b) before
    /\ Forall (fun s => contains s a) after.

(** From [l] to [l'] the element [x] has become [x'], where it stood. *)
Definition replaced_in {A} (l l' : list A) (x x' : A) : Prop :=
  exists pre post, l = pre ++ x :: post /\ l' = pre ++ x' :: post.

Section NoteVocabulary.

Context {RT : Runtime}.

(** The login time, logout time and hours of an entry as a note prints
    them. *)
Definition printed_state (e : TimeEntry) : list string :=
  [ format_time_for_log (Some (loginTime e));
    format_time_for_log (logoutTime e);
    str_hours (totalHours e) ].

(** One note, with the given id, was appended for the entry [e], which has
    become [e'] and lists the note; the text shows [e] before [e']. *)
Definition entry_note_added (st st' : store) (new_note_id : ident)
    (e e' : TimeEntry) : Prop :=
  exists n,
    notes st' = notes st ++ [n]
    /\ notes_file st' = notes st'
    /\ nid n = new_note_id
    /\ entityId n = eid e
    /\ entityType n = time_entry
    /\ replaced_in (time_entries st) (time_entries st') e e'
    /\ eid e' = eid e
    /\ editNotes e' = editNotes e ++ [new_note_id]
    /\ shows_before_after (note n) (printed_state e) (printed_state e').

End NoteVocabulary.

(** The same for a user [u] that has become [u']: the text shows the
    suspension flag and the role. *)
Definition suspension_note_added (st st' : store) (new_note_id : ident)
    (u u' : User) : Prop :=
  exists n,
    notes st' = notes st ++ [n]
    /\ notes_file st' = notes st'
    /\ nid n = new_note_id
    /\ entityId n = uid u
    /\ entityType n = user_suspension
    /\ replaced_in (users st) (users st') u u'
    /\ uid u' = uid u
    /\ suspension_notes u' = suspension_notes u ++ [new_note_id]
    /\ shows_before_after (note n)
         [str_bool (is_suspended u); role u]
         [str_bool (is_suspended u'); role u'].

From Stdlib Require Import Sorted Permutation.

(** ** The handlers of the user directory and of the ledger *)

(** *** PINs *)

(** [str.isdigit], on the ASCII range: a non-empty string of decimal
    digits. *)
Definition is_digit (c : ascii) : bool :=
  let n := nat_of_ascii c in
  Nat.leb 48 n && Nat.leb n 57.

Fixpoint all_digits (s : string) : bool :=
  match s with
  | EmptyString => true
  | String c r => is_digit c && all_digits r
  end.

Definition isdigit (s : string) : bool :=
  negb (s =? "")%string && all_digits s.

(** [not pin or not isinstance(pin, str) or not pin.isdigit()]; a PIN of
    the request body is [None] when the key is missing or its value is not
    a string. *)
Definition invalid_pin (pin_value : option string) : bool :=
  match pin_value with
  | None => true
  | Some p => (p =? "")%string || negb (isdigit p)
  end.

(** [next((u for u in users if u['pin'] == pin), None)]. *)
Definition find_by_pin (p : string) (us : list User) : option User :=
  find (fun u => (pin u =? p)%string) us.

(** *** [login_pin] *)

(** The user object of the answer. *)
Record SessionUser := mkSessionUser {
  su_id : ident;
  su_name : string;
  su_email : option string;
  su_role : string;
  su_pin : string
}.

Definition login_pin (pin_value : option string) (st : store)
    : Z * option SessionUser :=
  if invalid_pin pin_value then (400, None)
  else
    match pin_value with
    | None => (401, None)
    | Some p =>
      match find_by_pin p (users st) with
      | Some user =>
        if is_suspended user then (403, None)
        else
          (200, Some (mkSessionUser (uid user) (name user) (email user)
                        (role user) (pin user)))
      | None => (401, None)
      end
    end.

(** *** [get_worker_status_by_pin] *)

(** The sorts of Python are stable: elements that compare equal keep
    their order.  [goes_first y x] says that [y] is strictly ahead of [x]
    in the order of the sort. *)
Fixpoint insert_sorted {A} (goes_first : A -> A -> bool) (x : A)
    (l : list A) : list A :=
  match l with
  | [] => [x]
  | y :: r =>
    if goes_first y x then y :: insert_sorted goes_first x r else x :: l
  end.

Definition stable_sort {A} (goes_first : A -> A -> bool) (l : list A)
    : list A :=
  fold_right (insert_sorted goes_first) [] l.

(** Ascending by a key. *)
Definition ascending {A} (key : A -> Z) (y x : A) : bool := key y <? key x.

(** [sorted(entries, key=loginTime, reverse=True)]. *)
Definition sorted_by_login_desc (l : list TimeEntry) : list TimeEntry :=
  stable_sort (fun y x => loginTime x <? loginTime y) l.

(** [[n for n in notes if n['id'] in ids]]. *)
Definition hydrate (ids : list ident) (ns : list Note) : list Note :=
  filter (fun n => mem (nid n) ids) ns.

Record StatusUser := mkStatusUser {
  ws_id : ident;
  ws_name : string;
  ws_email : option string;
  ws_role : string
}.

Record WorkerStatus := mkWorkerStatus {
  ws_user : StatusUser;
  is_clocked_in : bool;
  current_session_start : option datetime;
  last_session_total_hours : option Z;
  last_session_login_time : option datetime;
  last_session_logout_time : option datetime;
  historical_entries : list (TimeEntry * list Note)
}.

Definition is_open (entry : TimeEntry) : bool :=
  match logoutTime entry with None => true | Some _ => false end.

Definition get_worker_status_by_pin (pin_value : option string) (st : store)
    : Z * option WorkerStatus :=
  match
    match pin_value with
    | Some p =>
      find (fun u => (pin u =? p)%string && (role u =? "worker")%string)
           (users st)
    | None => None
    end
  with
  | None => (401, None)
  | Some user =>
    if is_suspended user then (403, None)
    else
      let user_id := uid user in
      let user_time_entries :=
        sorted_by_login_desc
          (filter (fun entry => (userId entry =? user_id)%string)
                  (time_entries st)) in
      let historical_entries_with_notes :=
        map (fun entry => (entry, hydrate (editNotes entry) (notes st)))
            user_time_entries in
      let who := mkStatusUser (uid user) (name user) (email user)
                   (role user) in
      match find is_open user_time_entries with
      | Some active_entry =>
        (200, Some (mkWorkerStatus who true (Some (loginTime active_entry))
                      None None None historical_entries_with_notes))
      | None =>
        match filter (fun entry => negb (is_open entry)) user_time_entries with
        | last_session :: _ =>
          (200, Some (mkWorkerStatus who false None
                        (Some (totalHours last_session))
                        (Some (loginTime last_session))
                        (logoutTime last_session)
                        historical_entries_with_notes))
        | [] =>
          (200, Some (mkWorkerStatus who false None None None None
                        historical_entries_with_notes))
        end
      end
  end.

(** *** [get_users] *)



(** *** [add_user] *)

(** Truth value of a string of the request body that may be missing. *)
Definition truthy_str (v : option string) : bool :=
  match v with
  | Some s => negb (s =? "")%string
  | None => false
  end.

(** [v if v else None]. *)
Definition or_none (v : option string) : option string :=
  if truthy_str v then v else None.

(** [any(u.get('email') == email for u in users
         if u.get('email') is not None)]. *)
Definition email_in_use (e : string) (us : list User) : bool :=
  existsb (fun u => match email u with
                    | Some x => (x =? e)%string
                    | None => false
                    end) us.

Definition add_user (name_value : string)
    (email_value phone_value : option string) (role_value : string)
    (pin_value : option string) (requester_role : string)
    (new_id : ident) (now_created : datetime) (st : store) : store * Z :=
  if (name_value =? "")%string then (st, 400)
  else if invalid_pin pin_value then (st, 400)
  else
    match pin_value with
    | None => (st, 400)
    | Some p =>
      if existsb (fun u => (pin u =? p)%string) (users st) then (st, 409)
      else if negb
                ((requester_role =? "ADMIN")%string
                 || (requester_role =? "TIMEKEEPER")%string
                    && (role_value =? "worker")%string)
      then (st, 403)
      else if truthy_str email_value
              && match email_value with
                 | Some e => email_in_use e (users st)
                 | None => false
                 end
      then (st, 409)
      else
        let new_user :=
          {| uid := new_id;
             name := name_value;
             email := or_none email_value;
             phone := or_none phone_value;
             role := role_value;
             pin := p;
             createdAt := now_created;
             is_suspended := false;
             suspension_notes := [] |} in
        (save_users (set_users (users st ++ [new_user]) st), 201)
    end.

(** *** [get_note] and [get_notes_for_entity] *)

Definition get_note (note_id : ident) (st : store) : option Note * Z :=
  match find (fun n => (nid n =? note_id)%string) (notes st) with
  | Some n => (Some n, 200)
  | None => (None, 404)
  end.

(** [list.sort(key=timestamp)]. *)
Definition sorted_by_timestamp (l : list Note) : list Note :=
  stable_sort (fun y x => timestamp y <? timestamp x) l.

Definition get_notes_for_entity (entity_id : ident) (st : store)
    : list Note * Z :=
  (sorted_by_timestamp
     (filter (fun n => (entityId n =? entity_id)%string) (notes st)),
   200).

(** *** [initialize_users] *)

Record DefaultUser := mkDefaultUser {
  d_name : string;
  d_email : string;
  d_role : string;
  d_pin : string;
  d_phone : string
}.

Definition DEFAULT_USERS_CONFIG : list DefaultUser :=
  [ mkDefaultUser "System Admin" "admin@example.com" "ADMIN" "0000"
      "555-111-2222";
    mkDefaultUser "Lead Timekeeper" "timekeeper@example.com" "TIMEKEEPER"
      "1111" "555-333-4444";
    mkDefaultUser "John Doe" "john@example.com" "worker" "1234"
      "555-555-6666" ].

(** The fields of an existing user that are set to those of the
    configuration. *)
Definition corrected (d : DefaultUser) (u : User) : User :=
  mkUser (uid u) (d_name d) (Some (d_email d)) (Some (d_phone d)) (d_role d)
         (pin u) (createdAt u) (is_suspended u) (suspension_notes u).

(** The existing user differs from the configuration in a field that the
    loop corrects. *)
Definition needs_correction (d : DefaultUser) (u : User) : bool :=
  negb ((role u =? d_role d)%string
        && (name u =? d_name d)%string
        && match email u with
           | Some e => (e =? d_email d)%string
           | None => false
           end
        && match phone u with
           | Some e => (e =? d_phone d)%string
           | None => false
           end).

(** The loop over the configuration; [fresh k] is the id and the creation
    time of the [k]-th default user, read only when that user is added.
    The keys [is_suspended] and [suspension_notes] are present in every
    record, so the two branches that add them do not run. *)
Fixpoint initialize_loop (configs : list DefaultUser) (k : nat)
    (fresh : nat -> ident * datetime) (us : list User) (updated_users : bool)
    : list User * bool :=
  match configs with
  | [] => (us, updated_users)
  | d :: rest =>
    match find_by_pin (d_pin d) us with
    | Some existing_user =>
      initialize_loop rest (S k) fresh
        (update_first (fun u => (pin u =? d_pin d)%string) (corrected d) us)
        (updated_users || needs_correction d existing_user)
    | None =>
      let new_user :=
        {| uid := fst (fresh k);
           name := d_name d;
           email := Some (d_email d);
           phone := Some (d_phone d);
           role := d_role d;
           pin := d_pin d;
           createdAt := snd (fresh k);
           is_suspended := false;
           suspension_notes := [] |} in
      initialize_loop rest (S k) fresh (us ++ [new_user]) true
    end
  end.

(** [initialize_users] on the content of [users.json]: the users, and the
    content of the file afterwards. *)
Definition initialize_users (fresh : nat -> ident * datetime)
    (users_json : list User) : list User * list User :=
  let '(us, updated_users) :=
    initialize_loop DEFAULT_USERS_CONFIG 0 fresh users_json false in
  (us, if updated_users then us else users_json).

(** The store when the module is loaded. *)
Definition startup (fresh : nat -> ident * datetime) (users_json : list User)
    (time_entries_json : list TimeEntry) (notes_json : list Note) : store :=
  let '(us, file) := initialize_users fresh users_json in
  mkStore us time_entries_json notes_json file time_entries_json notes_json.

(** The status with which a request is answered. *)
Definition answer {RT : Runtime} (r : request) (st : store) : Z :=
  match r with
  | ClockIn u i t1 t2 t3 => snd (clock_in u i t1 t2 t3 st)
  | ClockOut u t1 t2 t3 => snd (clock_out u t1 t2 t3 st)
  | ForceLogout u c q i t1 t2 t3 => snd (logout u c q i t1 t2 t3 st)
  | EditEntry e li lo c q i t1 t2 =>
    snd (edit_time_entry e li lo c q i t1 t2 st)
  | DeleteUser u q => snd (delete_user u q st)
  | SetSuspension u b c q i t => snd (suspend_user u b c q i t st)
  | ListEntries t => snd (snd (get_all_time_entries t st))
  end.

(** ** Vocabulary of the further statements *)

(** Every file holds the list it shadows. *)
Definition in_sync (st : store) : Prop :=
  users_file st = users st
  /\ time_entries_file st = time_entries st
  /\ notes_file st = notes st.

(** No request of the run deletes a user. *)
Definition no_deletion (rs : list request) : bool :=
  forallb (fun r => match r with DeleteUser _ _ => false | _ => true end) rs.

(** The entries that do not belong to [user_id]. *)
Definition entries_of_others (user_id : ident) (es : list TimeEntry)
    : list TimeEntry :=
  filter (fun e => negb (userId e =? user_id)%string) es.

(** Every entry belongs to a user of the directory. *)
Definition entries_have_owner (st : store) : Prop :=
  forall e, In e (time_entries st) ->
            exists u, find_user (userId e) (users st) = Some u.

(** No two users share a PIN; no two users share an e-mail address. *)
Definition unique_pins (us : list User) : Prop := NoDup (map pin us).

Definition emails_of (us : list User) : list string :=
  flat_map (fun u => match email u with Some e => [e] | None => [] end) us.

Definition unique_emails (us : list User) : Prop := NoDup (emails_of us).

(** The first user with the PIN of the configuration carries its name,
    e-mail address, phone and role. *)
Definition configured (d : DefaultUser) (us : list User) : Prop :=
  exists u, find_by_pin (d_pin d) us = Some u
            /\ name u = d_name d /\ email u = Some (d_email d)
            /\ phone u = Some (d_phone d) /\ role u = d_role d.

(** What [initialize_users] keeps of a user. *)
Definition identity_of (u : User)
    : ident * string * datetime * bool * list ident :=
  (uid u, pin u, createdAt u, is_suspended u, suspension_notes u).

(** The hours that go with the login and logout time of an entry. *)
Definition hours_of_span {RT : Runtime} (e : TimeEntry) : Z :=
  match logoutTime e with
  | Some t => round_hours (t - loginTime e)
  | None => 0
  end.

(** ** Further sample data *)

(** The ids and creation times of the three default users. *)
Definition sample_fresh (k : nat) : ident * datetime :=
  match k with
  | O => ("u-admin", at_time monday 8 0)
  | S O => ("u-keeper", at_time monday 8 0)
  | _ => ("u-john", at_time monday 8 0)
  end.

(** The timekeeper adds the worker Ann; a worker tries the same. *)
Definition ann_added : store * Z :=
  add_user "Ann Lee" (Some "ann@example.com") None "worker" (Some "4321")
    "TIMEKEEPER" "u-ann" (at_time monday 8 30) fresh_store.


(** A users file that holds Ann only, with the PIN 4321. *)
Definition ann_only : list User :=
  [ {| uid := "u-ann"; name := "Ann Lee"; email := Some "ann@example.com";
       phone := None; role := "worker"; pin := "4321";
       createdAt := at_time monday 8 30;
       is_suspended := false; suspension_notes := [] |} ].

(** After the forced logout of John: John clocks in again, the timekeeper
    corrects the first entry, and the entries are listed. *)
Definition later_run : list request :=
  [ ClockIn "u-john" "e-2" (at_time monday 18 0) (at_time monday 18 0)
      (at_time monday 18 0);
    EditEntry "e-1" (JIso (at_time monday 9 0)) (JIso (at_time monday 16 30))
      "Left earlier" "u-keeper" "n-2"
      (at_time monday 18 10) (at_time monday 18 10);
    ListEntries (at_time monday 18 20) ].

(** John is suspended by the administrator and restored by the
    timekeeper. *)
Definition john_barred : store * Z :=
  suspend_user "u-john" true "Badge lost" "u-admin" "n-1"
    (at_time monday 10 0) fresh_store.

Definition john_restored : store * Z :=
  suspend_user "u-john" false "Badge found" "u-keeper" "n-2"
    (at_time monday 11 0) (fst john_barred).
(* ================================================================== *)
(** * Properties *)

(** ** Lists: the first match and its replacement *)

Lemma find_split {A} (p : A -> bool) (l : list A) (x : A) :
  find p l = Some x ->
  exists pre post,
    l = pre ++ x :: post /\ p x = true /\ forallb (fun y => negb (p y)) pre = true.
Proof.
  induction l as [|y r IH]; simpl; [discriminate|].
  destruct (p y) eqn:Hy; intros H.
  - inversion H; subst. exists [], r. auto.
  - destruct (IH H) as (pre & post & -> & Hx & Hpre).
    exists (y :: pre), post. simpl. rewrite Hy. auto.
Qed.

Lemma find_None_forall {A} (p : A -> bool) (l : list A) :
  find p l = None <-> (forall x, In x l -> p x = false).
Proof.
  split.
  - intros H x Hx. exact (find_none p l H x Hx).
  - induction l as [|y r IH]; simpl; intros H; [reflexivity|].
    rewrite (H y (or_introl eq_refl)). apply IH. intros x Hx. apply H. now right.
Qed.

Lemma find_is_Some {A} (p : A -> bool) (l : list A) (x : A) :
  In x l -> p x = true -> exists y, find p l = Some y.
Proof.
  intros Hin Hp. destruct (find p l) as [y|] eqn:E; [eauto|].
  rewrite (find_none p l E x Hin) in Hp. discriminate.
Qed.

Lemma update_first_split {A} (p : A -> bool) (f : A -> A) (pre post : list A) (x : A) :
  forallb (fun y => negb (p y)) pre = true -> p x = true ->
  update_first p f (pre ++ x :: post) = pre ++ f x :: post.
Proof.
  induction pre as [|y r IH]; simpl; intros Hpre Hx.
  - now rewrite Hx.
  - apply andb_prop in Hpre as [Hy Hr].
    apply negb_true_iff in Hy. rewrite Hy. f_equal. auto.
Qed.

Lemma find_user_None (user_id : ident) (us : list User) :
  find_user user_id us = None <-> (forall u, In u us -> uid u <> user_id).
Proof.
  unfold find_user. rewrite find_None_forall. split; intros H u Hu.
  - apply String.eqb_neq. auto.
  - apply String.eqb_neq. auto.
Qed.

Lemma find_user_uid (user_id : ident) (us : list User) (u : User) :
  find_user user_id us = Some u -> uid u = user_id /\ In u us.
Proof.
  unfold find_user. intros H. apply find_some in H as [Hin Hp].
  apply String.eqb_eq in Hp. auto.
Qed.

Lemma is_active_for_spec (user_id : ident) (e : TimeEntry) :
  is_active_for user_id e = true <-> userId e = user_id /\ logoutTime e = None.
Proof.
  unfold is_active_for. rewrite andb_true_iff, String.eqb_eq.
  destruct (logoutTime e); intuition congruence.
Qed.

(** An entry of [user_id] without a logout time is in the list exactly when
    the search for the active entry finds one. *)
Lemma active_entry_found (user_id : ident) (es : list TimeEntry) :
  (exists e, In e es /\ userId e = user_id /\ logoutTime e = None) <->
  (exists e, find (is_active_for user_id) es = Some e).
Proof.
  split.
  - intros (e & Hin & Hu & Ho).
    apply (find_is_Some _ _ e Hin). apply is_active_for_spec. auto.
  - intros (e & He). apply find_some in He as [Hin Hp].
    apply is_active_for_spec in Hp. eauto.
Qed.

(** Case analysis on the tests of a handler. *)
Ltac split_tests :=
  repeat match goal with
         | |- context [match ?x with _ => _ end] =>
           match type of x with
           | bool => destruct x eqn:?
           | option _ => destruct x eqn:?
           | parsed => destruct x eqn:?
           end
         end.

(** ** Clock-in *)

Section ClockIn.

Variables (user_id new_id : ident) (now_login now_date now_modified : datetime).
Variable st : store.

(** C3, as the code has it: clock-in answers 404 when no user has the id,
    403 when the user is suspended and 400 (bad input; the handler has no
    409 here) when the user, not suspended, already has an entry without a
    logout time.  In each of the three cases, and whenever the answer is not
    200, the store is returned as it was: no entry is created. *)
Theorem clock_in_failures :
  let result := clock_in user_id new_id now_login now_date now_modified st in
  ((forall u, In u (users st) -> uid u <> user_id) -> result = (st, 404))
  /\ (forall user, find_user user_id (users st) = Some user ->
                   is_suspended user = true -> result = (st, 403))
  /\ (forall user, find_user user_id (users st) = Some user ->
                   is_suspended user = false ->
                   (exists e, In e (time_entries st) /\ userId e = user_id
                              /\ logoutTime e = None) ->
                   result = (st, 400))
  /\ (snd result <> 200 -> fst result = st).
Proof.
  intros result. subst result. unfold clock_in. repeat split.
  - intros H. apply find_user_None in H. now rewrite H.
  - intros user -> ->. reflexivity.
  - intros user -> -> Hact. apply active_entry_found in Hact as [e ->].
    reflexivity.
  - split_tests; simpl; congruence.
Qed.

End ClockIn.

(** ** Editing an entry: the rejected requests *)

Section EditRejected.

Context {RT : Runtime}.

Variables (entry_id edit_note_content : string).
Variables (editor_user_id new_note_id : ident).
Variables (now_modified now_note : datetime).
Variable st : store.

Lemma entry_exists_found :
  entry_exists entry_id st ->
  exists entry,
    find (fun entry => (eid entry =? entry_id)%string) (time_entries st)
    = Some entry.
Proof.
  intros (entry & Hin & Hid).
  apply (find_is_Some _ _ entry Hin). now apply String.eqb_eq.
Qed.

(** C6: a request whose logout time precedes its login time leaves the
    whole store as it was (so the entry keeps its login and logout times,
    hours, edited flag, modification time and note ids, and the ledger gets
    no note) and is answered with an error; the error is 400, invalid
    input, when the entry exists and the editor is an administrator or a
    timekeeper. *)
Theorem edit_logout_before_login_rejected (login_dt logout_dt : datetime) :
  logout_dt < login_dt ->
  let result :=
    edit_time_entry entry_id (JIso login_dt) (JIso logout_dt)
      edit_note_content editor_user_id new_note_id now_modified now_note st in
  fst result = st
  /\ snd result <> 200
  /\ (entry_exists entry_id st -> is_authorised editor_user_id st ->
      snd result = 400).
Proof.
  intros Hlt result. subst result. unfold edit_time_entry.
  apply Z.ltb_lt in Hlt. simpl fromisoformat. simpl truthy_time. cbv iota.
  rewrite Hlt. repeat split.
  - split_tests; reflexivity.
  - split_tests; simpl; congruence.
  - intros Hentry (user & Huser & Hrole).
    apply entry_exists_found in Hentry as [entry Hentry].
    rewrite Hentry, Huser, Hrole. simpl. split_tests; reflexivity.
Qed.


End EditRejected.

(** ** Suspension: the rejected requests *)

Section SuspendRejected.

Variables (user_id : ident) (suspend : bool) (note_content : string).
Variables (requester_id new_note_id : ident) (now_note : datetime).
Variable st : store.


End SuspendRejected.


(** ** The invariant on active entries *)

Lemma at_most_one_activeb_spec (st : store) :
  at_most_one_activeb st = true <-> at_most_one_active st.
Proof.
  unfold at_most_one_activeb, at_most_one_active. rewrite forallb_forall.
  split.
  - intros H user_id.
    destruct (active_entries_of user_id (time_entries st)) as [|e r] eqn:E.
    + simpl. lia.
    + assert (Hin : In e (active_entries_of user_id (time_entries st)))
        by (rewrite E; now left).
      apply filter_In in Hin as [Hin Hact].
      apply is_active_for_spec in Hact as [Hu _].
      specialize (H e Hin). apply Nat.leb_le in H.
      rewrite Hu, E in H. exact H.
  - intros H e _. apply Nat.leb_le. apply H.
Qed.

(** C1, at the failing run: from the fresh store John clocks in at 09:00,
    out at 12:00 and in again at 13:00; every store so far has at most one
    active entry per user.  The administrator then edits the morning entry
    and sends no logout time: the request is accepted and John has two
    active entries.  (Every other request keeps the invariant: see
    [run_keeps_invariant].) *)
Theorem edit_without_logout_reopens_second_entry :
  run reopening_run fresh_store = fst reopen_morning
  /\ at_most_one_active fresh_store
  /\ snd morning_done = 200 /\ snd john_back = 200
  /\ at_most_one_active john_at_work
  /\ at_most_one_active (fst morning_done)
  /\ at_most_one_active (fst john_back)
  /\ snd reopen_morning = 200
  /\ map eid (active_entries_of "u-john" (time_entries (fst reopen_morning)))
     = ["e-1"; "e-2"]
  /\ ~ at_most_one_active (fst reopen_morning).
Proof.
  repeat split; try reflexivity;
    try (apply at_most_one_activeb_spec; reflexivity).
  intros H. apply at_most_one_activeb_spec in H. discriminate H.
Qed.

(** ** Listing the entries *)

(** The listing hands out copies: the lists of the store are what they
    were, and the entries file holds either what it held or the same
    unchanged list. *)
Lemma listing_keeps_store (current_time : datetime) (st : store) :
  let st' := fst (get_all_time_entries current_time st) in
  users st' = users st /\ time_entries st' = time_entries st
  /\ notes st' = notes st
  /\ (time_entries_file st' = time_entries_file st
      \/ time_entries_file st' = time_entries st).
Proof.
  unfold get_all_time_entries.
  destruct (listing_loop current_time (users st) (notes st) (time_entries st))
    as [listed [|]]; simpl; auto.
Qed.

(** An entry changed three days ago or less is listed as it is stored. *)
Lemma listing_loop_recent (current_time : datetime) (us : list User)
    (ns : list Note) (es : list TimeEntry) :
  (forall e t, In e es -> lastModified e = Some t ->
               current_time - t <= timedelta_days 3) ->
  map entry_copy (fst (listing_loop current_time us ns es)) = es.
Proof.
  induction es as [|e r IH]; intros H; [reflexivity|].
  cbn [listing_loop].
  assert (Hrecent :
    edited e && match lastModified e with
                | Some last_mod_dt =>
                  current_time - last_mod_dt >? timedelta_days 3
                | None => false
                end = false).
  { destruct (edited e); [|reflexivity].
    destruct (lastModified e) as [t|] eqn:Et; [|reflexivity].
    cbn [andb]. rewrite Z.gtb_ltb. apply Z.ltb_ge.
    apply (H e t); [now left | exact Et]. }
  rewrite Hrecent.
  destruct (listing_loop current_time us ns r) as [listed flag] eqn:E.
  cbn [fst map entry_copy]. f_equal.
  cbn [fst] in IH. apply IH. intros e' t Hin. apply H. now right.
Qed.

(** C2, at the failing input: the entry that the administrator closed on
    Monday at 17:00 carries the edited flag; on Friday at 09:00, more than
    three days later, the listing shows the flag as reset, but the entry in
    the store and the entry in the file still carry it, and so does the
    store after a second listing. *)
Theorem stale_edited_flag_stays_in_store :
  snd forced_out = 200
  /\ map edited (time_entries (fst forced_out)) = [true]
  /\ map lastModified (time_entries (fst forced_out))
     = [Some (at_time monday 17 0)]
  /\ timedelta_days 3 < at_time (monday + 4) 9 0 - at_time monday 17 0
  /\ map (fun l => edited (entry_copy l)) (fst (snd listing_on_friday))
     = [false]
  /\ map edited (time_entries (fst listing_on_friday)) = [true]
  /\ map edited (time_entries_file (fst listing_on_friday)) = [true]
  /\ map edited (time_entries (fst listing_on_saturday)) = [true].
Proof.
  repeat split; vm_compute; reflexivity.
Qed.

(** ** Deleting a user *)

Lemma filter_kept {A} (p : A -> bool) (P : A -> Prop) (l : list A) :
  (forall x, In x l -> (p x = true <-> P x)) -> kept P l (filter p l).
Proof.
  induction l as [|x r IH]; simpl; intros H; [constructor|].
  assert (Hr : kept P r (filter p r)) by (apply IH; intros; apply H; auto).
  destruct (p x) eqn:Hx.
  - apply kept_keep; [apply H; auto | exact Hr].
  - apply kept_drop; [|exact Hr].
    intros HP. apply H in HP; [congruence | auto].
Qed.

Lemma kept_In {A} (P : A -> Prop) (l l' : list A) :
  kept P l l' -> forall x, In x l' <-> In x l /\ P x.
Proof.
  induction 1 as [|x l l' HP _ IH|x l l' HP _ IH]; intros y; simpl.
  - tauto.
  - rewrite IH. split.
    + intros [<- | [Hy Py]]; auto.
    + intros [[<- | Hy] Py]; auto.
  - rewrite IH. split.
    + intros [Hy Py]; auto.
    + intros [[<- | Hy] Py]; [contradiction | auto].
Qed.

Lemma mem_In (x : ident) (l : list ident) : mem x l = true <-> In x l.
Proof.
  unfold mem. rewrite existsb_exists. split.
  - intros (y & Hy & E). apply String.eqb_eq in E. now subst.
  - intros H. exists x. split; [exact H | apply String.eqb_refl].
Qed.

(** C8: a deletion answered with 200 removes the users with the given id,
    the entries of that user and the notes whose id is listed by one of
    those entries or by the suspension notes of the deleted user; all other
    users, entries and notes stay, in their order, and the three files hold
    the three new lists. *)
Theorem delete_user_cascade (user_id requester_id : ident) (st st' : store) :
  delete_user user_id requester_id st = (st', 200) ->
  exists deleted,
    find_user user_id (users st) = Some deleted
    /\ uid deleted = user_id
    /\ kept (fun u => uid u <> user_id) (users st) (users st')
    /\ kept (fun e => userId e <> user_id) (time_entries st) (time_entries st')
    /\ kept (fun n => ~ note_of_deleted deleted st n) (notes st) (notes st')
    /\ users_file st' = users st'
    /\ time_entries_file st' = time_entries st'
    /\ notes_file st' = notes st'.
Proof.
  unfold delete_user.
  destruct (find_user user_id (users st)) as [deleted|] eqn:Hd;
    [|intros H; inversion H].
  destruct (find_user_uid _ _ _ Hd) as [Hid _].
  split_tests; intros H; inversion H; subst st'; clear H.
  exists deleted. simpl. repeat split; trivial.
  - apply filter_kept. intros x _.
    rewrite negb_true_iff. apply String.eqb_neq.
  - apply filter_kept. intros x _.
    rewrite negb_true_iff. apply String.eqb_neq.
  - apply filter_kept. intros n _.
    rewrite negb_true_iff, <- not_true_iff_false, mem_In, in_app_iff.
    rewrite in_flat_map. unfold note_of_deleted.
    split; intros Hn C; apply Hn; destruct C as [(e & He) | C]; auto; left;
      exists e.
    + rewrite filter_In, String.eqb_eq. rewrite Hid in He. tauto.
    + rewrite filter_In, String.eqb_eq in He. rewrite Hid. tauto.
Qed.

(** ** Equality of entries and the list idioms *)

Lemma option_eqb_Z_eq (a b : option Z) : option_eqb Z.eqb a b = true <-> a = b.
Proof.
  destruct a as [x|], b as [y|]; simpl; try (split; congruence).
  rewrite Z.eqb_eq. split; congruence.
Qed.

Lemma list_eqb_string_eq (a b : list string) :
  list_eqb String.eqb a b = true <-> a = b.
Proof.
  revert b. induction a as [|x a IH]; intros [|y b]; simpl;
    try (split; congruence).
  rewrite andb_true_iff, String.eqb_eq, IH. split.
  - intros [-> ->]. reflexivity.
  - intros H. inversion H. auto.
Qed.

Lemma TimeEntry_eqb_eq (a b : TimeEntry) : TimeEntry_eqb a b = true <-> a = b.
Proof.
  unfold TimeEntry_eqb.
  rewrite !andb_true_iff, !String.eqb_eq, !Z.eqb_eq, !option_eqb_Z_eq,
    list_eqb_string_eq, Bool.eqb_true_iff.
  split.
  - destruct a, b; simpl. intuition congruence.
  - intros ->. intuition.
Qed.

Lemma TimeEntry_eqb_refl (a : TimeEntry) : TimeEntry_eqb a a = true.
Proof. now apply TimeEntry_eqb_eq. Qed.

Lemma TimeEntry_eqb_differ (a b : TimeEntry) :
  logoutTime a <> logoutTime b -> TimeEntry_eqb a b = false.
Proof.
  intros H. apply not_true_iff_false. intros E.
  apply TimeEntry_eqb_eq in E. congruence.
Qed.

Lemma find_app {A} (p : A -> bool) (l l' : list A) :
  find p (l ++ l') = match find p l with Some x => Some x | None => find p l' end.
Proof.
  induction l as [|x r IH]; simpl; [reflexivity|].
  destruct (p x); [reflexivity | exact IH].
Qed.

Lemma update_first_app_skip {A} (p : A -> bool) (f : A -> A) (l l' : list A) :
  find p l = None -> update_first p f (l ++ l') = l ++ update_first p f l'.
Proof.
  induction l as [|x r IH]; simpl; [reflexivity|].
  destruct (p x); [discriminate|]. intros H. f_equal. auto.
Qed.

Lemma remove_first_app_skip {A} (eqb : A -> A -> bool) (a : A) (l l' : list A) :
  (forall x, In x l -> eqb x a = false) ->
  remove_first eqb a (l ++ l') = l ++ remove_first eqb a l'.
Proof.
  induction l as [|x r IH]; simpl; intros H; [reflexivity|].
  rewrite (H x (or_introl eq_refl)). f_equal. auto.
Qed.

Lemma In_update_first {A} (p : A -> bool) (f : A -> A) (l : list A) (x : A) :
  In x l -> p x = false -> In x (update_first p f l).
Proof.
  induction l as [|y r IH]; simpl; [tauto|].
  intros [<- | Hin] Hx.
  - rewrite Hx. now left.
  - destruct (p y); simpl; auto.
Qed.

Lemma filter_update_first {A} (q p : A -> bool) (f : A -> A) (l : list A) :
  (forall x, In x l -> p x = true -> q x = q (f x)) ->
  map q (update_first p f l) = map q l.
Proof.
  induction l as [|y r IH]; simpl; intros H; [reflexivity|].
  destruct (p y) eqn:Hy; simpl.
  - f_equal. symmetry. auto.
  - f_equal. auto.
Qed.

Lemma length_filter_map {A} (q : A -> bool) (l : list A) :
  List.length (filter q l) = List.length (filter (fun b => b) (map q l)).
Proof.
  induction l as [|y r IH]; simpl; [reflexivity|].
  destruct (q y); simpl; auto.
Qed.

Lemma length_filter_remove_first (q : TimeEntry -> bool) (a : TimeEntry)
    (l : list TimeEntry) :
  In a l -> q a = true ->
  (List.length (filter q (remove_first TimeEntry_eqb a l)) + 1
   = List.length (filter q l))%nat.
Proof.
  induction l as [|y r IH]; simpl; [tauto|]. intros Hin Ha.
  destruct (TimeEntry_eqb y a) eqn:E.
  - apply TimeEntry_eqb_eq in E. subst y. rewrite Ha. simpl. lia.
  - destruct Hin as [-> | Hin].
    + assert (TimeEntry_eqb a a = true) by now apply TimeEntry_eqb_eq.
      congruence.
    + simpl. destruct (q y); simpl; rewrite <- (IH Hin Ha); lia.
Qed.

Lemma length_filter_update_first {A} (q p : A -> bool) (f : A -> A) (l : list A) (x : A) :
  find p l = Some x -> q x = true -> q (f x) = false ->
  (forall y, p y = false -> q y = false) ->
  (List.length (filter q (update_first p f l)) + 1
   = List.length (filter q l))%nat.
Proof.
  induction l as [|y r IH]; simpl; [discriminate|]. intros Hf Hx Hfx Hpq.
  destruct (p y) eqn:Hy.
  - inversion Hf; subst y. simpl. rewrite Hx, Hfx. simpl. lia.
  - simpl. rewrite (Hpq y Hy). auto.
Qed.

(** ** Two sessions on one day *)

Section Consolidation.

Context {RT : Runtime}.

Variables (user_id id1 id2 : ident) (user : User) (day : Z).
Variables (in1 in1_date in1_mod out1 out1_today out1_mod : datetime).
Variables (in2 in2_date in2_mod out2 out2_today out2_mod : datetime).
Variable st : store.

Hypothesis user_found : find_user user_id (users st) = Some user.
Hypothesis user_not_suspended : is_suspended user = false.

(** Before the first clock-in the user has no active entry and no entry of
    that day. *)
Hypothesis quiet_before :
  forall e, In e (time_entries st) -> userId e = user_id ->
            logoutTime e <> None /\ date e <> day.

(** Every clock reading of the four requests falls on the day. *)
Hypothesis same_day :
  Forall (fun t => date_of t = day)
    [in1; in1_date; in1_mod; out1; out1_today; out1_mod;
     in2; in2_date; in2_mod; out2; out2_today; out2_mod].

Lemma quiet_not_active :
  find (is_active_for user_id) (time_entries st) = None.
Proof.
  apply find_None_forall. intros e Hin.
  destruct (is_active_for user_id e) eqn:E; [|reflexivity].
  apply is_active_for_spec in E as [Hu Ho].
  destruct (quiet_before e Hin Hu). contradiction.
Qed.

Lemma quiet_not_today (logout_time : datetime) :
  find (is_completed_today user_id day logout_time) (time_entries st) = None.
Proof.
  apply find_None_forall. intros e Hin. unfold is_completed_today.
  destruct (String.eqb_spec (userId e) user_id) as [Hu|]; [|reflexivity].
  destruct (quiet_before e Hin Hu) as [_ Hd].
  apply Z.eqb_neq in Hd. rewrite Hd. reflexivity.
Qed.

Lemma quiet_differs_from_active (a : TimeEntry) :
  userId a = user_id -> logoutTime a = None ->
  forall e, In e (time_entries st) -> TimeEntry_eqb e a = false.
Proof.
  intros Hu Ho e Hin. apply not_true_iff_false. intros E.
  apply TimeEntry_eqb_eq in E. subst e.
  destruct (quiet_before a Hin Hu). contradiction.
Qed.

(** C4: the four requests succeed, and afterwards the entries are those of
    before followed by one entry: the entry of the first clock-in, closed at
    the time of the second clock-out, with the sum of the two rounded
    session lengths as its hours.  It is the only entry of the user for the
    day, the user has no active entry (the entry of the second clock-in is
    gone), and the file holds the list. *)
Theorem same_day_sessions_consolidate :
  let s1 := clock_in user_id id1 in1 in1_date in1_mod st in
  let s2 := clock_out user_id out1 out1_today out1_mod (fst s1) in
  let s3 := clock_in user_id id2 in2 in2_date in2_mod (fst s2) in
  let s4 := clock_out user_id out2 out2_today out2_mod (fst s3) in
  let merged :=
    {| eid := id1; userId := user_id;
       loginTime := in1; logoutTime := Some out2;
       totalHours := round_hours (out1 - in1) + round_hours (out2 - in2);
       date := day; edited := false;
       lastModified := Some out2_mod; editNotes := [] |} in
  map snd [s1; s2; s3; s4] = [200; 200; 200; 200]
  /\ time_entries (fst s4) = time_entries st ++ [merged]
  /\ filter (fun e => (userId e =? user_id)%string && (date e =? day))
            (time_entries (fst s4)) = [merged]
  /\ active_entries_of user_id (time_entries (fst s4)) = []
  /\ time_entries_file (fst s4) = time_entries (fst s4).
Proof.
  assert (D : forall t,
             In t [in1; in1_date; in1_mod; out1; out1_today; out1_mod;
                   in2; in2_date; in2_mod; out2; out2_today; out2_mod] ->
             date_of t = day)
    by (apply Forall_forall; exact same_day).
  assert (D_in1 : date_of in1 = day) by (apply D; simpl; tauto).
  assert (D_in1_date : date_of in1_date = day) by (apply D; simpl; tauto).
  assert (D_out1_today : date_of out1_today = day) by (apply D; simpl; tauto).
  assert (D_out2 : date_of out2 = day) by (apply D; simpl; tauto).
  assert (D_out2_today : date_of out2_today = day) by (apply D; simpl; tauto).
  clear D.
  pose proof quiet_not_active as Hna.
  pose proof (quiet_not_today out1) as Hnt1.
  pose proof (quiet_not_today out2) as Hnt2.
  pose proof quiet_differs_from_active as Hdiff.
  unfold is_active_for in Hna. unfold is_completed_today in Hnt1, Hnt2.
  intros s1 s2 s3 s4 merged.
  (* first clock-in *)
  assert (E1 : s1 = (save_time_entries
                 (set_time_entries
                    (time_entries st
                     ++ [mkTimeEntry id1 user_id in1 None 0 day
                           false (Some in1_mod) []]) st), 200)).
  { subst s1. unfold clock_in, is_active_for.
    rewrite user_found, user_not_suspended, Hna, D_in1_date. reflexivity. }
  (* first clock-out *)
  assert (E2 : s2 = (save_time_entries
                 (set_time_entries
                    (time_entries st
                     ++ [mkTimeEntry id1 user_id in1 (Some out1)
                           (round_hours (out1 - in1)) day
                           false (Some out1_mod) []]) (fst s1)), 200)).
  { subst s2. rewrite E1. unfold clock_out, is_active_for, is_completed_today.
    cbn [fst users save_time_entries set_time_entries time_entries].
    rewrite user_found, !find_app, Hna.
    cbn [find userId logoutTime]. rewrite String.eqb_refl.
    cbn [andb loginTime].
    rewrite D_out1_today, Hnt1. rewrite andb_false_r. cbn [andb].
    rewrite update_first_app_skip by exact Hna.
    cbn [update_first userId logoutTime].
    rewrite String.eqb_refl. reflexivity. }
  (* second clock-in *)
  assert (E3 : s3 = (save_time_entries
                 (set_time_entries
                    (time_entries st
                     ++ [mkTimeEntry id1 user_id in1 (Some out1)
                           (round_hours (out1 - in1)) day
                           false (Some out1_mod) [];
                         mkTimeEntry id2 user_id in2 None 0 (date_of in2_date)
                           false (Some in2_mod) []]) (fst s2)), 200)).
  { subst s3. rewrite E2, E1. unfold clock_in, is_active_for.
    cbn [fst users save_time_entries set_time_entries time_entries].
    rewrite user_found, user_not_suspended, !find_app, Hna.
    cbn [find userId logoutTime]. rewrite andb_false_r.
    rewrite <- app_assoc. reflexivity. }
  (* second clock-out *)
  assert (E4 : time_entries (fst s4) = time_entries st ++ [merged]
               /\ snd s4 = 200
               /\ time_entries_file (fst s4) = time_entries (fst s4)).
  { subst s4. rewrite E3, E2, E1.
    unfold clock_out, is_active_for, is_completed_today.
    cbn [fst users save_time_entries set_time_entries time_entries].
    rewrite user_found, !find_app, Hna.
    cbn [find userId logoutTime date loginTime].
    rewrite !andb_false_r, String.eqb_refl. cbn [andb loginTime].
    rewrite D_out2 in Hnt2.
    rewrite D_out2_today, D_out2, Hnt2, D_in1, !Z.eqb_refl. cbn [andb].
    rewrite update_first_app_skip by exact Hnt2.
    cbn [update_first logoutTime andb userId date loginTime].
    rewrite String.eqb_refl, D_in1, !Z.eqb_refl. cbn [andb].
    rewrite remove_first_app_skip by (apply Hdiff; reflexivity).
    cbn [remove_first].
    rewrite TimeEntry_eqb_differ by (simpl; congruence).
    rewrite TimeEntry_eqb_refl.
    cbn [fst snd time_entries time_entries_file]. auto. }
  destruct E4 as (E4 & S4 & F4).
  split; [|split; [|split; [|split]]].
  - cbn [map]. rewrite E1, E2, E3, S4. reflexivity.
  - exact E4.
  - rewrite E4, filter_app.
    assert (Hnone : filter
              (fun e => (userId e =? user_id)%string && (date e =? day))
              (time_entries st) = []).
    { clear -quiet_before. induction (time_entries st) as [|e r IH];
        [reflexivity|]. simpl.
      destruct (String.eqb_spec (userId e) user_id) as [Hu|].
      - destruct (quiet_before e (or_introl eq_refl) Hu) as [_ Hd].
        apply Z.eqb_neq in Hd. rewrite Hd. simpl.
        apply IH. intros; apply quiet_before; simpl; auto.
      - simpl. apply IH. intros; apply quiet_before; simpl; auto. }
    rewrite Hnone. subst merged. cbn [filter userId date app].
    rewrite String.eqb_refl, Z.eqb_refl. reflexivity.
  - rewrite E4. unfold active_entries_of. rewrite filter_app.
    assert (Hnone : filter (is_active_for user_id) (time_entries st) = []).
    { clear -quiet_before. induction (time_entries st) as [|e r IH];
        [reflexivity|]. simpl.
      destruct (is_active_for user_id e) eqn:E.
      - apply is_active_for_spec in E as [Hu Ho].
        destruct (quiet_before e (or_introl eq_refl) Hu). contradiction.
      - apply IH. intros; apply quiet_before; simpl; auto. }
    rewrite Hnone. subst merged. unfold is_active_for.
    cbn [filter logoutTime app]. rewrite andb_false_r. reflexivity.
  - exact F4.
Qed.

End Consolidation.

(** ** Clock-out and suspension *)

Lemma is_completed_today_closed (user_id : ident) (today : Z)
    (logout_time : datetime) (e : TimeEntry) :
  is_completed_today user_id today logout_time e = true ->
  userId e = user_id /\ date e = today /\ logoutTime e <> None
  /\ date_of (loginTime e) = date_of logout_time.
Proof.
  unfold is_completed_today.
  rewrite !andb_true_iff, String.eqb_eq, !Z.eqb_eq.
  destruct (logoutTime e); intuition congruence.
Qed.

Lemma is_active_for_closed (user_id : ident) (e : TimeEntry) :
  logoutTime e <> None -> is_active_for user_id e = false.
Proof.
  intros H. apply not_true_iff_false. intros E.
  apply is_active_for_spec in E. tauto.
Qed.

Section ClockOut.

Context {RT : Runtime}.

Variables (user_id : ident) (out out_today out_mod : datetime).

(** What a successful clock-out does to the active entries of the user:
    there is one fewer. *)
Lemma clock_out_closes (st : store) (user : User) (e : TimeEntry) :
  find_user user_id (users st) = Some user ->
  find (is_active_for user_id) (time_entries st) = Some e ->
  let result := clock_out user_id out out_today out_mod st in
  snd result = 200
  /\ (List.length (active_entries_of user_id (time_entries (fst result))) + 1
      = List.length (active_entries_of user_id (time_entries st)))%nat.
Proof.
  intros Hu He result. subst result. unfold clock_out. rewrite Hu, He.
  pose proof (find_some _ _ He) as [Hin Hact].
  destruct (find (is_completed_today user_id (date_of out_today) out)
                 (time_entries st)) as [c|] eqn:Hc;
    cbn [fst snd time_entries save_time_entries set_time_entries];
    (split; [reflexivity|]); unfold active_entries_of.
  - rewrite length_filter_remove_first; [| |exact Hact].
    + rewrite !(length_filter_map (is_active_for user_id)).
      rewrite filter_update_first; [reflexivity|].
      intros x _ Hx. apply is_completed_today_closed in Hx.
      rewrite !is_active_for_closed; [reflexivity | simpl; congruence | tauto].
    + apply In_update_first; [exact Hin|].
      apply not_true_iff_false. intros Hx.
      apply is_completed_today_closed in Hx.
      apply is_active_for_spec in Hact. tauto.
  - apply (length_filter_update_first _ _ _ _ e He Hact); [|auto].
    apply is_active_for_closed. simpl. congruence.
Qed.

(** Without a completed entry of the day, the first active entry of the
    user is closed where it stands. *)
Lemma clock_out_closes_in_place (st : store) (user : User) (e : TimeEntry)
    (pre post : list TimeEntry) :
  find_user user_id (users st) = Some user ->
  time_entries st = pre ++ e :: post ->
  is_active_for user_id e = true ->
  (forall x, In x pre -> is_active_for user_id x = false) ->
  (forall x, In x (time_entries st) ->
             is_completed_today user_id (date_of out_today) out x = false) ->
  time_entries (fst (clock_out user_id out out_today out_mod st))
  = pre ++ mkTimeEntry (eid e) (userId e) (loginTime e) (Some out)
             (round_hours (out - loginTime e)) (date e) (edited e)
             (Some out_mod) (editNotes e) :: post.
Proof.
  intros Hu Hes Hact Hpre Hnone.
  assert (Hpre' : forallb (fun y => negb (is_active_for user_id y)) pre = true).
  { apply forallb_forall. intros x Hx. now rewrite (Hpre x Hx). }
  assert (He : find (is_active_for user_id) (time_entries st) = Some e).
  { rewrite Hes, find_app.
    destruct (find (is_active_for user_id) pre) as [x|] eqn:Hx.
    - apply find_some in Hx as [Hx1 Hx2]. rewrite (Hpre x Hx1) in Hx2.
      discriminate.
    - simpl. now rewrite Hact. }
  apply find_None_forall in Hnone.
  unfold clock_out. rewrite Hu, He, Hnone.
  cbn [fst time_entries save_time_entries set_time_entries].
  rewrite Hes, update_first_split by assumption. reflexivity.
Qed.

(** Clock-out reads the users only to see that the id is known. *)
Lemma clock_out_same_entries (st1 st2 : store) (u1 u2 : User) :
  find_user user_id (users st1) = Some u1 ->
  find_user user_id (users st2) = Some u2 ->
  time_entries st1 = time_entries st2 ->
  snd (clock_out user_id out out_today out_mod st1)
  = snd (clock_out user_id out out_today out_mod st2)
  /\ time_entries (fst (clock_out user_id out out_today out_mod st1))
     = time_entries (fst (clock_out user_id out out_today out_mod st2)).
Proof.
  intros H1 H2 E. unfold clock_out. rewrite H1, H2, E.
  split_tests; simpl; auto.
Qed.

End ClockOut.

Lemma suspend_user_keeps_entries (user_id : ident) (suspend : bool)
    (note_content : string) (requester_id new_note_id : ident)
    (now_note : datetime) (st : store) :
  let st' := fst (suspend_user user_id suspend note_content requester_id
                    new_note_id now_note st) in
  time_entries st' = time_entries st
  /\ time_entries_file st' = time_entries_file st.
Proof.
  unfold suspend_user. split_tests; simpl; auto.
Qed.

(** After a successful request the target carries the new flag and one more
    note id. *)
Lemma suspend_user_target (user_id : ident) (suspend : bool)
    (note_content : string) (requester_id new_note_id : ident)
    (now_note : datetime) (st st' : store) :
  suspend_user user_id suspend note_content requester_id new_note_id
    now_note st = (st', 200) ->
  exists target pre post,
    find_user user_id (users st) = Some target
    /\ users st = pre ++ target :: post
    /\ users st'
       = pre ++ mkUser (uid target) (name target) (email target)
                  (phone target) (role target) (pin target)
                  (createdAt target) suspend
                  (suspension_notes target ++ [new_note_id]) :: post
    /\ find_user user_id (users st')
       = Some (mkUser (uid target) (name target) (email target)
                 (phone target) (role target) (pin target)
                 (createdAt target) suspend
                 (suspension_notes target ++ [new_note_id])).
Proof.
  unfold suspend_user.
  destruct (find_user user_id (users st)) as [target|] eqn:Ht;
    [|intros H; inversion H].
  split_tests; intros H; inversion H; subst st'; clear H.
  all: unfold find_user in Ht.
  all: destruct (find_split _ _ _ Ht) as (pre & post & Hus & Hp & Hpre).
  all: exists target, pre, post; cbn [users save_users set_users].
  all: rewrite Hus, update_first_split by assumption.
  all: repeat split; trivial.
  all: unfold find_user; rewrite find_app.
  all: destruct (find (fun u => (uid u =? user_id)%string) pre) as [x|] eqn:Hx.
  all: try (apply find_some in Hx as [Hx1 Hx2];
            rewrite forallb_forall in Hpre; specialize (Hpre x Hx1);
            rewrite Hx2 in Hpre; discriminate).
  all: cbn [find uid]; unfold set_suspension_notes, set_is_suspended;
       cbn [uid]; now rewrite Hp.
Qed.

Section SuspendedSession.

Context {RT : Runtime}.

Variables (user_id requester_id new_note_id : ident) (note_content : string).
Variables (now_note out out_today out_mod : datetime).
Variable st : store.

(** C9: a suspended user cannot clock in (403, store as it was).  When the
    suspension of a user with an active entry succeeds, the entries are
    what they were; the user is then suspended and cannot clock in, but
    clock-out succeeds, produces the entries it produces without the
    suspension, and leaves the user with one active entry fewer; when no
    completed entry of the day takes the hours, the active entry is closed
    where it stands, with the clock-out time and the rounded hours. *)
Theorem suspension_spares_active_session :
  let suspended :=
    suspend_user user_id true note_content requester_id new_note_id
      now_note st in
  let st' := fst suspended in
  let result := clock_out user_id out out_today out_mod st' in
  (forall user new_id t1 t2 t3,
      find_user user_id (users st) = Some user -> is_suspended user = true ->
      clock_in user_id new_id t1 t2 t3 st = (st, 403))
  /\ (snd suspended = 200 ->
      (exists e, In e (time_entries st) /\ userId e = user_id
                 /\ logoutTime e = None) ->
      time_entries st' = time_entries st
      /\ (exists user, find_user user_id (users st') = Some user
                       /\ is_suspended user = true)
      /\ (forall new_id t1 t2 t3,
             clock_in user_id new_id t1 t2 t3 st' = (st', 403))
      /\ snd result = 200
      /\ time_entries (fst result)
         = time_entries (fst (clock_out user_id out out_today out_mod st))
      /\ (List.length (active_entries_of user_id (time_entries (fst result)))
          + 1
          = List.length (active_entries_of user_id (time_entries st)))%nat
      /\ ((forall x, In x (time_entries st) ->
                     is_completed_today user_id (date_of out_today) out x
                     = false) ->
          exists pre e post,
            time_entries st = pre ++ e :: post
            /\ userId e = user_id /\ logoutTime e = None
            /\ (forall x, In x pre -> is_active_for user_id x = false)
            /\ time_entries (fst result)
               = pre ++ mkTimeEntry (eid e) (userId e) (loginTime e)
                          (Some out) (round_hours (out - loginTime e))
                          (date e) (edited e) (Some out_mod) (editNotes e)
                        :: post)).
Proof.
  intros suspended st' result. split.
  - intros user new_id t1 t2 t3 Hu Hs. unfold clock_in. now rewrite Hu, Hs.
  - intros Hok Hact.
    destruct (suspend_user_keeps_entries user_id true note_content
                requester_id new_note_id now_note st) as [Hes _].
    fold suspended in Hes. fold st' in Hes.
    assert (Hsusp : suspended = (st', 200)).
    { subst st'. destruct suspended as [s c]. simpl in *. now subst c. }
    destruct (suspend_user_target _ _ _ _ _ _ _ _ Hsusp)
      as (target & pre & post & Ht & _ & _ & Ht').
    apply active_entry_found in Hact as [e He].
    assert (He' : find (is_active_for user_id) (time_entries st') = Some e)
      by now rewrite Hes.
    destruct (clock_out_closes user_id out out_today out_mod st' _ e Ht' He')
      as [Hstatus Hcount].
    destruct (clock_out_same_entries user_id out out_today out_mod st' st
                _ _ Ht' Ht Hes) as [_ Hsame].
    split; [exact Hes|].
    split; [eexists; split; [exact Ht' | reflexivity]|].
    split; [intros new_id t1 t2 t3; unfold clock_in; now rewrite Ht'|].
    split; [exact Hstatus|].
    split; [exact Hsame|].
    split; [rewrite <- Hes; exact Hcount|].
    intros Hnone.
    destruct (find_split _ _ _ He) as (es1 & es2 & Hsplit & Hp & Hes1).
    assert (Hes1' : forall x, In x es1 -> is_active_for user_id x = false).
    { intros x Hx. rewrite forallb_forall in Hes1.
      apply negb_true_iff. now apply Hes1. }
    exists es1, e, es2.
    apply is_active_for_spec in Hp as Hfields.
    split; [exact Hsplit|]. split; [tauto|]. split; [tauto|].
    split; [exact Hes1'|].
    apply (clock_out_closes_in_place user_id out out_today out_mod st' _ e
             es1 es2 Ht'); try assumption.
    + now rewrite Hes.
    + rewrite Hes. exact Hnone.
Qed.

End SuspendedSession.

(** ** Where the invariant on active entries is kept *)

Lemma filter_update_first_le {A} (q p : A -> bool) (f : A -> A) (l : list A) :
  (forall x, q (f x) = true -> q x = true) ->
  (List.length (filter q (update_first p f l)) <= List.length (filter q l))%nat.
Proof.
  intros H. induction l as [|y r IH]; simpl; [lia|].
  destruct (p y); simpl.
  - destruct (q (f y)) eqn:E; [rewrite (H y E); simpl; lia|].
    destruct (q y); simpl; lia.
  - destruct (q y); simpl; lia.
Qed.

Lemma filter_remove_first_le {A} (q : A -> bool) (eqb : A -> A -> bool)
    (a : A) (l : list A) :
  (List.length (filter q (remove_first eqb a l)) <= List.length (filter q l))%nat.
Proof.
  induction l as [|y r IH]; simpl; [lia|].
  destruct (eqb y a); simpl; destruct (q y); simpl; lia.
Qed.

Lemma filter_filter_le {A} (q p : A -> bool) (l : list A) :
  (List.length (filter q (filter p l)) <= List.length (filter q l))%nat.
Proof.
  induction l as [|y r IH]; simpl; [lia|].
  destruct (p y); simpl; destruct (q y); simpl; lia.
Qed.

Lemma at_most_one_active_le (st st' : store) :
  (forall user_id,
      (List.length (active_entries_of user_id (time_entries st'))
       <= List.length (active_entries_of user_id (time_entries st)))%nat) ->
  at_most_one_active st -> at_most_one_active st'.
Proof.
  intros H Hst user_id. specialize (H user_id). specialize (Hst user_id). lia.
Qed.

Lemma find_None_filter {A} (p : A -> bool) (l : list A) :
  find p l = None -> filter p l = [].
Proof.
  induction l as [|y r IH]; simpl; [reflexivity|].
  destruct (p y); [discriminate | exact IH].
Qed.

Section InvariantKept.

Context {RT : Runtime}.

Variable st : store.
Hypothesis invariant : at_most_one_active st.

Lemma clock_in_keeps_invariant (user_id new_id : ident)
    (now_login now_date now_modified : datetime) :
  at_most_one_active
    (fst (clock_in user_id new_id now_login now_date now_modified st)).
Proof.
  unfold clock_in.
  destruct (find_user user_id (users st)) as [user|]; [|exact invariant].
  destruct (is_suspended user); [exact invariant|].
  destruct (find (is_active_for user_id) (time_entries st)) eqn:Hnone;
    [exact invariant|].
  intros other. cbn [fst time_entries save_time_entries set_time_entries].
  unfold active_entries_of. rewrite filter_app, length_app.
  unfold is_active_for at 2. cbn [filter userId logoutTime].
  destruct (String.eqb_spec user_id other) as [<-|Hneq].
  - rewrite (find_None_filter _ _ Hnone). simpl. lia.
  - simpl. specialize (invariant other). unfold active_entries_of in invariant.
    lia.
Qed.

Lemma clock_out_keeps_invariant (user_id : ident)
    (now_logout now_today now_modified : datetime) :
  at_most_one_active
    (fst (clock_out user_id now_logout now_today now_modified st)).
Proof.
  apply (at_most_one_active_le st); [|exact invariant]. intros other.
  unfold clock_out, active_entries_of.
  split_tests; cbn [fst time_entries save_time_entries set_time_entries];
    try lia.
  - etransitivity; [apply filter_remove_first_le|].
    apply filter_update_first_le. intros x Hx.
    apply is_active_for_spec in Hx as [_ Hx]. discriminate Hx.
  - apply filter_update_first_le. intros x Hx.
    apply is_active_for_spec in Hx as [_ Hx]. discriminate Hx.
Qed.

Lemma logout_keeps_invariant (user_id : ident) (note_content : string)
    (requester_id new_note_id : ident)
    (now_logout now_modified now_note : datetime) :
  at_most_one_active
    (fst (logout user_id note_content requester_id new_note_id
            now_logout now_modified now_note st)).
Proof.
  apply (at_most_one_active_le st); [|exact invariant]. intros other.
  unfold logout, active_entries_of.
  split_tests; cbn [fst time_entries save_time_entries set_time_entries
                      save_notes set_notes]; try lia.
  apply filter_update_first_le. intros x Hx.
  apply is_active_for_spec in Hx as [_ Hx]. discriminate Hx.
Qed.

Lemma delete_user_keeps_invariant (user_id requester_id : ident) :
  at_most_one_active (fst (delete_user user_id requester_id st)).
Proof.
  apply (at_most_one_active_le st); [|exact invariant]. intros other.
  unfold delete_user, active_entries_of.
  split_tests; cbn [fst time_entries save_time_entries set_time_entries
                      save_notes set_notes save_users set_users]; try lia.
  apply filter_filter_le.
Qed.

Lemma suspend_user_keeps_invariant (user_id : ident) (suspend : bool)
    (note_content : string) (requester_id new_note_id : ident)
    (now_note : datetime) :
  at_most_one_active
    (fst (suspend_user user_id suspend note_content requester_id new_note_id
            now_note st)).
Proof.
  intros other.
  rewrite (proj1 (suspend_user_keeps_entries user_id suspend note_content
                    requester_id new_note_id now_note st)).
  apply invariant.
Qed.

Lemma listing_keeps_invariant (current_time : datetime) :
  at_most_one_active (fst (get_all_time_entries current_time st)).
Proof.
  intros other.
  destruct (listing_keeps_store current_time st) as (_ & -> & _).
  apply invariant.
Qed.

(** An edit keeps the invariant when it carries a logout time, and when
    the entry it addresses is itself the active one; the remaining case,
    a closed entry edited without a logout time, is the one of
    [reopen_morning]. *)
Lemma edit_keeps_invariant (entry_id : string)
    (new_login_time_str new_logout_time_str : json_time)
    (edit_note_content : string) (editor_user_id new_note_id : ident)
    (now_modified now_note : datetime) :
  truthy_time new_logout_time_str = true
  \/ (forall e, find (fun entry => (eid entry =? entry_id)%string)
                     (time_entries st) = Some e -> logoutTime e = None) ->
  at_most_one_active
    (fst (edit_time_entry entry_id new_login_time_str new_logout_time_str
            edit_note_content editor_user_id new_note_id
            now_modified now_note st)).
Proof.
  intros Hcase.
  apply (at_most_one_active_le st); [|exact invariant]. intros other.
  unfold edit_time_entry, apply_edit, active_entries_of.
  destruct (find (fun entry => (eid entry =? entry_id)%string)
                 (time_entries st)) as [e|] eqn:He;
    [|split_tests; simpl; lia].
  split_tests; cbn [fst time_entries save_time_entries set_time_entries
                      save_notes set_notes]; try lia.
  - apply filter_update_first_le. intros x Hx.
    apply is_active_for_spec in Hx as [_ Hx]. discriminate Hx.
  - destruct Hcase as [Hcase | Hcase]; [congruence|].
    specialize (Hcase e eq_refl).
    destruct (find_split _ _ _ He) as (pre & post & Hes & Hp & Hpre).
    rewrite Hes, update_first_split by assumption.
    rewrite !filter_app, !length_app. cbn [filter].
    match goal with
    | |- context [is_active_for other ?x] =>
      lazymatch x with
      | e => fail
      | _ =>
        replace (is_active_for other x) with (is_active_for other e)
          by (unfold is_active_for; simpl; now rewrite Hcase)
      end
    end.
    destruct (is_active_for other e); simpl; lia.
Qed.

End InvariantKept.

(** The remaining case in general: an accepted edit without a logout time
    that addresses a closed entry gives the owner of the entry one more
    active entry. *)
Lemma edit_reopening_adds_active_entry {RT : Runtime} (entry_id : string)
    (login_dt : datetime) (new_logout_time_str : json_time)
    (edit_note_content : string) (editor_user_id new_note_id : ident)
    (now_modified now_note : datetime) (st : store) (e : TimeEntry) :
  find (fun entry => (eid entry =? entry_id)%string) (time_entries st)
  = Some e ->
  logoutTime e <> None ->
  truthy_time new_logout_time_str = false ->
  let result :=
    edit_time_entry entry_id (JIso login_dt) new_logout_time_str
      edit_note_content editor_user_id new_note_id now_modified now_note st in
  snd result = 200 ->
  List.length (active_entries_of (userId e) (time_entries (fst result)))
  = S (List.length (active_entries_of (userId e) (time_entries st))).
Proof.
  intros He Hclosed Hfalsy result. subst result.
  unfold edit_time_entry. rewrite He, Hfalsy. cbn [fromisoformat].
  split_tests; cbn [snd]; try discriminate. intros _.
  unfold apply_edit.
  cbn [fst time_entries save_time_entries set_time_entries save_notes
         set_notes].
  destruct (find_split _ _ _ He) as (pre & post & Hes & Hp & Hpre).
  rewrite Hes, update_first_split by assumption.
  unfold active_entries_of. rewrite !filter_app, !length_app. cbn [filter].
  rewrite (is_active_for_closed (userId e) e Hclosed).
  match goal with
  | |- context [is_active_for (userId e) ?x] =>
    lazymatch x with
    | e => fail
    | _ =>
      replace (is_active_for (userId e) x) with true
        by (unfold is_active_for; simpl; now rewrite String.eqb_refl)
    end
  end.
  cbn [List.length]. lia.
Qed.

Section InvariantAlongRuns.

Context {RT : Runtime}.

Lemma handle_keeps_invariant (r : request) (st : store) :
  at_most_one_active st -> reopens r st = false ->
  at_most_one_active (handle r st).
Proof.
  intros Hst Hr. destruct r; cbn [handle].
  - now apply clock_in_keeps_invariant.
  - now apply clock_out_keeps_invariant.
  - now apply logout_keeps_invariant.
  - apply edit_keeps_invariant; [exact Hst|].
    cbn [reopens] in Hr. apply andb_false_iff in Hr as [Hr | Hr].
    + left. now apply negb_false_iff.
    + right. intros e He. rewrite He in Hr.
      destruct (logoutTime e); [discriminate | reflexivity].
  - now apply delete_user_keeps_invariant.
  - now apply suspend_user_keeps_invariant.
  - now apply listing_keeps_invariant.
Qed.

(** Every run that never edits a closed entry without a logout time keeps
    the invariant. *)
Lemma run_keeps_invariant (rs : list request) (st : store) :
  at_most_one_active st -> never_reopens rs st = true ->
  at_most_one_active (run rs st).
Proof.
  revert st. induction rs as [|r rest IH]; intros st Hst Hrs; [exact Hst|].
  cbn [run never_reopens] in *. apply andb_prop in Hrs as [Hr Hrest].
  apply IH; [|exact Hrest].
  apply handle_keeps_invariant; [exact Hst | now apply negb_true_iff].
Qed.

End InvariantAlongRuns.

(** ** Audit notes *)

Lemma string_app_nil_r (s : string) : (s ++ "")%string = s.
Proof. induction s as [|c s IH]; simpl; congruence. Qed.

Lemma string_app_assoc (a b c : string) :
  ((a ++ b) ++ c)%string = (a ++ b ++ c)%string.
Proof. induction a as [|x a IH]; simpl; congruence. Qed.

Lemma fstring_cons (x : string) (l : list string) :
  fstring (x :: l) = (x ++ fstring l)%string.
Proof.
  unfold fstring. destruct l as [|y l]; simpl.
  - now rewrite string_app_nil_r.
  - reflexivity.
Qed.

Lemma fstring_app (l l' : list string) :
  fstring (l ++ l') = (fstring l ++ fstring l')%string.
Proof.
  induction l as [|x l IH].
  - reflexivity.
  - cbn [app]. rewrite !fstring_cons, IH, string_app_assoc. reflexivity.
Qed.

Lemma contains_fstring (s : string) (l : list string) :
  In s l -> contains s (fstring l).
Proof.
  intros H. apply in_split in H as (l1 & l2 & ->).
  exists (fstring l1), (fstring l2).
  now rewrite fstring_app, fstring_cons.
Qed.

Lemma contains_all_fstring (values l : list string) :
  incl values l -> Forall (fun s => contains s (fstring l)) values.
Proof.
  intros H. apply Forall_forall. intros s Hs.
  apply contains_fstring, H, Hs.
Qed.

Lemma shows_fstring (head before after values_b values_a : list string) :
  incl values_b before -> incl values_a after ->
  shows_before_after (fstring (head ++ before ++ after)) values_b values_a.
Proof.
  intros Hb Ha. exists (fstring head), (fstring before), (fstring after).
  rewrite !fstring_app. auto using contains_all_fstring.
Qed.

Section AuditNotes.

Context {RT : Runtime}.

Lemma printed_before (e : TimeEntry) :
  incl (printed_state e)
       (before_lines (loginTime e) (logoutTime e) (totalHours e)).
Proof.
  unfold printed_state, before_lines. intros s Hs. simpl in *. tauto.
Qed.

Lemma printed_after (e : TimeEntry) :
  incl (printed_state e)
       (after_lines (loginTime e) (logoutTime e) (totalHours e)).
Proof.
  unfold printed_state, after_lines. intros s Hs. simpl in *. tauto.
Qed.

(** A forced logout that succeeds closes the first active entry of the
    user and adds one note for it. *)
Lemma logout_adds_note (user_id : ident) (note_content : string)
    (requester_id new_note_id : ident)
    (now_logout now_modified now_note : datetime) (st st' : store) :
  logout user_id note_content requester_id new_note_id
    now_logout now_modified now_note st = (st', 200) ->
  exists e e',
    find (is_active_for user_id) (time_entries st) = Some e
    /\ logoutTime e' = Some now_logout
    /\ edited e' = true
    /\ entry_note_added st st' new_note_id e e'.
Proof.
  unfold logout.
  destruct (find (is_active_for user_id) (time_entries st)) as [e|] eqn:He;
    split_tests; intros H; inversion H; subst st'; clear H.
  destruct (find_split _ _ _ He) as (pre & post & Hes & Hp & Hpre).
  exists e,
    (mkTimeEntry (eid e) (userId e) (loginTime e) (Some now_logout)
       (round_hours (now_logout - loginTime e)) (date e) true
       (Some now_modified) (editNotes e ++ [new_note_id])).
  do 3 (split; [reflexivity|]).
  eexists. do 5 (split; [reflexivity|]).
  split.
  { exists pre, post. split; [exact Hes|].
    cbn [time_entries save_time_entries set_time_entries save_notes
           set_notes].
    rewrite Hes, update_first_split by assumption. reflexivity. }
  do 2 (split; [reflexivity|]).
  apply (shows_fstring
           [ "Logged out by "; name u; ". Reason: "; note_content; nl ]
           (before_lines (loginTime e) (logoutTime e) (totalHours e))
           (after_lines (loginTime e) (Some now_logout)
              (round_hours (now_logout - loginTime e)))).
  - apply printed_before.
  - apply (printed_after
             (mkTimeEntry (eid e) (userId e) (loginTime e) (Some now_logout)
                (round_hours (now_logout - loginTime e)) (date e) true
                (Some now_modified) (editNotes e ++ [new_note_id]))).
Qed.

(** The body of the [try] block, run on the first entry with the id. *)
Lemma apply_edit_adds_note (entry_id edit_note_content : string)
    (editor_user : User) (e : TimeEntry) (login_dt : datetime)
    (logout_dt : option datetime) (new_note_id : ident)
    (now_modified now_note : datetime) (st st' : store) :
  find (fun entry => (eid entry =? entry_id)%string) (time_entries st)
  = Some e ->
  apply_edit entry_id edit_note_content editor_user e login_dt logout_dt
    new_note_id now_modified now_note st = (st', 200) ->
  exists e',
    loginTime e' = login_dt /\ logoutTime e' = logout_dt
    /\ edited e' = true
    /\ entry_note_added st st' new_note_id e e'.
Proof.
  intros He H. unfold apply_edit in H. inversion H; subst st'; clear H.
  destruct (find_split _ _ _ He) as (pre & post & Hes & Hp & Hpre).
  apply String.eqb_eq in Hp as Hid.
  exists (mkTimeEntry (eid e) (userId e) login_dt logout_dt
            match logout_dt with
            | Some lo => round_hours (lo - login_dt)
            | None => 0
            end (date e) true
            (Some now_modified) (editNotes e ++ [new_note_id])).
  do 3 (split; [reflexivity|]).
  eexists. do 3 (split; [reflexivity|]).
  split; [cbn [entityId]; now rewrite Hid|].
  split; [reflexivity|].
  split.
  { exists pre, post. split; [exact Hes|].
    cbn [time_entries save_time_entries set_time_entries save_notes
           set_notes].
    rewrite Hes, update_first_split by assumption. reflexivity. }
  do 2 (split; [reflexivity|]).
  apply (shows_fstring
           [ "Edited by "; name editor_user; ". Reason: ";
             edit_note_content; nl ]
           (before_lines (loginTime e) (logoutTime e) (totalHours e))
           (after_lines login_dt logout_dt
              match logout_dt with
              | Some lo => round_hours (lo - login_dt)
              | None => 0
              end)).
  - apply printed_before.
  - apply (printed_after
             (mkTimeEntry (eid e) (userId e) login_dt logout_dt
                match logout_dt with
                | Some lo => round_hours (lo - login_dt)
                | None => 0
                end (date e) true
                (Some now_modified) (editNotes e ++ [new_note_id]))).
Qed.

(** An edit that succeeds rewrites the first entry with the given id and
    adds one note for it. *)
Lemma edit_adds_note (entry_id : string)
    (new_login_time_str new_logout_time_str : json_time)
    (edit_note_content : string) (editor_user_id new_note_id : ident)
    (now_modified now_note : datetime) (st st' : store) :
  edit_time_entry entry_id new_login_time_str new_logout_time_str
    edit_note_content editor_user_id new_note_id now_modified now_note st
  = (st', 200) ->
  exists e e',
    find (fun entry => (eid entry =? entry_id)%string) (time_entries st)
    = Some e
    /\ new_login_time_str = JIso (loginTime e')
    /\ edited e' = true
    /\ entry_note_added st st' new_note_id e e'.
Proof.
  unfold edit_time_entry.
  destruct (find (fun entry => (eid entry =? entry_id)%string)
                 (time_entries st)) as [e|] eqn:He.
  2: { split_tests; intros H; inversion H. }
  destruct (find_user editor_user_id (users st)) as [editor_user|].
  2: { split_tests; intros H; inversion H. }
  destruct new_login_time_str as [| | | |login_dt]; cbn [fromisoformat].
  1-4: split_tests; intros H; inversion H.
  split_tests; intros H; try (now inversion H);
    destruct (apply_edit_adds_note _ _ _ _ _ _ _ _ _ _ _ He H)
      as (e' & <- & _ & Hedited & Hnote);
    exists e, e'; auto.
Qed.

(** A suspension request that succeeds sets the flag of the first user
    with the id and adds one note for that user. *)
Lemma suspend_adds_note (user_id : ident) (suspend : bool)
    (note_content : string) (requester_id new_note_id : ident)
    (now_note : datetime) (st st' : store) :
  suspend_user user_id suspend note_content requester_id new_note_id
    now_note st = (st', 200) ->
  exists u u',
    find_user user_id (users st) = Some u
    /\ is_suspended u' = suspend
    /\ suspension_note_added st st' new_note_id u u'.
Proof.
  intros H.
  destruct (suspend_user_target _ _ _ _ _ _ _ _ H)
    as (u & pre & post & Hu & Hus & Hus' & _).
  destruct (find_user_uid _ _ _ Hu) as [Hid _].
  exists u,
    (mkUser (uid u) (name u) (email u) (phone u) (role u) (pin u)
       (createdAt u) suspend (suspension_notes u ++ [new_note_id])).
  split; [exact Hu|]. split; [reflexivity|].
  revert H Hus'. unfold suspend_user. rewrite Hu.
  destruct (find_user requester_id (users st)) as [requester_user|];
    [|intros H; inversion H].
  repeat match goal with
         | |- context [if ?b then (_, _) else _] => destruct b
         end; intros H; inversion H; subst st'; clear H; intros Hus'.
  eexists. do 3 (split; [reflexivity|]).
  split; [cbn [entityId]; now rewrite Hid|].
  split; [reflexivity|].
  split; [exists pre, post; split; [exact Hus | exact Hus']|].
  do 2 (split; [reflexivity|]).
  cbn [note is_suspended role].
  apply (shows_fstring
           [ if suspend then "Suspended" else "Unsuspended"; " by ";
             name requester_user; ". Reason: "; note_content; nl ]
           [ "Before: Suspended: "; str_bool (is_suspended u);
             ", Role: "; role u; nl ]
           [ "After: Suspended: "; str_bool suspend; ", Role: "; role u ]).
  - intros s Hs. simpl in *. tauto.
  - intros s Hs. simpl in *. tauto.
Qed.


End AuditNotes.

(* ================================================================== *)
(** * Worked cases *)

(** C3 at a second clock-in: John, not suspended, has an active entry, and
    the answer is 400, not 409. *)
Lemma second_clock_in_is_not_a_conflict :
  find_user "u-john" (users john_at_work) = Some john_user
  /\ is_suspended john_user = false
  /\ map eid (active_entries_of "u-john" (time_entries john_at_work))
     = ["e-1"]
  /\ second_clock_in = (john_at_work, 400)
  /\ snd second_clock_in <> 409.
Proof.
  repeat split. vm_compute. discriminate.
Qed.

(** The three refusals of clock-in: an unknown id, John suspended, John
    already at work. *)
Lemma clock_in_failures_cases :
  clock_in "u-nobody" "e-9" (at_time monday 9 0) (at_time monday 9 0)
    (at_time monday 9 0) fresh_store = (fresh_store, 404)
  /\ clock_in "u-john" "e-9" (at_time monday 11 0) (at_time monday 11 0)
       (at_time monday 11 0) (fst john_suspended) = (fst john_suspended, 403)
  /\ second_clock_in = (john_at_work, 400)
  /\ fst second_clock_in = john_at_work.
Proof.
  split; [|split; [|split]].
  - apply (proj1 (clock_in_failures "u-nobody" "e-9" (at_time monday 9 0)
                    (at_time monday 9 0) (at_time monday 9 0) fresh_store)).
    intros u [<- | [<- | [<- | []]]]; discriminate.
  - eapply (proj1 (proj2 (clock_in_failures "u-john" "e-9"
                            (at_time monday 11 0) (at_time monday 11 0)
                            (at_time monday 11 0) (fst john_suspended))));
      reflexivity.
  - apply (proj1 (proj2 (proj2 (clock_in_failures "u-john" "e-2"
                                  (at_time monday 9 30) (at_time monday 9 30)
                                  (at_time monday 9 30) john_at_work)))
             john_user); [reflexivity | reflexivity |].
    eexists. split; [left; reflexivity | split; reflexivity].
  - apply (proj2 (proj2 (proj2 (clock_in_failures "u-john" "e-2"
                                  (at_time monday 9 30) (at_time monday 9 30)
                                  (at_time monday 9 30) john_at_work)))).
    discriminate.
Defined.

(** The morning entry of John is in the store, and the administrator may
    edit it. *)
Lemma morning_entry_exists : entry_exists "e-1" (fst morning_done).
Proof. eexists. split; [left; reflexivity | reflexivity]. Defined.

Lemma admin_is_authorised : is_authorised "u-admin" (fst morning_done).
Proof. eexists. split; reflexivity. Defined.

(** Login 12:00 and logout 09:00: refused with 400, store as it was. *)
Lemma swapped_edit_case :
  at_time monday 9 0 < at_time monday 12 0
  /\ fst swapped_edit = fst morning_done
  /\ snd swapped_edit = 400.
Proof.
  assert (Hlt : at_time monday 9 0 < at_time monday 12 0) by reflexivity.
  destruct (edit_logout_before_login_rejected "e-1" "Swap" "u-admin" "n-1"
              (at_time monday 14 0) (at_time monday 14 0) (fst morning_done)
              (at_time monday 12 0) (at_time monday 9 0) Hlt)
    as (Hst & _ & Hstatus).
  split; [exact Hlt|]. split; [exact Hst|].
  exact (Hstatus morning_entry_exists admin_is_authorised).
Defined.



(** Deleting John: his entry and his two notes go, the entry of the
    administrator and its note stay. *)
Lemma john_removed_case :
  exists deleted,
    find_user "u-john" (users before_removal) = Some deleted
    /\ uid deleted = "u-john"
    /\ kept (fun u => uid u <> "u-john")
            (users before_removal) (users (fst john_removed))
    /\ kept (fun e => userId e <> "u-john")
            (time_entries before_removal) (time_entries (fst john_removed))
    /\ kept (fun n => ~ note_of_deleted deleted before_removal n)
            (notes before_removal) (notes (fst john_removed))
    /\ users_file (fst john_removed) = users (fst john_removed)
    /\ time_entries_file (fst john_removed) = time_entries (fst john_removed)
    /\ notes_file (fst john_removed) = notes (fst john_removed).
Proof.
  apply (delete_user_cascade "u-john" "u-admin" before_removal
           (fst john_removed)).
  reflexivity.
Defined.

(** 09:00 to 17:00 and 18:00 to 19:30: one entry of 9.5 hours. *)
Lemma long_day_case :
  time_entries (fst long_day)
  = [ {| eid := "e-1"; userId := "u-john";
         loginTime := at_time monday 9 0;
         logoutTime := Some (at_time monday 19 30);
         totalHours := 800 + 150;
         date := monday; edited := false;
         lastModified := Some (at_time monday 19 30); editNotes := [] |} ]
  /\ active_entries_of "u-john" (time_entries (fst long_day)) = [].
Proof.
  destruct (same_day_sessions_consolidate "u-john" "e-1" "e-2" john_user monday
              (at_time monday 9 0) (at_time monday 9 0) (at_time monday 9 0)
              (at_time monday 17 0) (at_time monday 17 0) (at_time monday 17 0)
              (at_time monday 18 0) (at_time monday 18 0) (at_time monday 18 0)
              (at_time monday 19 30) (at_time monday 19 30)
              (at_time monday 19 30) fresh_store)
    as (_ & Hentries & _ & Hactive & _).
  - reflexivity.
  - reflexivity.
  - intros e [].
  - repeat constructor.
  - split; [exact Hentries | exact Hactive].
Defined.

(** John is suspended at 10:00 while at work and clocks out at 17:00. *)
Lemma suspended_clock_out_case :
  snd suspended_clock_out = 200
  /\ time_entries (fst john_suspended) = time_entries john_at_work
  /\ (List.length
        (active_entries_of "u-john" (time_entries (fst suspended_clock_out)))
      + 1
      = List.length (active_entries_of "u-john" (time_entries john_at_work)))%nat
  /\ exists pre e post,
       time_entries john_at_work = pre ++ e :: post
       /\ userId e = "u-john" /\ logoutTime e = None
       /\ (forall x, In x pre -> is_active_for "u-john" x = false)
       /\ time_entries (fst suspended_clock_out)
          = pre ++ mkTimeEntry (eid e) (userId e) (loginTime e)
                     (Some (at_time monday 17 0))
                     (round_hours (at_time monday 17 0 - loginTime e))
                     (date e) (edited e) (Some (at_time monday 17 0))
                     (editNotes e)
                   :: post.
Proof.
  destruct (suspension_spares_active_session "u-john" "u-admin" "n-1"
              "Badge lost" (at_time monday 10 0) (at_time monday 17 0)
              (at_time monday 17 0) (at_time monday 17 0) john_at_work)
    as [_ H].
  destruct H as (Hentries & _ & _ & Hstatus & _ & Hcount & Hplace).
  - reflexivity.
  - eexists. split; [left; reflexivity | split; reflexivity].
  - split; [exact Hstatus|]. split; [exact Hentries|].
    split; [exact Hcount|].
    apply Hplace. intros x [<- | []]. reflexivity.
Defined.


(* ================================================================== *)
(** * Further properties of the handlers *)

(** ** More on the list idioms *)

Lemma In_update_first_inv {A} (p : A -> bool) (f : A -> A) (l : list A) (y : A) :
  In y (update_first p f l) ->
  In y l \/ exists x, In x l /\ p x = true /\ y = f x.
Proof.
  induction l as [|x r IH]; simpl; [tauto|].
  destruct (p x) eqn:Hx; simpl.
  - intros [<- | H]; [right; exists x; auto | auto].
  - intros [<- | H]; [auto|].
    destruct (IH H) as [H' | (z & Hz & Hp & ->)]; [auto|].
    right. exists z. auto.
Qed.

Lemma In_remove_first {A} (eqb : A -> A -> bool) (a : A) (l : list A) (y : A) :
  In y (remove_first eqb a l) -> In y l.
Proof.
  induction l as [|x r IH]; simpl; [tauto|].
  destruct (eqb x a); simpl; tauto.
Qed.

Lemma filter_update_first_eq {A} (q p : A -> bool) (f : A -> A) (l : list A) :
  (forall x, p x = true -> q x = false /\ q (f x) = false) ->
  filter q (update_first p f l) = filter q l.
Proof.
  intros H. induction l as [|x r IH]; simpl; [reflexivity|].
  destruct (p x) eqn:Hx; simpl.
  - destruct (H x Hx) as [-> ->]. reflexivity.
  - now rewrite IH.
Qed.

Lemma filter_remove_first_eq (q : TimeEntry -> bool) (a : TimeEntry)
    (l : list TimeEntry) :
  q a = false ->
  filter q (remove_first TimeEntry_eqb a l) = filter q l.
Proof.
  intros Ha. induction l as [|x r IH]; simpl; [reflexivity|].
  destruct (TimeEntry_eqb x a) eqn:E.
  - apply TimeEntry_eqb_eq in E. subst x. now rewrite Ha.
  - simpl. now rewrite IH.
Qed.

Lemma find_filter {A} (p q : A -> bool) (l : list A) :
  (forall x, p x = true -> q x = true) ->
  find p (filter q l) = find p l.
Proof.
  intros H. induction l as [|x r IH]; simpl; [reflexivity|].
  destruct (q x) eqn:Hq; simpl.
  - now rewrite IH.
  - destruct (p x) eqn:Hp; [|exact IH].
    rewrite (H x Hp) in Hq. discriminate.
Qed.

(** Looking a user up by id after the first user with the id [y] was
    changed by a function that keeps the id. *)
Lemma find_user_update_first (x y : ident) (f : User -> User) (us : list User) :
  (forall u, uid (f u) = uid u) ->
  find_user x (update_first (fun u => (uid u =? y)%string) f us)
  = if (x =? y)%string then option_map f (find_user y us)
    else find_user x us.
Proof.
  intros Hf. unfold find_user.
  induction us as [|u r IH]; simpl.
  - now destruct (x =? y)%string.
  - destruct (String.eqb_spec (uid u) y) as [Hy | Hy]; simpl.
    + rewrite Hf. destruct (String.eqb_spec x y) as [-> | Hxy].
      * rewrite Hy, String.eqb_refl. reflexivity.
      * destruct (String.eqb_spec (uid u) x); [congruence | reflexivity].
    + destruct (String.eqb_spec (uid u) x) as [Hx | Hx].
      * destruct (String.eqb_spec x y); [congruence | reflexivity].
      * exact IH.
Qed.

(** ** The files follow the lists *)

Section FilesInSync.

Context {RT : Runtime}.

Lemma handle_keeps_in_sync (r : request) (st : store) :
  in_sync st -> in_sync (handle r st).
Proof.
  unfold in_sync. intros (Hu & He & Hn).
  destruct r; cbn [handle].
  - unfold clock_in. split_tests; simpl; auto.
  - unfold clock_out. split_tests; simpl; auto.
  - unfold logout. split_tests; simpl; auto.
  - unfold edit_time_entry, apply_edit. split_tests; simpl; auto.
  - unfold delete_user. split_tests; simpl; auto.
  - unfold suspend_user. split_tests; simpl; auto.
  - unfold get_all_time_entries.
    destruct (listing_loop current_time (users st) (notes st)
                (time_entries st)) as [listed [|]]; simpl; auto.
Qed.

(** X1: when every file holds its list, it still does after any run of
    requests and after a request to add a user: no handler changes a list
    without writing its file. *)
Theorem files_follow_lists :
  (forall rs st, in_sync st -> in_sync (run rs st))
  /\ (forall name_value email_value phone_value role_value pin_value
             requester_role new_id now_created st,
         in_sync st ->
         in_sync (fst (add_user name_value email_value phone_value
                         role_value pin_value requester_role new_id
                         now_created st))).
Proof.
  split.
  - induction rs as [|r rest IH]; intros st Hst; [exact Hst|].
    cbn [run]. apply IH. now apply handle_keeps_in_sync.
  - intros. unfold add_user, in_sync in *. split_tests; simpl; tauto.
Qed.

End FilesInSync.

(** ** The ledger only grows *)

Section LedgerGrows.

Context {RT : Runtime}.

Lemma handle_appends_notes (r : request) (st : store) :
  match r with DeleteUser _ _ => false | _ => true end = true ->
  exists added,
    notes (handle r st) = notes st ++ added
    /\ (List.length added <= 1)%nat.
Proof.
  intros Hr.
  assert (Hsame : forall st', notes st' = notes st ->
                  exists added, notes st' = notes st ++ added
                                /\ (List.length added <= 1)%nat).
  { intros st' ->. exists []. rewrite app_nil_r. simpl. auto. }
  assert (Hone : forall st' n, notes st' = notes st ++ [n] ->
                 exists added, notes st' = notes st ++ added
                               /\ (List.length added <= 1)%nat).
  { intros st' n ->. exists [n]. simpl. auto. }
  destruct r; cbn [handle]; try discriminate Hr.
  - apply Hsame. unfold clock_in. split_tests; reflexivity.
  - apply Hsame. unfold clock_out. split_tests; reflexivity.
  - unfold logout. split_tests; try (apply Hsame; reflexivity).
    eapply Hone. reflexivity.
  - unfold edit_time_entry, apply_edit.
    split_tests; try (apply Hsame; reflexivity); eapply Hone; reflexivity.
  - unfold suspend_user. split_tests; try (apply Hsame; reflexivity);
      eapply Hone; reflexivity.
  - apply Hsame. apply (listing_keeps_store current_time st).
Qed.

(** X2: over a run without a user deletion the ledger only grows, by at
    most one note per request, and a note that [get_note] finds before the
    run is the note it finds after it. *)
Theorem notes_stay_readable (rs : list request) (st : store) :
  no_deletion rs = true ->
  (exists added,
      notes (run rs st) = notes st ++ added
      /\ (List.length added <= List.length rs)%nat)
  /\ (forall note_id n,
         get_note note_id st = (Some n, 200) ->
         get_note note_id (run rs st) = (Some n, 200)).
Proof.
  intros Hrs.
  assert (Hgrow : exists added,
             notes (run rs st) = notes st ++ added
             /\ (List.length added <= List.length rs)%nat).
  { revert st. induction rs as [|r rest IH]; intros st.
    - exists []. rewrite app_nil_r. simpl. auto.
    - cbn [no_deletion forallb] in Hrs. apply andb_prop in Hrs as [Hr Hrest].
      destruct (handle_appends_notes r st Hr) as (a1 & E1 & L1).
      destruct (IH Hrest (handle r st)) as (a2 & E2 & L2).
      exists (a1 ++ a2). cbn [run]. rewrite E2, E1, <- app_assoc.
      split; [reflexivity|]. rewrite length_app. simpl. lia. }
  split; [exact Hgrow|].
  destruct Hgrow as (added & E & _).
  intros note_id n. unfold get_note. rewrite E, find_app.
  destruct (find (fun n0 => (nid n0 =? note_id)%string) (notes st));
    [auto | discriminate].
Qed.

End LedgerGrows.

(** ** The entries of the other users *)

Section OtherUsers.

Context {RT : Runtime}.

Variable user_id : ident.
Variable st : store.

Lemma is_active_for_owner (e : TimeEntry) :
  is_active_for user_id e = true ->
  negb (userId e =? user_id)%string = false.
Proof.
  intros H. apply is_active_for_spec in H as [-> _].
  now rewrite String.eqb_refl.
Qed.

(** X3: clocking in, clocking out and a forced logout of one user leave
    the entries of all other users as they were, in their order; this
    holds for the consolidation as well. *)
Theorem other_users_entries_untouched :
  (forall new_id t1 t2 t3,
      entries_of_others user_id
        (time_entries (fst (clock_in user_id new_id t1 t2 t3 st)))
      = entries_of_others user_id (time_entries st))
  /\ (forall t1 t2 t3,
         entries_of_others user_id
           (time_entries (fst (clock_out user_id t1 t2 t3 st)))
         = entries_of_others user_id (time_entries st))
  /\ (forall note_content requester_id new_note_id t1 t2 t3,
         entries_of_others user_id
           (time_entries (fst (logout user_id note_content requester_id
                                 new_note_id t1 t2 t3 st)))
         = entries_of_others user_id (time_entries st)).
Proof.
  unfold entries_of_others. split; [|split]; intros.
  - unfold clock_in. split_tests; try reflexivity.
    cbn [fst time_entries save_time_entries set_time_entries].
    rewrite filter_app. cbn [filter userId].
    rewrite String.eqb_refl. cbn [negb]. now rewrite app_nil_r.
  - unfold clock_out.
    destruct (find_user user_id (users st)); [|reflexivity].
    destruct (find (is_active_for user_id) (time_entries st)) as [a|] eqn:Ha;
      [|reflexivity].
    apply find_some in Ha as [_ Ha].
    destruct (find (is_completed_today user_id (date_of t2) t1)
                   (time_entries st));
      cbn [fst time_entries save_time_entries set_time_entries].
    + rewrite filter_remove_first_eq by now apply is_active_for_owner.
      apply filter_update_first_eq. intros x Hx.
      apply is_completed_today_closed in Hx as (Hu & _).
      cbn [userId set_lastModified set_logoutTime set_totalHours].
      rewrite Hu, String.eqb_refl. auto.
    + apply filter_update_first_eq. intros x Hx.
      pose proof (is_active_for_owner x Hx) as Hx'.
      cbn [userId set_lastModified set_logoutTime set_totalHours]. auto.
  - unfold logout. split_tests; try reflexivity.
    cbn [fst time_entries save_time_entries set_time_entries save_notes
           set_notes].
    apply filter_update_first_eq. intros x Hx.
    pose proof (is_active_for_owner x Hx) as Hx'.
    cbn [userId set_editNotes set_lastModified set_edited set_totalHours
           set_logoutTime]. auto.
Qed.

End OtherUsers.

(** ** One session, and the next clock-in *)

Section Sessions.

Context {RT : Runtime}.

Variable user_id : ident.

(** X4: after a clock-in that succeeded, clock-out succeeds; when the user
    has no entry dated on the day of the clock-out, the store ends with the
    entries of before and the new entry, closed at the clock-out time with
    the rounded length of the session as its hours. *)
Theorem single_session_hours (new_id : ident)
    (now_login now_date now_modified out out_today out_mod : datetime)
    (st st1 : store) :
  clock_in user_id new_id now_login now_date now_modified st = (st1, 200) ->
  let result := clock_out user_id out out_today out_mod st1 in
  snd result = 200
  /\ ((forall x, In x (time_entries st) -> userId x = user_id ->
                 date x <> date_of out_today) ->
      time_entries (fst result)
      = time_entries st
        ++ [ {| eid := new_id; userId := user_id;
                loginTime := now_login; logoutTime := Some out;
                totalHours := round_hours (out - now_login);
                date := date_of now_date; edited := false;
                lastModified := Some out_mod; editNotes := [] |} ]).
Proof.
  unfold clock_in.
  destruct (find_user user_id (users st)) as [user|] eqn:Hu;
    [|intros H; inversion H].
  destruct (is_suspended user); [intros H; inversion H|].
  destruct (find (is_active_for user_id) (time_entries st)) eqn:Hna;
    intros H; inversion H; subst st1; clear H.
  set (new_entry := mkTimeEntry new_id user_id now_login None 0
                      (date_of now_date) false (Some now_modified) []).
  assert (Hact : is_active_for user_id new_entry = true)
    by (apply is_active_for_spec; auto).
  assert (Hopen : is_completed_today user_id (date_of out_today) out new_entry
                  = false).
  { unfold is_completed_today. cbn [logoutTime new_entry].
    now rewrite andb_false_r. }
  unfold clock_out. cbv zeta.
  cbn [users time_entries save_time_entries set_time_entries].
  rewrite Hu, find_app, Hna. cbn [find]. rewrite Hact.
  split; [split_tests; reflexivity|].
  intros Hday.
  assert (Hnt : find (is_completed_today user_id (date_of out_today) out)
                     (time_entries st) = None).
  { apply find_None_forall. intros x Hx. unfold is_completed_today.
    destruct (String.eqb_spec (userId x) user_id) as [Hxu|]; [|reflexivity].
    specialize (Hday x Hx Hxu). apply Z.eqb_neq in Hday. now rewrite Hday. }
  rewrite find_app, Hnt. cbn [find]. rewrite Hopen.
  cbn [fst time_entries save_time_entries set_time_entries].
  rewrite update_first_app_skip by exact Hna.
  cbn [update_first]. rewrite Hact. reflexivity.
Qed.

(** X5: in a store with at most one active entry per user, a user who has
    clocked out and is not suspended can clock in again. *)
Theorem clock_in_after_clock_out (user : User) (new_id : ident)
    (out out_today out_mod t1 t2 t3 : datetime) (st st1 : store) :
  at_most_one_active st ->
  find_user user_id (users st) = Some user ->
  is_suspended user = false ->
  clock_out user_id out out_today out_mod st = (st1, 200) ->
  active_entries_of user_id (time_entries st1) = []
  /\ snd (clock_in user_id new_id t1 t2 t3 st1) = 200.
Proof.
  intros Hinv Hu Hs Hout.
  destruct (find (is_active_for user_id) (time_entries st)) as [e|] eqn:He.
  2: { unfold clock_out in Hout. rewrite Hu, He in Hout. inversion Hout. }
  destruct (clock_out_closes user_id out out_today out_mod st user e Hu He)
    as [_ Hcount].
  rewrite Hout in Hcount. cbn [fst] in Hcount.
  specialize (Hinv user_id).
  assert (Hnil : active_entries_of user_id (time_entries st1) = []).
  { destruct (active_entries_of user_id (time_entries st1)); [reflexivity|].
    simpl in Hcount. lia. }
  split; [exact Hnil|].
  assert (Husers : users st1 = users st).
  { unfold clock_out in Hout. rewrite Hu, He in Hout.
    destruct (find (is_completed_today user_id (date_of out_today) out)
                   (time_entries st)); inversion Hout; reflexivity. }
  unfold clock_in. rewrite Husers, Hu, Hs.
  destruct (find (is_active_for user_id) (time_entries st1)) as [x|] eqn:Hx;
    [|reflexivity].
  apply find_some in Hx as [Hin Hp].
  assert (In x (active_entries_of user_id (time_entries st1)))
    by (apply filter_In; auto).
  rewrite Hnil in *. contradiction.
Qed.

End Sessions.

(** ** Suspension and its withdrawal *)

(** After a request that succeeded, the users looked up by id. *)
Lemma suspend_user_lookup (user_id : ident) (suspend : bool)
    (note_content : string) (requester_id new_note_id : ident)
    (now_note : datetime) (st st' : store) :
  suspend_user user_id suspend note_content requester_id new_note_id
    now_note st = (st', 200) ->
  exists target,
    find_user user_id (users st) = Some target
    /\ time_entries st' = time_entries st
    /\ forall x,
         find_user x (users st')
         = if (x =? user_id)%string
           then Some (set_suspension_notes
                        (suspension_notes target ++ [new_note_id])
                        (set_is_suspended suspend target))
           else find_user x (users st).
Proof.
  unfold suspend_user.
  destruct (find_user user_id (users st)) as [target|] eqn:Ht;
    [|intros H; inversion H].
  destruct (find_user requester_id (users st)); [|intros H; inversion H].
  repeat match goal with
         | |- context [if ?b then (_, _) else _] => destruct b
         end; intros H; inversion H; subst st'; clear H.
  exists target. split; [reflexivity|]. split; [reflexivity|].
  intros x. cbn [users save_users set_users].
  rewrite find_user_update_first by reflexivity. now rewrite Ht.
Qed.

Section SuspendAndBack.

Variables (user_id req1 req2 n1 n2 : ident) (c1 c2 : string).
Variables (t1 t2 : datetime).

(** X6: a suspension followed by its withdrawal, both accepted, leaves the
    user not suspended, with the ids of the two notes added to the
    suspension notes in that order and all other fields as before; every
    other user is found as before, no entry has changed, and the user is
    not refused at clock-in for being suspended. *)
Theorem suspend_then_unsuspend (st st1 st2 : store) :
  suspend_user user_id true c1 req1 n1 t1 st = (st1, 200) ->
  suspend_user user_id false c2 req2 n2 t2 st1 = (st2, 200) ->
  exists u,
    find_user user_id (users st) = Some u
    /\ find_user user_id (users st2)
       = Some (mkUser (uid u) (name u) (email u) (phone u) (role u) (pin u)
                 (createdAt u) false (suspension_notes u ++ [n1; n2]))
    /\ (forall x, x <> user_id ->
                  find_user x (users st2) = find_user x (users st))
    /\ time_entries st2 = time_entries st
    /\ (forall new_id a b c,
           snd (clock_in user_id new_id a b c st2) <> 403).
Proof.
  intros H1 H2.
  destruct (suspend_user_lookup _ _ _ _ _ _ _ _ H1) as (u & Hu & He1 & L1).
  destruct (suspend_user_lookup _ _ _ _ _ _ _ _ H2) as (u1 & Hu1 & He2 & L2).
  rewrite L1, String.eqb_refl in Hu1. inversion Hu1; subst u1; clear Hu1.
  assert (Hfinal :
    find_user user_id (users st2)
    = Some (mkUser (uid u) (name u) (email u) (phone u) (role u) (pin u)
              (createdAt u) false (suspension_notes u ++ [n1; n2]))).
  { rewrite L2, String.eqb_refl.
    unfold set_suspension_notes, set_is_suspended. simpl.
    now rewrite <- app_assoc. }
  exists u. split; [exact Hu|]. split; [exact Hfinal|].
  split; [|split; [congruence|]].
  - intros x Hx. apply String.eqb_neq in Hx. now rewrite L2, Hx, L1, Hx.
  - intros new_id a b c. unfold clock_in. rewrite Hfinal. simpl.
    destruct (find (is_active_for user_id) (time_entries st2));
      simpl; discriminate.
Qed.

End SuspendAndBack.

(** ** After a deletion *)

Section AfterDeletion.

Context {RT : Runtime}.

Variables (user_id requester_id : ident) (st st' : store).

Hypothesis deleted : delete_user user_id requester_id st = (st', 200).

Lemma deletion_lists :
  users st' = filter (fun u => negb (uid u =? user_id)%string) (users st)
  /\ time_entries st'
     = filter (fun e => negb (userId e =? user_id)%string) (time_entries st).
Proof.
  revert deleted. unfold delete_user.
  split_tests; intros H; inversion H; subst st'; auto.
Qed.

(** X7: after a deletion that succeeded no user has the id and no entry
    belongs to it: a second deletion, a clock-in, a clock-out and a
    suspension for that id are answered 404 and change nothing. *)
Theorem deleted_id_is_unknown :
  (forall u, In u (users st') -> uid u <> user_id)
  /\ (forall e, In e (time_entries st') -> userId e <> user_id)
  /\ (forall requester, delete_user user_id requester st' = (st', 404))
  /\ (forall new_id t1 t2 t3,
         clock_in user_id new_id t1 t2 t3 st' = (st', 404))
  /\ (forall t1 t2 t3, clock_out user_id t1 t2 t3 st' = (st', 404))
  /\ (forall suspend note_content requester new_note_id t,
         suspend_user user_id suspend note_content requester new_note_id t st'
         = (st', 404)).
Proof.
  destruct deletion_lists as [Hus Hes].
  assert (Hgone : forall u, In u (users st') -> uid u <> user_id).
  { intros u Hu. rewrite Hus in Hu. apply filter_In in Hu as [_ Hu].
    apply negb_true_iff in Hu. now apply String.eqb_neq. }
  assert (Hnone : find_user user_id (users st') = None)
    by now apply find_user_None.
  split; [exact Hgone|]. split.
  { intros e He. rewrite Hes in He. apply filter_In in He as [_ He].
    apply negb_true_iff in He. now apply String.eqb_neq. }
  repeat split; intros.
  - unfold delete_user. now rewrite Hnone.
  - unfold clock_in. now rewrite Hnone.
  - unfold clock_out. now rewrite Hnone.
  - unfold suspend_user. now rewrite Hnone.
Qed.

(** X8: a deletion that succeeded was asked for by an administrator other
    than the deleted user, and that administrator is still in the
    directory afterwards: the directory never loses its last
    administrator through [delete_user]. *)
Theorem deletion_keeps_an_admin :
  exists requester,
    find_user requester_id (users st) = Some requester
    /\ role requester = "ADMIN"
    /\ requester_id <> user_id
    /\ find_user requester_id (users st') = Some requester.
Proof.
  destruct deletion_lists as [Hus _].
  revert deleted. unfold delete_user.
  destruct (find_user user_id (users st)) as [target|] eqn:Ht;
    [|intros H; inversion H].
  destruct (find_user requester_id (users st)) as [requester|] eqn:Hr;
    [|intros H; inversion H].
  destruct (String.eqb_spec (role requester) "ADMIN") as [Hrole|];
    [|intros H; inversion H]. cbn [negb].
  destruct (String.eqb_spec (uid target) requester_id) as [|Hneq];
    [intros H; inversion H|].
  intros _.
  destruct (find_user_uid _ _ _ Ht) as [Htid _].
  assert (Hdiff : requester_id <> user_id) by congruence.
  exists requester. repeat split; trivial.
  rewrite Hus. unfold find_user. rewrite find_filter; [exact Hr|].
  intros x Hx. apply String.eqb_eq in Hx.
  apply negb_true_iff, String.eqb_neq. congruence.
Qed.

End AfterDeletion.

(** ** Adding a user *)

Lemma existsb_pin_false (p : string) (us : list User) :
  existsb (fun u => (pin u =? p)%string) us = false <->
  (forall u, In u us -> pin u <> p).
Proof.
  rewrite <- not_true_iff_false, existsb_exists. split.
  - intros H u Hu E. apply H. exists u. split; [exact Hu|].
    now apply String.eqb_eq.
  - intros H (u & Hu & E). apply String.eqb_eq in E. now apply (H u).
Qed.

Lemma email_in_use_false (e : string) (us : list User) :
  email_in_use e us = false <-> ~ In e (emails_of us).
Proof.
  unfold email_in_use, emails_of.
  rewrite <- not_true_iff_false, existsb_exists, in_flat_map. split.
  - intros H (u & Hu & Hin). apply H. exists u. split; [exact Hu|].
    destruct (email u) as [x|]; simpl in Hin; [|tauto].
    destruct Hin as [-> | []]. apply String.eqb_refl.
  - intros H (u & Hu & E). apply H. exists u. split; [exact Hu|].
    destruct (email u) as [x|]; [|discriminate].
    apply String.eqb_eq in E. subst. now left.
Qed.

Lemma emails_of_app (l l' : list User) :
  emails_of (l ++ l') = emails_of l ++ emails_of l'.
Proof. unfold emails_of. apply flat_map_app. Qed.

Lemma NoDup_snoc {A} (l : list A) (x : A) :
  NoDup l -> ~ In x l -> NoDup (l ++ [x]).
Proof.
  intros Hl Hx. apply NoDup_app; [exact Hl | |].
  - constructor; [simpl; tauto | constructor].
  - intros y Hy [<- | []]. contradiction.
Qed.

Section AddUser.

Variables (name_value : string) (email_value phone_value : option string).
Variables (role_value : string) (pin_value : option string).
Variables (requester_role : string) (new_id : ident) (now_created : datetime).
Variable st : store.

(** What a request answered 201 has checked and done. *)
Lemma add_user_appends (st' : store) :
  add_user name_value email_value phone_value role_value pin_value
    requester_role new_id now_created st = (st', 201) ->
  exists p,
    pin_value = Some p /\ (p =? "")%string = false /\ isdigit p = true
    /\ (forall u, In u (users st) -> pin u <> p)
    /\ users st'
       = users st
         ++ [mkUser new_id name_value (or_none email_value)
               (or_none phone_value) role_value p now_created false []].
Proof.
  unfold add_user.
  destruct (name_value =? "")%string; [intros H; inversion H|].
  destruct pin_value as [p|]; cbn [invalid_pin]; [|intros H; inversion H].
  destruct (p =? "")%string eqn:Hne; cbn [orb]; [intros H; inversion H|].
  destruct (isdigit p) eqn:Hdigits; cbn [negb]; [|intros H; inversion H].
  destruct (existsb (fun u => (pin u =? p)%string) (users st)) eqn:Hpin;
    [intros H; inversion H|].
  split_tests; intros H; inversion H; subst st'; clear H.
  exists p. repeat split; trivial. now apply existsb_pin_false.
Qed.


(** X10: adding a user keeps the PINs of the directory pairwise distinct,
    and the e-mail addresses too. *)
Theorem add_user_keeps_pins_and_emails_unique :
  let result :=
    add_user name_value email_value phone_value role_value pin_value
      requester_role new_id now_created st in
  (unique_pins (users st) -> unique_pins (users (fst result)))
  /\ (unique_emails (users st) -> unique_emails (users (fst result))).
Proof.
  cbv zeta. unfold add_user, unique_pins, unique_emails.
  destruct (name_value =? "")%string; [auto|].
  destruct (invalid_pin pin_value); [auto|].
  destruct pin_value as [p|]; [|auto].
  destruct (existsb (fun u => (pin u =? p)%string) (users st)) eqn:Hpin;
    [auto|].
  destruct (negb _); [auto|].
  destruct (truthy_str email_value
            && match email_value with
               | Some e => email_in_use e (users st)
               | None => false
               end) eqn:Hmail; [auto|].
  cbn [fst users save_users set_users]. split; intros H.
  - rewrite map_app. cbn [map pin]. apply NoDup_snoc; [exact H|].
    rewrite in_map_iff. intros (u & E & Hu).
    apply (proj1 (existsb_pin_false p (users st)) Hpin u Hu E).
  - rewrite emails_of_app. unfold emails_of at 2. cbn [flat_map email].
    rewrite app_nil_r. unfold or_none.
    destruct (truthy_str email_value) eqn:Ht;
      [|simpl; now rewrite app_nil_r].
    destruct email_value as [e|]; [|discriminate Ht].
    cbn [andb] in Hmail. apply NoDup_snoc; [exact H|].
    now apply email_in_use_false.
Qed.

(** X11: a user that was just added logs in with the PIN of the request:
    [login_pin] answers 200 with the id, name, role and PIN of the new
    user. *)
Theorem added_user_logs_in (st' : store) :
  add_user name_value email_value phone_value role_value pin_value
    requester_role new_id now_created st = (st', 201) ->
  exists p,
    pin_value = Some p
    /\ login_pin pin_value st'
       = (200, Some (mkSessionUser new_id name_value (or_none email_value)
                       role_value p)).
Proof.
  intros H.
  destruct (add_user_appends st' H) as (p & Hp & Hne & Hdigits & Hfree & Hus).
  exists p. split; [exact Hp|].
  unfold login_pin. rewrite Hp. cbn [invalid_pin].
  rewrite Hne, Hdigits. cbn [orb negb].
  unfold find_by_pin. rewrite Hus, find_app.
  replace (find (fun u => (pin u =? p)%string) (users st)) with (@None User).
  - cbn [find pin]. rewrite String.eqb_refl. reflexivity.
  - symmetry. apply find_None_forall. intros u Hu.
    apply String.eqb_neq. now apply Hfree.
Qed.

End AddUser.

(** ** Suspension and the PIN *)

Lemma find_update_first_agree {A} (p q : A -> bool) (f : A -> A)
    (l : list A) (u : A) :
  find p l = Some u -> find q l = Some u -> q (f u) = true ->
  find q (update_first p f l) = Some (f u).
Proof.
  intros Hp Hq Hf.
  pose proof (find_some _ _ Hp) as [_ Hpu].
  pose proof (find_some _ _ Hq) as [_ Hqu].
  induction l as [|x r IH]; simpl in *; [discriminate|].
  destruct (p x) eqn:Hx.
  - inversion Hp; subst x. simpl. now rewrite Hf.
  - destruct (q x) eqn:Hy.
    + inversion Hq; subst x. congruence.
    + simpl. rewrite Hy. auto.
Qed.

Lemma find_narrower {A} (p q : A -> bool) (l : list A) (u : A) :
  find p l = Some u -> (forall x, q x = true -> p x = true) -> q u = true ->
  find q l = Some u.
Proof.
  intros Hp Hsub Hq. induction l as [|x r IH]; simpl in *; [discriminate|].
  destruct (p x) eqn:Hx.
  - inversion Hp; subst x. now rewrite Hq.
  - destruct (q x) eqn:Hy; [rewrite (Hsub x Hy) in Hx; discriminate | auto].
Qed.

(** X12: once a user is suspended, the PIN of the user no longer logs in:
    [login_pin] answers 403 and, for a worker, so does
    [get_worker_status_by_pin].  (The user is the one that the PIN
    reaches, and the PIN is made of digits.) *)
Theorem suspended_pin_is_refused (user_id : ident) (note_content : string)
    (requester_id new_note_id : ident) (now_note : datetime)
    (u : User) (st st' : store) :
  suspend_user user_id true note_content requester_id new_note_id now_note st
  = (st', 200) ->
  find_user user_id (users st) = Some u ->
  find_by_pin (pin u) (users st) = Some u ->
  isdigit (pin u) = true ->
  login_pin (Some (pin u)) st' = (403, None)
  /\ (role u = "worker" ->
      get_worker_status_by_pin (Some (pin u)) st' = (403, None)).
Proof.
  intros H Hu Hpin Hdigits.
  assert (Hus : users st'
                = update_first (fun x => (uid x =? user_id)%string)
                    (fun x =>
                       set_suspension_notes
                         (suspension_notes x ++ [new_note_id])
                         (set_is_suspended true x))
                    (users st)).
  { revert H. unfold suspend_user. rewrite Hu.
    destruct (find_user requester_id (users st)); [|intros H; inversion H].
    repeat match goal with
           | |- context [if ?b then (_, _) else _] => destruct b
           end; intros H; inversion H; reflexivity. }
  split.
  - unfold login_pin, invalid_pin, find_by_pin.
    assert (Hne : (pin u =? "")%string = false).
    { unfold isdigit in Hdigits. apply andb_prop in Hdigits as [Hd _].
      now apply negb_true_iff. }
    rewrite Hne, Hdigits. cbn [orb negb]. rewrite Hus.
    rewrite (find_update_first_agree _ _ _ _ u Hu Hpin)
      by (simpl; apply String.eqb_refl).
    reflexivity.
  - intros Hrole. unfold get_worker_status_by_pin. rewrite Hus.
    assert (Hworker :
      find (fun x => (pin x =? pin u)%string && (role x =? "worker")%string)
           (users st) = Some u).
    { apply (find_narrower _ _ _ _ Hpin).
      - intros x Hx. now apply andb_prop in Hx as [Hx _].
      - now rewrite Hrole, String.eqb_refl. }
    rewrite (find_update_first_agree _ _ _ _ u Hu Hworker)
      by (simpl; now rewrite Hrole, String.eqb_refl).
    reflexivity.
Qed.

(** ** The stable sort *)

Section StableSort.

Context {A : Type}.
Variable key : A -> Z.

Lemma insert_sorted_perm (x : A) (l : list A) :
  Permutation (insert_sorted (ascending key) x l) (x :: l).
Proof.
  induction l as [|y r IH]; simpl; [reflexivity|].
  destruct (ascending key y x); [|reflexivity].
  rewrite IH. apply perm_swap.
Qed.

Lemma stable_sort_perm (l : list A) : Permutation (stable_sort (ascending key) l) l.
Proof.
  induction l as [|x r IH]; simpl; [constructor|].
  fold (stable_sort (ascending key) r). rewrite insert_sorted_perm. now constructor.
Qed.

Lemma insert_sorted_sorted (x : A) (l : list A) :
  StronglySorted (fun a b => key a <= key b) l ->
  StronglySorted (fun a b => key a <= key b) (insert_sorted (ascending key) x l).
Proof.
  induction 1 as [|y r Hr IH Hy]; simpl.
  - repeat constructor.
  - unfold ascending at 1.
    destruct (Z.ltb_spec (key y) (key x)) as [Hlt|Hge].
    + constructor; [exact IH|].
      apply Forall_forall. intros z Hz.
      apply (Permutation_in _ (insert_sorted_perm x r)) in Hz.
      destruct Hz as [<- | Hz]; [lia|].
      rewrite Forall_forall in Hy. now apply Hy.
    + constructor; [now constructor|].
      constructor; [lia|].
      apply Forall_forall. intros z Hz. rewrite Forall_forall in Hy.
      specialize (Hy z Hz). lia.
Qed.

Lemma stable_sort_sorted (l : list A) :
  StronglySorted (fun a b => key a <= key b) (stable_sort (ascending key) l).
Proof.
  induction l as [|x r IH]; simpl; [constructor|].
  now apply insert_sorted_sorted.
Qed.

Lemma insert_sorted_stable (t : Z) (x : A) (l : list A) :
  filter (fun a => key a =? t) (insert_sorted (ascending key) x l)
  = filter (fun a => key a =? t) (x :: l).
Proof.
  induction l as [|y r IH]; [reflexivity|].
  cbn [insert_sorted]. unfold ascending at 1.
  destruct (Z.ltb_spec (key y) (key x)) as [Hlt|Hge]; [|reflexivity].
  cbn [filter] in *. rewrite IH.
  destruct (Z.eqb_spec (key x) t), (Z.eqb_spec (key y) t);
    try reflexivity. lia.
Qed.

Lemma stable_sort_stable (t : Z) (l : list A) :
  filter (fun a => key a =? t) (stable_sort (ascending key) l)
  = filter (fun a => key a =? t) l.
Proof.
  induction l as [|x r IH]; [reflexivity|].
  cbn [stable_sort fold_right]. fold (stable_sort (ascending key) r).
  rewrite insert_sorted_stable. cbn [filter]. now rewrite IH.
Qed.

End StableSort.

Lemma stable_sort_ext {A} (f g : A -> A -> bool) (l : list A) :
  (forall a b, f a b = g a b) -> stable_sort f l = stable_sort g l.
Proof.
  intros H.
  assert (Hins : forall x m, insert_sorted f x m = insert_sorted g x m).
  { intros x m. induction m as [|y r IH]; simpl; [reflexivity|].
    now rewrite H, IH. }
  induction l as [|x r IH]; simpl; [reflexivity|].
  fold (stable_sort f r) (stable_sort g r). now rewrite IH, Hins.
Qed.

Lemma sorted_by_login_desc_ascending (l : list TimeEntry) :
  sorted_by_login_desc l
  = stable_sort (ascending (fun e => - loginTime e)) l.
Proof.
  apply stable_sort_ext. intros a b. unfold ascending.
  destruct (Z.ltb_spec (loginTime b) (loginTime a)),
           (Z.ltb_spec (- loginTime a) (- loginTime b)); auto; lia.
Qed.

(** ** Reading the ledger *)

(** X13: the notes of an entity are listed completely and only once, in
    ascending order of their timestamps, and notes with one timestamp
    stay in the order of the ledger. *)
Theorem notes_for_entity_sorted (entity_id : ident) (st : store) :
  let listed := fst (get_notes_for_entity entity_id st) in
  Permutation listed
    (filter (fun n => (entityId n =? entity_id)%string) (notes st))
  /\ StronglySorted (fun a b => timestamp a <= timestamp b) listed
  /\ (forall t,
         filter (fun n => timestamp n =? t) listed
         = filter (fun n => timestamp n =? t)
             (filter (fun n => (entityId n =? entity_id)%string)
                     (notes st)))
  /\ snd (get_notes_for_entity entity_id st) = 200.
Proof.
  cbv zeta. unfold get_notes_for_entity, sorted_by_timestamp. cbn [fst snd].
  split; [apply (stable_sort_perm timestamp)|].
  split; [apply (stable_sort_sorted timestamp)|].
  split; [intros t; apply (stable_sort_stable timestamp)|reflexivity].
Qed.

Lemma appended_note_is_found (st st' : store) (n : Note) :
  notes st' = notes st ++ [n] ->
  (forall m, In m (notes st) -> nid m <> nid n) ->
  get_note (nid n) st' = (Some n, 200)
  /\ In n (fst (get_notes_for_entity (entityId n) st'))
  /\ hydrate [nid n] (notes st') = [n].
Proof.
  intros E Hfresh.
  assert (Hnone : forall (q : Note -> bool),
             (forall m, q m = true -> nid m = nid n) ->
             filter q (notes st) = [] /\ find q (notes st) = None).
  { intros q Hq.
    assert (Hall : forall m, In m (notes st) -> q m = false).
    { intros m Hm. apply not_true_iff_false. intros C.
      apply (Hfresh m Hm). now apply Hq. }
    split; [|now apply find_None_forall].
    clear -Hall. induction (notes st) as [|m r IH]; [reflexivity|].
    simpl. rewrite (Hall m (or_introl eq_refl)). apply IH.
    intros; apply Hall; now right. }
  split; [|split].
  - unfold get_note. rewrite E, find_app.
    destruct (Hnone (fun m => (nid m =? nid n)%string)) as [_ ->].
    + intros m. apply String.eqb_eq.
    + simpl. now rewrite String.eqb_refl.
  - unfold get_notes_for_entity, sorted_by_timestamp. cbn [fst].
    apply (Permutation_in _
             (Permutation_sym (stable_sort_perm timestamp _))).
    apply filter_In. split; [rewrite E; apply in_or_app; right; now left|].
    apply String.eqb_refl.
  - unfold hydrate, mem. rewrite E, filter_app.
    destruct (Hnone (fun m => existsb (String.eqb (nid m)) [nid n]))
      as [-> _].
    + intros m Hm. simpl in Hm. rewrite orb_false_r in Hm.
      now apply String.eqb_eq.
    + simpl. now rewrite String.eqb_refl.
Qed.

Section NewNotes.

Context {RT : Runtime}.

(** X14: the note of a forced logout, of an edit or of a suspension that
    succeeded, written under an id that no note of the ledger has, is the
    note that [get_note] returns for the id, and it is among the notes that
    [get_notes_for_entity] lists for the entry or user. *)
Theorem new_note_is_readable (new_note_id : ident) (st st' : store) :
  (forall m, In m (notes st) -> nid m <> new_note_id) ->
  (forall user_id note_content requester_id t1 t2 t3,
      logout user_id note_content requester_id new_note_id t1 t2 t3 st
      = (st', 200) ->
      exists e n,
        find (is_active_for user_id) (time_entries st) = Some e
        /\ get_note new_note_id st' = (Some n, 200)
        /\ entityType n = time_entry
        /\ In n (fst (get_notes_for_entity (eid e) st')))
  /\ (forall entry_id login_time logout_time edit_note editor_user_id t1 t2,
         edit_time_entry entry_id login_time logout_time edit_note
           editor_user_id new_note_id t1 t2 st = (st', 200) ->
         exists n,
           get_note new_note_id st' = (Some n, 200)
           /\ entityType n = time_entry
           /\ In n (fst (get_notes_for_entity entry_id st')))
  /\ (forall user_id suspend note_content requester_id t,
         suspend_user user_id suspend note_content requester_id new_note_id
           t st = (st', 200) ->
         exists n,
           get_note new_note_id st' = (Some n, 200)
           /\ entityType n = user_suspension
           /\ In n (fst (get_notes_for_entity user_id st'))).
Proof.
  intros Hfresh. split; [|split]; intros.
  - destruct (logout_adds_note _ _ _ _ _ _ _ _ _ H)
      as (e & e' & He & _ & _ & n & Hn & _ & Hid & Hent & Hty & _).
    subst new_note_id.
    destruct (appended_note_is_found st st' n Hn Hfresh) as (Hg & Hl & _).
    exists e, n. rewrite <- Hent. auto.
  - destruct (edit_adds_note _ _ _ _ _ _ _ _ _ _ H)
      as (e & e' & He & _ & _ & n & Hn & _ & Hid & Hent & Hty & _).
    subst new_note_id.
    destruct (appended_note_is_found st st' n Hn Hfresh) as (Hg & Hl & _).
    apply find_some in He as [_ He]. apply String.eqb_eq in He.
    exists n. rewrite <- He, <- Hent. auto.
  - destruct (suspend_adds_note _ _ _ _ _ _ _ _ H)
      as (u & u' & Hu & _ & n & Hn & _ & Hid & Hent & Hty & _).
    subst new_note_id.
    destruct (appended_note_is_found st st' n Hn Hfresh) as (Hg & Hl & _).
    destruct (find_user_uid _ _ _ Hu) as [Huid _].
    exists n. rewrite <- Huid, <- Hent. auto.
Qed.

End NewNotes.

(** ** Every entry has an owner *)

Lemma owners_kept (st st' : store) :
  (forall x u, find_user x (users st) = Some u ->
               exists u', find_user x (users st') = Some u') ->
  (forall e', In e' (time_entries st') ->
              exists e, In e (time_entries st) /\ userId e' = userId e) ->
  entries_have_owner st -> entries_have_owner st'.
Proof.
  intros Hus Hes Hst e' He'.
  destruct (Hes e' He') as (e & He & ->).
  destruct (Hst e He) as [u Hu]. eauto.
Qed.

Lemma update_first_owner (p : TimeEntry -> bool) (f : TimeEntry -> TimeEntry)
    (l : list TimeEntry) :
  (forall x, userId (f x) = userId x) ->
  forall e', In e' (update_first p f l) ->
             exists e, In e l /\ userId e' = userId e.
Proof.
  intros Hf e' H. apply In_update_first_inv in H as [H | (x & Hx & _ & ->)].
  - eauto.
  - exists x. auto.
Qed.

Section Owners.

Context {RT : Runtime}.

Lemma handle_keeps_owners (r : request) (st : store) :
  entries_have_owner st -> entries_have_owner (handle r st).
Proof.
  intros Hst.
  assert (Hsame : forall st', users st' = users st ->
                              time_entries st' = time_entries st ->
                              entries_have_owner st').
  { intros st' Hu He e. rewrite Hu, He. apply Hst. }
  destruct r; cbn [handle].
  - unfold clock_in.
    destruct (find_user user_id (users st)) as [user|] eqn:Hu; [|exact Hst].
    split_tests; try exact Hst.
    intros e He. cbn [fst users time_entries save_time_entries
                        set_time_entries] in *.
    apply in_app_or in He as [He | [<- | []]]; [now apply Hst|].
    cbn [userId]. eauto.
  - unfold clock_out. split_tests; try exact Hst.
    + apply (owners_kept st); [eauto | | exact Hst].
      cbn [fst time_entries save_time_entries set_time_entries].
      intros e' He'. apply In_remove_first in He'.
      revert e' He'. now apply update_first_owner.
    + apply (owners_kept st); [eauto | | exact Hst].
      cbn [fst time_entries save_time_entries set_time_entries].
      now apply update_first_owner.
  - unfold logout. split_tests; try exact Hst.
    apply (owners_kept st); [eauto | | exact Hst].
    cbn [fst time_entries save_time_entries set_time_entries save_notes
           set_notes].
    now apply update_first_owner.
  - unfold edit_time_entry, apply_edit. split_tests; try exact Hst.
    + apply (owners_kept st); [eauto | | exact Hst].
      cbn [fst time_entries save_time_entries set_time_entries save_notes
             set_notes].
      now apply update_first_owner.
    + apply (owners_kept st); [eauto | | exact Hst].
      cbn [fst time_entries save_time_entries set_time_entries save_notes
             set_notes].
      now apply update_first_owner.
  - unfold delete_user. split_tests; try exact Hst.
    intros e He.
    cbn [fst users time_entries save_time_entries set_time_entries
           save_notes set_notes save_users set_users] in *.
    apply filter_In in He as [He Hother].
    destruct (Hst e He) as [owner Howner]. exists owner.
    unfold find_user. rewrite find_filter; [exact Howner|].
    intros x Hx. apply String.eqb_eq in Hx. now rewrite Hx.
  - intros e He.
    destruct (suspend_user_keeps_entries user_id suspend note_content
                requester_id new_note_id now_note st) as [Hes _].
    cbv zeta in Hes. rewrite Hes in He.
    destruct (Hst e He) as [owner Howner].
    unfold suspend_user.
    destruct (find_user user_id (users st)) as [target|] eqn:Ht; [|eauto].
    split_tests; eauto.
    all: cbn [fst users save_users set_users].
    all: rewrite find_user_update_first by reflexivity.
    all: destruct (userId e =? user_id)%string; [rewrite Ht; simpl|]; eauto.
  - apply Hsame; apply (listing_keeps_store current_time st).
Qed.

Lemma listing_loop_names (current_time : datetime) (us : list User)
    (ns : list Note) (es : list TimeEntry) (l : ListedEntry) :
  In l (fst (listing_loop current_time us ns es)) ->
  exists e,
    In e es /\ userId (entry_copy l) = userId e /\ eid (entry_copy l) = eid e
    /\ userName l = match find_user (userId e) us with
                    | Some u => name u
                    | None => "Unknown User"
                    end.
Proof.
  induction es as [|e r IH]; cbn [listing_loop]; [intros []|].
  destruct (listing_loop current_time us ns r) as [listed flag].
  cbn [fst In] in *. intros [<- | H].
  - exists e. cbn [entry_copy userName].
    split; [now left|]. split; [|split; [|reflexivity]];
      destruct (edited e && _); reflexivity.
  - destruct (IH H) as (x & Hx & Hrest). exists x. split; [now right|].
    exact Hrest.
Qed.

(** X15: when every entry belongs to a user of the directory, this is
    still so after any run of requests (clock-in takes known users only,
    and a deletion takes the entries of the user along); the listing of
    such a store then shows every entry under the name of its owner and
    never under the name for an unknown user. *)
Theorem entries_keep_their_owner (rs : list request) (st : store)
    (current_time : datetime) :
  entries_have_owner st ->
  entries_have_owner (run rs st)
  /\ forall l,
       In l (fst (snd (get_all_time_entries current_time (run rs st)))) ->
       exists u,
         find_user (userId (entry_copy l)) (users (run rs st)) = Some u
         /\ userName l = name u.
Proof.
  intros Hst.
  assert (Hrun : entries_have_owner (run rs st)).
  { revert st Hst. induction rs as [|r rest IH]; intros st Hst; [exact Hst|].
    cbn [run]. apply IH. now apply handle_keeps_owners. }
  split; [exact Hrun|].
  intros l. unfold get_all_time_entries.
  pose proof (listing_loop_names current_time (users (run rs st))
                (notes (run rs st)) (time_entries (run rs st)) l) as Hl.
  destruct (listing_loop current_time (users (run rs st))
              (notes (run rs st)) (time_entries (run rs st)))
    as [listed flag].
  cbn [fst snd] in *. intros Hin.
  destruct (Hl Hin) as (e & He & Hu & _ & Hname).
  destruct (Hrun e He) as [u Hfound]. exists u.
  rewrite Hu, Hname, Hfound. auto.
Qed.

End Owners.

(** ** The status of a worker *)

Lemma sorted_by_login_desc_perm (l : list TimeEntry) :
  Permutation (sorted_by_login_desc l) l.
Proof.
  rewrite sorted_by_login_desc_ascending. apply stable_sort_perm.
Qed.

Lemma sorted_by_login_desc_sorted (l : list TimeEntry) :
  StronglySorted (fun a b => loginTime b <= loginTime a)
                 (sorted_by_login_desc l).
Proof.
  rewrite sorted_by_login_desc_ascending.
  pose proof (stable_sort_sorted (fun e => - loginTime e) l) as H.
  induction H as [|a r Hr IH Ha]; constructor; [exact IH|].
  apply Forall_forall. intros x Hx. rewrite Forall_forall in Ha.
  specialize (Ha x Hx). simpl in Ha. lia.
Qed.

Lemma find_in_sorted {A} (R : A -> A -> Prop) (q : A -> bool) (l : list A)
    (a : A) :
  StronglySorted R l -> find q l = Some a ->
  forall x, In x l -> q x = true -> x = a \/ R a x.
Proof.
  induction 1 as [|y r Hr IH Hy]; simpl; [discriminate|].
  destruct (q y) eqn:Hq.
  - intros E; inversion E; subst y. intros x [<- | Hx] _; [now left|].
    right. rewrite Forall_forall in Hy. now apply Hy.
  - intros E x [<- | Hx] Hqx; [congruence|]. now apply IH.
Qed.

Lemma filter_all {A} (q : A -> bool) (l : list A) :
  (forall x, In x l -> q x = true) -> filter q l = l.
Proof.
  induction l as [|x r IH]; simpl; intros H; [reflexivity|].
  rewrite (H x (or_introl eq_refl)). f_equal. auto.
Qed.

(** X16: the status that a worker gets by PIN reflects the entries of
    the worker: the history holds each of them once, latest login first,
    with its notes; the worker is shown as clocked in exactly when one of
    the entries is open, since the latest login among the open ones;
    otherwise the last session shown is the entry with the latest login. *)
Theorem worker_status_reflects_entries (p : string) (st : store)
    (ws : WorkerStatus) :
  get_worker_status_by_pin (Some p) st = (200, Some ws) ->
  exists user,
    In user (users st) /\ pin user = p /\ role user = "worker"
    /\ is_suspended user = false /\ ws_id (ws_user ws) = uid user
    /\ let mine :=
         filter (fun e => (userId e =? uid user)%string) (time_entries st) in
       Permutation (map fst (historical_entries ws)) mine
       /\ StronglySorted (fun a b => loginTime b <= loginTime a)
            (map fst (historical_entries ws))
       /\ (forall e ns, In (e, ns) (historical_entries ws) ->
                        ns = hydrate (editNotes e) (notes st))
       /\ (is_clocked_in ws = true <->
           exists e, In e mine /\ logoutTime e = None)
       /\ (is_clocked_in ws = true ->
           exists e,
             In e mine /\ logoutTime e = None
             /\ current_session_start ws = Some (loginTime e)
             /\ forall x, In x mine -> logoutTime x = None ->
                          loginTime x <= loginTime e)
       /\ (is_clocked_in ws = false -> mine <> [] ->
           exists e,
             In e mine
             /\ last_session_login_time ws = Some (loginTime e)
             /\ last_session_logout_time ws = logoutTime e
             /\ last_session_total_hours ws = Some (totalHours e)
             /\ forall x, In x mine -> loginTime x <= loginTime e).
Proof.
  unfold get_worker_status_by_pin.
  destruct (find (fun u => (pin u =? p)%string && (role u =? "worker")%string)
                 (users st)) as [user|] eqn:Hu; [|intros H; inversion H].
  apply find_some in Hu as [Hin Hu]. apply andb_prop in Hu as [Hp Hr].
  apply String.eqb_eq in Hp, Hr.
  destruct (is_suspended user) eqn:Hs; [intros H; inversion H|].
  set (mine := filter (fun e => (userId e =? uid user)%string)
                      (time_entries st)).
  set (sorted := sorted_by_login_desc mine).
  pose proof (sorted_by_login_desc_perm mine) as Hperm. fold sorted in Hperm.
  pose proof (sorted_by_login_desc_sorted mine) as Hsorted.
  fold sorted in Hsorted.
  assert (Hhist : map fst (map (fun e => (e, hydrate (editNotes e) (notes st)))
                              sorted) = sorted).
  { rewrite map_map. simpl. apply map_id. }
  assert (Hnotes : forall e ns,
             In (e, ns) (map (fun e => (e, hydrate (editNotes e) (notes st)))
                             sorted) ->
             ns = hydrate (editNotes e) (notes st)).
  { intros e ns H. apply in_map_iff in H as (x & E & _).
    inversion E; subst. reflexivity. }
  assert (Hopen : forall e, is_open e = true <-> logoutTime e = None).
  { intros e. unfold is_open. destruct (logoutTime e); split; congruence. }
  destruct (find is_open sorted) as [a|] eqn:Ha.
  - intros H; inversion H; subst ws; clear H. exists user.
    cbn [ws_user ws_id historical_entries is_clocked_in
           current_session_start].
    do 5 (split; [auto|]). cbv zeta. fold mine. rewrite Hhist.
    pose proof (find_some _ _ Ha) as [Hain Haopen].
    assert (Hamine : In a mine) by now apply (Permutation_in _ Hperm).
    apply Hopen in Haopen.
    split; [exact Hperm|]. split; [exact Hsorted|]. split; [exact Hnotes|].
    split; [split; [eauto | reflexivity]|].
    split; [|discriminate].
    intros _. exists a. do 3 (split; [auto|]).
    intros x Hx Hxo.
    apply (Permutation_in _ (Permutation_sym Hperm)) in Hx.
    apply Hopen in Hxo.
    destruct (find_in_sorted _ _ _ _ Hsorted Ha x Hx Hxo) as [-> | Hle];
      [lia | exact Hle].
  - assert (Hclosed : forall x, In x sorted -> negb (is_open x) = true).
    { intros x Hx. now rewrite (find_none _ _ Ha x Hx). }
    rewrite (filter_all _ _ Hclosed).
    assert (Hnone : ~ exists e, In e mine /\ logoutTime e = None).
    { intros (e & He & Heo).
      apply (Permutation_in _ (Permutation_sym Hperm)) in He.
      apply Hopen in Heo. rewrite (find_none _ _ Ha e He) in Heo.
      discriminate. }
    destruct sorted as [|last rest] eqn:Es;
      intros H; inversion H; subst ws; clear H; exists user;
      cbn [ws_user ws_id historical_entries is_clocked_in
             last_session_login_time last_session_logout_time
             last_session_total_hours];
      do 5 (split; [auto|]); cbv zeta; fold mine;
      cbn [map fst] in Hhist |- *; rewrite ?Hhist;
      (split; [exact Hperm|]); (split; [exact Hsorted|]);
      (split; [exact Hnotes|]);
      (split; [split; [discriminate | intros C; now destruct Hnone]|]);
      (split; [discriminate|]); intros _ Hne.
    + apply Permutation_nil in Hperm. contradiction.
    + exists last. split; [apply (Permutation_in _ Hperm); now left|].
      do 3 (split; [reflexivity|]).
      intros x Hx. apply (Permutation_in _ (Permutation_sym Hperm)) in Hx.
      destruct Hx as [<- | Hx]; [lia|].
      inversion Hsorted as [|? ? _ Hall]; subst.
      rewrite Forall_forall in Hall. now apply Hall.
Qed.

(** X17: after a clock-in that succeeded, the status by PIN of that worker
    shows the worker as clocked in since the time of the clock-in.  (The
    PIN and the id reach the same account.) *)
Theorem status_after_clock_in (p : string) (user : User) (new_id : ident)
    (now_login now_date now_modified : datetime) (st st1 : store) :
  find (fun u => (pin u =? p)%string && (role u =? "worker")%string)
       (users st) = Some user ->
  find_user (uid user) (users st) = Some user ->
  clock_in (uid user) new_id now_login now_date now_modified st = (st1, 200) ->
  exists ws,
    get_worker_status_by_pin (Some p) st1 = (200, Some ws)
    /\ is_clocked_in ws = true
    /\ current_session_start ws = Some now_login.
Proof.
  intros Hp Hid. unfold clock_in. rewrite Hid.
  destruct (is_suspended user) eqn:Hs; [intros H; inversion H|].
  destruct (find (is_active_for (uid user)) (time_entries st)) eqn:Hna;
    intros H; inversion H; subst st1; clear H.
  unfold get_worker_status_by_pin.
  cbn [users time_entries notes save_time_entries set_time_entries].
  rewrite Hp, Hs.
  set (new_entry := mkTimeEntry new_id (uid user) now_login None 0
                      (date_of now_date) false (Some now_modified) []).
  set (mine := filter (fun e => (userId e =? uid user)%string)
                      (time_entries st ++ [new_entry])).
  pose proof (sorted_by_login_desc_perm mine) as Hperm.
  assert (Hnew : In new_entry (sorted_by_login_desc mine)).
  { apply (Permutation_in _ (Permutation_sym Hperm)). apply filter_In.
    split; [apply in_or_app; right; now left|].
    cbn [userId new_entry]. apply String.eqb_refl. }
  destruct (find_is_Some is_open _ new_entry Hnew eq_refl) as [a Ha].
  rewrite Ha. eexists. split; [reflexivity|]. split; [reflexivity|].
  cbn [current_session_start]. f_equal.
  apply find_some in Ha as [Hain Haopen].
  apply (Permutation_in _ Hperm) in Hain.
  apply filter_In in Hain as [Hain Hmine].
  apply in_app_or in Hain as [Hold | [<- | []]]; [|reflexivity].
  apply String.eqb_eq in Hmine.
  assert (Hact : is_active_for (uid user) a = true).
  { apply is_active_for_spec. split; [exact Hmine|].
    unfold is_open in Haopen. now destruct (logoutTime a). }
  rewrite (find_none _ _ Hna a Hold) in Hact. discriminate.
Qed.

(** ** The default users *)

Lemma find_update_first_other {A} (p q : A -> bool) (f : A -> A) (l : list A) :
  (forall x, p x = true -> q x = false /\ q (f x) = false) ->
  find q (update_first p f l) = find q l.
Proof.
  intros H. induction l as [|x r IH]; simpl; [reflexivity|].
  destruct (p x) eqn:Hx; simpl.
  - destruct (H x Hx) as [-> ->]. reflexivity.
  - now rewrite IH.
Qed.

Lemma update_first_id {A} (p : A -> bool) (f : A -> A) (l : list A) (u : A) :
  find p l = Some u -> f u = u -> update_first p f l = l.
Proof.
  induction l as [|x r IH]; simpl; [discriminate|].
  destruct (p x).
  - intros E Hf; inversion E; subst. now rewrite Hf.
  - intros E Hf. f_equal. auto.
Qed.

Lemma map_update_first {A B} (g : A -> B) (p : A -> bool) (f : A -> A)
    (l : list A) :
  (forall x, g (f x) = g x) -> map g (update_first p f l) = map g l.
Proof.
  intros H. induction l as [|x r IH]; simpl; [reflexivity|].
  destruct (p x); simpl; [now rewrite H | now rewrite IH].
Qed.

Lemma corrected_fixpoint (d : DefaultUser) (u : User) :
  needs_correction d u = false <-> corrected d u = u.
Proof.
  unfold needs_correction, corrected. rewrite negb_false_iff.
  rewrite !andb_true_iff, !String.eqb_eq.
  destruct u as [i n e ph r pn c s sn]; simpl.
  split.
  - intros [[[-> ->] He] Hp].
    destruct e as [e|]; [|discriminate]. destruct ph as [ph|]; [|discriminate].
    apply String.eqb_eq in He, Hp. now subst.
  - intros E. inversion E. rewrite !String.eqb_refl. auto.
Qed.

Lemma configured_no_correction (d : DefaultUser) (us : list User) :
  configured d us <->
  exists u, find_by_pin (d_pin d) us = Some u /\ needs_correction d u = false.
Proof.
  unfold configured. split; intros (u & Hu & H); exists u; (split; [exact Hu|]).
  - apply corrected_fixpoint. destruct H as (Hn & He & Hp & Hr).
    unfold corrected. destruct u; simpl in *. now subst.
  - apply corrected_fixpoint in H. rewrite <- H. simpl. auto.
Qed.

Section DefaultUsers.

Variable fresh : nat -> ident * datetime.

(** One turn of the loop. *)
Lemma initialize_loop_cons (d : DefaultUser) (rest : list DefaultUser)
    (k : nat) (us : list User) (b : bool) :
  exists us' b',
    initialize_loop (d :: rest) k fresh us b
    = initialize_loop rest (S k) fresh us' b'
    /\ configured d us'
    /\ (forall d', d_pin d' <> d_pin d -> configured d' us ->
                   configured d' us')
    /\ (configured d us -> us' = us /\ b' = b)
    /\ (b' = false -> us' = us /\ b = false)
    /\ (exists added,
           map identity_of us' = map identity_of us ++ map identity_of added
           /\ (List.length added <= 1)%nat)
    /\ (forall u, In u us -> pin u <> d_pin d -> In u us')
    /\ (unique_pins us -> unique_pins us').
Proof.
  cbn [initialize_loop].
  destruct (find_by_pin (d_pin d) us) as [u|] eqn:Hu.
  - eexists _, _. split; [reflexivity|].
    pose proof (find_some _ _ Hu) as [_ Hpin].
    split; [|split; [|split; [|split; [|split; [|split]]]]].
    + exists (corrected d u). split; [|simpl; auto].
      apply (find_update_first_agree _ _ _ _ u Hu Hu). exact Hpin.
    + intros d' Hd' (x & Hx & Hfields). exists x. split; [|exact Hfields].
      unfold find_by_pin. rewrite find_update_first_other; [exact Hx|].
      intros y Hy. apply String.eqb_eq in Hy. cbn [pin corrected].
      rewrite Hy. split; apply String.eqb_neq; congruence.
    + intros Hc. apply configured_no_correction in Hc as (x & Hx & Hnc).
      rewrite Hu in Hx. inversion Hx; subst x.
      rewrite Hnc, orb_false_r. split; [|reflexivity].
      apply (update_first_id _ _ _ u Hu). now apply corrected_fixpoint.
    + intros Hb. apply orb_false_iff in Hb as [-> Hnc]. split; [|reflexivity].
      apply (update_first_id _ _ _ u Hu). now apply corrected_fixpoint.
    + exists []. rewrite app_nil_r. split; [|simpl; lia].
      now apply map_update_first.
    + intros x Hx Hp. apply In_update_first; [exact Hx|].
      now apply String.eqb_neq.
    + unfold unique_pins. now rewrite map_update_first.
  - eexists _, _. split; [reflexivity|].
    pose proof (proj1 (find_None_forall _ _) Hu) as Hfree.
    split; [|split; [|split; [|split; [|split; [|split]]]]].
    + eexists. split.
      * unfold find_by_pin in *. rewrite find_app, Hu. cbn [find pin].
        now rewrite String.eqb_refl.
      * simpl. auto.
    + intros d' Hd' (x & Hx & Hfields). exists x. split; [|exact Hfields].
      unfold find_by_pin in *. now rewrite find_app, Hx.
    + intros (x & Hx & _). rewrite Hu in Hx. discriminate.
    + discriminate.
    + eexists [_]. rewrite map_app. split; [reflexivity | simpl; lia].
    + intros x Hx _. apply in_or_app. now left.
    + unfold unique_pins. intros H. rewrite map_app. cbn [map pin].
      apply NoDup_snoc; [exact H|]. rewrite in_map_iff.
      intros (x & E & Hx). specialize (Hfree x Hx).
      apply String.eqb_neq in Hfree. congruence.
Qed.

Lemma initialize_loop_spec (configs : list DefaultUser) :
  NoDup (map d_pin configs) ->
  forall k us b,
    let result := initialize_loop configs k fresh us b in
    (forall d, In d configs -> configured d (fst result))
    /\ (forall d, ~ In (d_pin d) (map d_pin configs) -> configured d us ->
                  configured d (fst result))
    /\ ((forall d, In d configs -> configured d us) -> result = (us, b))
    /\ (snd result = false -> fst result = us /\ b = false)
    /\ (exists added,
           map identity_of (fst result)
           = map identity_of us ++ map identity_of added
           /\ (List.length added <= List.length configs)%nat)
    /\ (forall u, In u us -> ~ In (pin u) (map d_pin configs) ->
                  In u (fst result))
    /\ (unique_pins us -> unique_pins (fst result)).
Proof.
  induction configs as [|d rest IH]; intros Hnd k us b.
  - cbn. repeat split; auto; try tauto.
    exists []. rewrite app_nil_r. auto.
  - inversion Hnd as [|? ? Hd Hrest]; subst.
    destruct (initialize_loop_cons d rest k us b)
      as (us' & b' & E & Hconf & Hkeep & Hsame & Hflag & Hids & Hin & Hpins).
    cbv zeta. rewrite E.
    destruct (IH Hrest (S k) us' b')
      as (I1 & I2 & I3 & I4 & I5 & I6 & I7).
    cbv zeta in *.
    split; [|split; [|split; [|split; [|split; [|split]]]]].
    + intros x [<- | Hx]; [now apply I2 | now apply I1].
    + intros x Hx Hc. apply I2; [simpl in Hx; tauto|].
      apply Hkeep; [simpl in Hx; intuition congruence | exact Hc].
    + intros Hall. destruct (Hsame (Hall d (or_introl eq_refl))) as [-> ->].
      apply I3. intros x Hx. apply Hall. now right.
    + intros Hf. destruct (I4 Hf) as [Hus Hb'].
      destruct (Hflag Hb') as [-> ->]. auto.
    + destruct Hids as (a1 & E1 & L1). destruct I5 as (a2 & E2 & L2).
      exists (a1 ++ a2). rewrite E2, E1, map_app, <- app_assoc.
      split; [reflexivity|]. rewrite length_app. simpl. lia.
    + intros u Hu Hp. apply I6; [|simpl in Hp; tauto].
      apply Hin; [exact Hu | simpl in Hp; intuition congruence].
    + intros H. now apply I7, Hpins.
Qed.

Lemma default_pins_distinct : NoDup (map d_pin DEFAULT_USERS_CONFIG).
Proof.
  cbn. repeat constructor; simpl; intuition discriminate.
Qed.

End DefaultUsers.

(** X18: loading the users is idempotent: a second [initialize_users] on
    the users of the first changes no user and leaves the file alone; and
    after the first the file holds the users, whether or not it was
    written. *)
Theorem initialize_users_idempotent (fresh again : nat -> ident * datetime)
    (users_json : list User) :
  let loaded := initialize_users fresh users_json in
  snd loaded = fst loaded
  /\ initialize_users again (fst loaded) = (fst loaded, fst loaded).
Proof.
  cbv zeta. unfold initialize_users.
  destruct (initialize_loop_spec fresh DEFAULT_USERS_CONFIG
              default_pins_distinct 0 users_json false)
    as (Hconf & _ & _ & Hflag & _).
  cbv zeta in *.
  destruct (initialize_loop DEFAULT_USERS_CONFIG 0 fresh users_json false)
    as [us b] eqn:E.
  cbn [fst snd] in *. split.
  - destruct b; [reflexivity|]. destruct (Hflag eq_refl) as [-> _].
    reflexivity.
  - clear Hflag E.
    destruct (initialize_loop_spec again DEFAULT_USERS_CONFIG
                default_pins_distinct 0 us false) as (_ & _ & Hagain & _).
    cbv zeta in Hagain. rewrite (Hagain Hconf). reflexivity.
Qed.


(** X19: after the users are loaded, each PIN of the configuration
    reaches an account with the configured name, e-mail address, phone and
    role, so that the PIN logs in (or is refused with 403 when that account
    is suspended).  Every user of the file keeps its id, PIN, creation
    time and suspension, in the order of the file, at most three users
    are added behind them, users with other PINs are unchanged, and PINs
    that were pairwise distinct stay so. *)
Theorem default_accounts_after_loading (fresh : nat -> ident * datetime)
    (users_json : list User) (time_entries_json : list TimeEntry)
    (notes_json : list Note) :
  let st := startup fresh users_json time_entries_json notes_json in
  users st = fst (initialize_users fresh users_json)
  /\ (forall d, In d DEFAULT_USERS_CONFIG ->
        configured d (users st)
        /\ exists u,
             find_by_pin (d_pin d) (users st) = Some u
             /\ login_pin (Some (d_pin d)) st
                = if is_suspended u then (403, None)
                  else (200, Some (mkSessionUser (uid u) (d_name d)
                                     (Some (d_email d)) (d_role d)
                                     (d_pin d))))
  /\ (exists added,
         map identity_of (users st)
         = map identity_of users_json ++ map identity_of added
         /\ (List.length added <= 3)%nat)
  /\ (forall u, In u users_json ->
                ~ In (pin u) (map d_pin DEFAULT_USERS_CONFIG) ->
                In u (users st))
  /\ (unique_pins users_json -> unique_pins (users st)).
Proof.
  cbv zeta. unfold startup, initialize_users.
  destruct (initialize_loop_spec fresh DEFAULT_USERS_CONFIG
              default_pins_distinct 0 users_json false)
    as (Hconf & _ & _ & _ & Hids & Hin & Hpins).
  cbv zeta in *.
  destruct (initialize_loop DEFAULT_USERS_CONFIG 0 fresh users_json false)
    as [us b].
  cbn [fst snd users] in *.
  split; [reflexivity|]. split; [|auto].
  intros d Hd. split; [now apply Hconf|].
  destruct (Hconf d Hd) as (u & Hu & Hn & He & _ & Hr).
  exists u. split; [exact Hu|].
  assert (Hdigits : invalid_pin (Some (d_pin d)) = false).
  { destruct Hd as [<- | [<- | [<- | []]]]; reflexivity. }
  unfold login_pin. rewrite Hdigits. cbn [users]. rewrite Hu.
  pose proof (find_some _ _ Hu) as [_ Hp]. apply String.eqb_eq in Hp.
  destruct (is_suspended u); [reflexivity|].
  now rewrite Hn, He, Hr, Hp.
Qed.

(** ** Refused requests, and the deletions that are accepted *)

Section Refusals.

Context {RT : Runtime}.

(** X20: a request that is not answered 200 leaves the store as it was:
    no handler changes a list, or writes a file, on a path that ends in an
    error. *)
Theorem refused_request_changes_nothing (r : request) (st : store) :
  answer r st <> 200 -> handle r st = st.
Proof.
  destruct r; cbn [answer handle].
  - unfold clock_in. split_tests; simpl; congruence.
  - unfold clock_out. split_tests; simpl; congruence.
  - unfold logout. split_tests; simpl; congruence.
  - unfold edit_time_entry, apply_edit. split_tests; simpl; congruence.
  - unfold delete_user. split_tests; simpl; congruence.
  - unfold suspend_user. split_tests; simpl; congruence.
  - unfold get_all_time_entries.
    destruct (listing_loop current_time (users st) (notes st)
                (time_entries st)) as [listed flag].
    simpl. congruence.
Qed.

End Refusals.

Lemma two_in_filter {A} (p : A -> bool) (l : list A) (a b : A) :
  In a l -> In b l -> a <> b -> p a = true -> p b = true ->
  (2 <= List.length (filter p l))%nat.
Proof.
  intros Ha Hb Hab Hpa Hpb.
  apply in_split in Ha as (l1 & l2 & ->).
  rewrite filter_app, length_app. cbn [filter]. rewrite Hpa. cbn [List.length].
  apply in_app_or in Hb as [Hb | [Hb | Hb]]; [|congruence|].
  - assert (In b (filter p l1)) by (apply filter_In; auto).
    destruct (filter p l1); [contradiction | simpl; lia].
  - assert (In b (filter p l2)) by (apply filter_In; auto).
    destruct (filter p l2); [contradiction | simpl; lia].
Qed.

(** X21: a deletion is accepted exactly when the user exists and the
    requester is an existing administrator with another id.  The test for
    the last administrator never refuses a request: when it is reached,
    the requester and the user are two administrators. *)
Theorem delete_user_accepted_iff (user_id requester_id : ident) (st : store) :
  snd (delete_user user_id requester_id st) = 200 <->
  (exists target, find_user user_id (users st) = Some target)
  /\ (exists requester,
         find_user requester_id (users st) = Some requester
         /\ role requester = "ADMIN")
  /\ user_id <> requester_id.
Proof.
  unfold delete_user.
  destruct (find_user user_id (users st)) as [target|] eqn:Ht.
  2: { split; [discriminate | intros [[t Ht'] _]; discriminate]. }
  destruct (find_user_uid _ _ _ Ht) as [Htid Htin].
  destruct (find_user requester_id (users st)) as [requester|] eqn:Hr.
  2: { split; [discriminate | intros (_ & (r & Hr' & _) & _); discriminate]. }
  destruct (find_user_uid _ _ _ Hr) as [Hrid Hrin].
  destruct (String.eqb_spec (role requester) "ADMIN") as [Hrole|Hrole];
    cbn [negb].
  2: { split; [discriminate|].
       intros (_ & (r & Hr' & Hadmin) & _). congruence. }
  destruct (String.eqb_spec (uid target) requester_id) as [Hsame|Hdiff].
  { split; [discriminate | intros (_ & _ & Hneq); congruence]. }
  destruct (String.eqb_spec (role target) "ADMIN") as [Hta|Hta]; cbn [andb].
  - assert (Htwo : (2 <= List.length
                           (filter (fun u => (role u =? "ADMIN")%string)
                                   (users st)))%nat).
    { apply (two_in_filter _ _ target requester); trivial.
      - congruence.
      - now apply String.eqb_eq.
      - now apply String.eqb_eq. }
    destruct (Z.leb_spec
                (Z.of_nat (List.length
                             (filter (fun u => (role u =? "ADMIN")%string)
                                     (users st)))) 1) as [Hle|_]; [lia|].
    cbn [snd]. split; [|reflexivity]. intros _.
    split; [eauto|]. split; [eauto | congruence].
  - cbn [snd]. split; [|reflexivity]. intros _.
    split; [eauto|]. split; [eauto | congruence].
Qed.

(** ** Where a new note is shown *)



Section ShownNotes.

Context {RT : Runtime}.



End ShownNotes.

(** ** What an administrative change leaves of an entry *)

Section ChangedEntry.

Context {RT : Runtime}.

(** X23: a forced logout or an edit that succeeded changes one entry and
    no other.  The entry keeps its id, its user and its date (the date is
    not moved when the login time is edited to another day), is flagged as
    edited, and its hours are those of its new login and logout time: the
    rounded span, or 0 when the edit left it open. *)
Theorem administrative_change_of_entry (st st' : store) :
  (forall user_id note_content requester_id new_note_id t1 t2 t3,
      logout user_id note_content requester_id new_note_id t1 t2 t3 st
      = (st', 200) ->
      exists e e',
        replaced_in (time_entries st) (time_entries st') e e'
        /\ eid e' = eid e /\ userId e' = userId e /\ date e' = date e
        /\ loginTime e' = loginTime e /\ logoutTime e' = Some t1
        /\ totalHours e' = hours_of_span e'
        /\ edited e' = true /\ lastModified e' = Some t2)
  /\ (forall entry_id login_time logout_time edit_note editor_user_id
             new_note_id t1 t2,
         edit_time_entry entry_id login_time logout_time edit_note
           editor_user_id new_note_id t1 t2 st = (st', 200) ->
         exists e e',
           replaced_in (time_entries st) (time_entries st') e e'
           /\ eid e' = eid e /\ userId e' = userId e /\ date e' = date e
           /\ login_time = JIso (loginTime e')
           /\ (logoutTime e' = None <-> truthy_time logout_time = false)
           /\ (forall t, logoutTime e' = Some t -> logout_time = JIso t)
           /\ totalHours e' = hours_of_span e'
           /\ edited e' = true /\ lastModified e' = Some t1).
Proof.
  split; intros.
  - revert H. unfold logout.
    destruct (find_user requester_id (users st)) as [requester|];
      [|intros H; inversion H].
    destruct (negb (is_manager (role requester))); [intros H; inversion H|].
    destruct (find_user user_id (users st)); [|intros H; inversion H].
    destruct (find (is_active_for user_id) (time_entries st)) as [e|] eqn:He;
      [|intros H; inversion H].
    intros H. injection H as Hst.
    destruct (find_split _ _ _ He) as (pre & post & Hes & Hp & Hpre).
    exists e,
      (mkTimeEntry (eid e) (userId e) (loginTime e) (Some t1)
         (round_hours (t1 - loginTime e)) (date e) true (Some t2)
         (editNotes e ++ [new_note_id])).
    split; [|repeat split].
    exists pre, post. split; [exact Hes|]. rewrite <- Hst.
    cbn [time_entries save_time_entries set_time_entries save_notes
           set_notes].
    rewrite Hes, update_first_split by assumption. reflexivity.
  - revert H. unfold edit_time_entry.
    destruct ((entry_id =? "")%string || (edit_note =? "")%string);
      [intros H; inversion H|].
    destruct (find (fun entry => (eid entry =? entry_id)%string)
                   (time_entries st)) as [e|] eqn:He;
      [|intros H; inversion H].
    destruct (find_user editor_user_id (users st)) as [editor_user|];
      [|intros H; inversion H].
    destruct (negb (is_manager (role editor_user)));
      [intros H; inversion H|].
    destruct (find_split _ _ _ He) as (pre & post & Hes & Hp & Hpre).
    assert (Hbody : forall login_dt logout_dt,
      apply_edit entry_id edit_note editor_user e login_dt logout_dt
        new_note_id t1 t2 st = (st', 200) ->
      replaced_in (time_entries st) (time_entries st') e
        (mkTimeEntry (eid e) (userId e) login_dt logout_dt
           match logout_dt with
           | Some lo => round_hours (lo - login_dt)
           | None => 0
           end (date e) true (Some t1) (editNotes e ++ [new_note_id]))).
    { intros login_dt logout_dt H. unfold apply_edit in H.
      injection H as Hst. exists pre, post. split; [exact Hes|].
      rewrite <- Hst.
      cbn [time_entries save_time_entries set_time_entries save_notes
             set_notes].
      rewrite Hes, update_first_split by assumption. reflexivity. }
    destruct login_time as [| | | |login_dt]; cbn [fromisoformat];
      try (intros H; now inversion H).
    destruct (truthy_time logout_time) eqn:Htruthy.
    + destruct logout_time as [| | | |logout_dt]; cbn [fromisoformat];
        try (intros H; now inversion H).
      destruct (logout_dt <? login_dt); [intros H; inversion H|].
      intros H. eexists e, _. split; [exact (Hbody _ _ H)|].
      cbn. repeat split; congruence.
    + intros H. eexists e, _. split; [exact (Hbody _ _ H)|].
      cbn. repeat split; try congruence; discriminate.
Qed.

End ChangedEntry.

(* ------------------------------------------------------------------ *)
(** ** One open session on the status page *)

Lemma filter_permutation {A : Type} (p : A -> bool) (l l' : list A) :
  Permutation l l' -> Permutation (filter p l) (filter p l').
Proof.
  induction 1 as [|x l l' _ IH|x y l|l l' l'' _ IH1 _ IH2]; cbn [filter].
  - constructor.
  - destruct (p x); [now constructor | exact IH].
  - destruct (p x), (p y); try apply Permutation_refl. constructor.
  - now transitivity (filter p l').
Qed.

Lemma filter_filter_active (user_id : ident) (es : list TimeEntry) :
  filter is_open (filter (fun e => (userId e =? user_id)%string) es)
  = active_entries_of user_id es.
Proof.
  unfold active_entries_of.
  induction es as [|e es IH]; [reflexivity|].
  cbn [filter]. unfold is_active_for at 1.
  destruct (userId e =? user_id)%string; cbn [filter andb].
  - fold (is_open e). destruct (is_open e); now rewrite IH.
  - exact IH.
Qed.

Lemma worker_status_history (p : string) (st : store) (ws : WorkerStatus) :
  get_worker_status_by_pin (Some p) st = (200, Some ws) ->
  exists user,
    In user (users st)
    /\ map fst (historical_entries ws)
       = sorted_by_login_desc
           (filter (fun e => (userId e =? uid user)%string)
                   (time_entries st)).
Proof.
  unfold get_worker_status_by_pin.
  destruct (find _ (users st)) as [user|] eqn:Hfind; [|discriminate].
  destruct (is_suspended user); [discriminate|].
  cbv zeta.
  set (sorted := sorted_by_login_desc _).
  assert (Hhist : map fst (map (fun e => (e, hydrate (editNotes e) (notes st)))
                              sorted) = sorted).
  { rewrite map_map. simpl. apply map_id. }
  apply find_some in Hfind as [Hin _].
  destruct (find is_open sorted);
    [|destruct (filter (fun entry => negb (is_open entry)) sorted)];
    intros H; inversion H; subst ws; clear H; exists user;
    cbn [historical_entries]; (split; [exact Hin | exact Hhist]).
Qed.

Section OneOpenSession.

Context {RT : Runtime}.

(** X24: from a store where no user has two entries without logout time,
    after any run of requests in which no edit without logout time addresses
    a closed entry, no user has two such entries, and the history that
    [get_worker_status_by_pin] returns to a worker holds at most one entry
    without logout time. *)
Theorem status_shows_one_open_session (rs : list request) (st : store) :
  at_most_one_active st ->
  never_reopens rs st = true ->
  at_most_one_active (run rs st)
  /\ forall p ws,
       get_worker_status_by_pin (Some p) (run rs st) = (200, Some ws) ->
       (List.length (filter is_open (map fst (historical_entries ws))) <= 1)%nat.
Proof.
  intros Hst Hrs.
  pose proof (run_keeps_invariant rs st Hst Hrs) as Hinv.
  split; [exact Hinv|].
  intros p ws Hws.
  destruct (worker_status_history _ _ _ Hws) as (user & _ & Hhist).
  rewrite Hhist.
  rewrite (Permutation_length
             (filter_permutation is_open _ _ (sorted_by_login_desc_perm _))).
  rewrite filter_filter_active. apply Hinv.
Qed.

End OneOpenSession.

(* ================================================================== *)
(** * Further worked cases *)

Lemma fresh_store_in_sync : in_sync fresh_store.
Proof. repeat split. Defined.

Lemma fresh_store_pins : unique_pins (users fresh_store).
Proof.
  unfold unique_pins. cbn.
  repeat constructor; simpl; intuition discriminate.
Defined.

(** The store at start-up on empty files is the fresh store. *)
Lemma startup_on_empty_files : startup sample_fresh [] [] [] = fresh_store.
Proof. reflexivity. Defined.

Lemma files_follow_lists_case :
  in_sync (run reopening_run fresh_store) /\ in_sync (fst ann_added).
Proof.
  destruct files_follow_lists as [Hrun Hadd].
  split.
  - apply Hrun. exact fresh_store_in_sync.
  - apply Hadd. exact fresh_store_in_sync.
Defined.

Lemma notes_stay_readable_case :
  (exists added,
      notes (run later_run (fst forced_out)) = notes (fst forced_out) ++ added
      /\ (List.length added <= List.length later_run)%nat)
  /\ exists n,
       get_note "n-1" (fst forced_out) = (Some n, 200)
       /\ get_note "n-1" (run later_run (fst forced_out)) = (Some n, 200).
Proof.
  destruct (notes_stay_readable later_run (fst forced_out) eq_refl)
    as [Hgrow Hread].
  split; [exact Hgrow|].
  eexists. split; [reflexivity|]. apply Hread. reflexivity.
Defined.

Lemma single_session_hours_case :
  snd morning_done = 200
  /\ time_entries (fst morning_done)
     = time_entries fresh_store
       ++ [ {| eid := "e-1"; userId := "u-john";
               loginTime := at_time monday 9 0;
               logoutTime := Some (at_time monday 12 0);
               totalHours := round_hours (at_time monday 12 0
                                          - at_time monday 9 0);
               date := date_of (at_time monday 9 0); edited := false;
               lastModified := Some (at_time monday 12 0);
               editNotes := [] |} ].
Proof.
  destruct (single_session_hours "u-john" "e-1" (at_time monday 9 0)
              (at_time monday 9 0) (at_time monday 9 0)
              (at_time monday 12 0) (at_time monday 12 0)
              (at_time monday 12 0) fresh_store john_at_work eq_refl)
    as [Hstatus Hentries].
  split; [exact Hstatus|]. apply Hentries. intros x [].
Defined.

Lemma clock_in_after_clock_out_case :
  active_entries_of "u-john" (time_entries (fst morning_done)) = []
  /\ snd john_back = 200.
Proof.
  apply (clock_in_after_clock_out "u-john" john_user "e-2"
           (at_time monday 12 0) (at_time monday 12 0) (at_time monday 12 0)
           (at_time monday 13 0) (at_time monday 13 0) (at_time monday 13 0)
           john_at_work (fst morning_done)).
  - apply at_most_one_activeb_spec. reflexivity.
  - reflexivity.
  - reflexivity.
  - reflexivity.
Defined.

Lemma suspend_then_unsuspend_case :
  exists u,
    find_user "u-john" (users fresh_store) = Some u
    /\ find_user "u-john" (users (fst john_restored))
       = Some (mkUser (uid u) (name u) (email u) (phone u) (role u) (pin u)
                 (createdAt u) false (suspension_notes u ++ ["n-1"; "n-2"]))
    /\ (forall x, x <> "u-john" ->
                  find_user x (users (fst john_restored))
                  = find_user x (users fresh_store))
    /\ time_entries (fst john_restored) = time_entries fresh_store
    /\ (forall new_id a b c,
           snd (clock_in "u-john" new_id a b c (fst john_restored)) <> 403).
Proof.
  apply (suspend_then_unsuspend "u-john" "u-admin" "u-keeper" "n-1" "n-2"
           "Badge lost" "Badge found" (at_time monday 10 0)
           (at_time monday 11 0) fresh_store (fst john_barred)
           (fst john_restored)); reflexivity.
Defined.

Lemma deleted_id_is_unknown_case :
  (forall u, In u (users (fst john_removed)) -> uid u <> "u-john")
  /\ (forall e, In e (time_entries (fst john_removed)) ->
                userId e <> "u-john")
  /\ delete_user "u-john" "u-admin" (fst john_removed)
     = (fst john_removed, 404)
  /\ clock_in "u-john" "e-9" (at_time monday 19 0) (at_time monday 19 0)
       (at_time monday 19 0) (fst john_removed) = (fst john_removed, 404).
Proof.
  destruct (deleted_id_is_unknown "u-john" "u-admin" before_removal
              (fst john_removed) eq_refl)
    as (Husers & Hentries & Hdelete & Hin & _).
  split; [exact Husers|]. split; [exact Hentries|].
  split; [apply Hdelete | apply Hin].
Defined.

Lemma deletion_keeps_an_admin_case :
  exists requester,
    find_user "u-admin" (users before_removal) = Some requester
    /\ role requester = "ADMIN"
    /\ "u-admin" <> "u-john"
    /\ find_user "u-admin" (users (fst john_removed)) = Some requester.
Proof.
  apply (deletion_keeps_an_admin "u-john" "u-admin" before_removal
           (fst john_removed)).
  reflexivity.
Defined.


Lemma add_user_keeps_unique_case :
  unique_pins (users (fst ann_added))
  /\ unique_emails (users (fst ann_added)).
Proof.
  destruct (add_user_keeps_pins_and_emails_unique "Ann Lee"
              (Some "ann@example.com") None "worker" (Some "4321")
              "TIMEKEEPER" "u-ann" (at_time monday 8 30) fresh_store)
    as [Hpins Hmails].
  split.
  - apply Hpins. exact fresh_store_pins.
  - apply Hmails. unfold unique_emails. cbn.
    repeat constructor; simpl; intuition discriminate.
Defined.

Lemma added_user_logs_in_case :
  exists p,
    Some "4321" = Some p
    /\ login_pin (Some "4321") (fst ann_added)
       = (200, Some (mkSessionUser "u-ann" "Ann Lee"
                       (or_none (Some "ann@example.com")) "worker" p)).
Proof.
  apply (added_user_logs_in "Ann Lee" (Some "ann@example.com") None
           "worker" (Some "4321") "TIMEKEEPER" "u-ann"
           (at_time monday 8 30) fresh_store (fst ann_added)).
  reflexivity.
Defined.

Lemma suspended_pin_is_refused_case :
  login_pin (Some "1234") (fst john_suspended) = (403, None)
  /\ get_worker_status_by_pin (Some "1234") (fst john_suspended)
     = (403, None).
Proof.
  destruct (suspended_pin_is_refused "u-john" "Badge lost" "u-admin" "n-1"
              (at_time monday 10 0) john_user john_at_work
              (fst john_suspended) eq_refl eq_refl eq_refl eq_refl)
    as [Hlogin Hstatus].
  split; [exact Hlogin | apply Hstatus; reflexivity].
Defined.

Lemma new_note_is_readable_case :
  exists e n,
    find (is_active_for "u-john") (time_entries john_at_work) = Some e
    /\ get_note "n-1" (fst forced_out) = (Some n, 200)
    /\ entityType n = time_entry
    /\ In n (fst (get_notes_for_entity (eid e) (fst forced_out))).
Proof.
  destruct (new_note_is_readable "n-1" john_at_work (fst forced_out))
    as [Hlogout _].
  - intros m [].
  - apply (Hlogout "u-john" "Forgot to clock out" "u-admin"
             (at_time monday 17 0) (at_time monday 17 0)
             (at_time monday 17 0)).
    reflexivity.
Defined.

Lemma entries_keep_their_owner_case :
  entries_have_owner (run reopening_run fresh_store)
  /\ forall l,
       In l (fst (snd (get_all_time_entries (at_time monday 15 0)
                         (run reopening_run fresh_store)))) ->
       exists u,
         find_user (userId (entry_copy l))
                   (users (run reopening_run fresh_store)) = Some u
         /\ userName l = name u.
Proof.
  apply (entries_keep_their_owner reopening_run fresh_store
           (at_time monday 15 0)).
  intros e [].
Defined.

Lemma worker_status_case :
  exists ws user,
    get_worker_status_by_pin (Some "1234") (fst morning_done)
    = (200, Some ws)
    /\ In user (users (fst morning_done))
    /\ pin user = "1234" /\ role user = "worker"
    /\ is_suspended user = false /\ ws_id (ws_user ws) = uid user
    /\ Permutation (map fst (historical_entries ws))
         (filter (fun e => (userId e =? uid user)%string)
                 (time_entries (fst morning_done))).
Proof.
  eexists.
  destruct (worker_status_reflects_entries "1234" (fst morning_done) _
              eq_refl)
    as (user & Hin & Hpin & Hrole & Hsus & Hid & Hperm & _).
  exists user. repeat (split; [first [reflexivity | assumption]|]).
  exact Hperm.
Defined.

Lemma status_after_clock_in_case :
  exists ws,
    get_worker_status_by_pin (Some "1234") john_at_work = (200, Some ws)
    /\ is_clocked_in ws = true
    /\ current_session_start ws = Some (at_time monday 9 0).
Proof.
  apply (status_after_clock_in "1234" john_user "e-1" (at_time monday 9 0)
           (at_time monday 9 0) (at_time monday 9 0) fresh_store
           john_at_work); reflexivity.
Defined.

Lemma default_accounts_case :
  (forall d, In d DEFAULT_USERS_CONFIG ->
             configured d (users (startup sample_fresh ann_only [] [])))
  /\ In (hd john_user ann_only) (users (startup sample_fresh ann_only [] []))
  /\ unique_pins (users (startup sample_fresh ann_only [] [])).
Proof.
  destruct (default_accounts_after_loading sample_fresh ann_only [] [])
    as (_ & Hdefaults & _ & Hkept & Hpins).
  split; [intros d Hd; apply (Hdefaults d Hd)|].
  split.
  - apply Hkept; [left; reflexivity|].
    cbn. intuition discriminate.
  - apply Hpins. unfold unique_pins. cbn.
    repeat constructor; simpl; intuition.
Defined.

Lemma refused_request_case :
  handle (ClockIn "u-john" "e-2" (at_time monday 9 30) (at_time monday 9 30)
            (at_time monday 9 30)) john_at_work
  = john_at_work.
Proof.
  apply refused_request_changes_nothing. cbv. discriminate.
Defined.

Lemma delete_user_accepted_case :
  (exists target, find_user "u-john" (users before_removal) = Some target)
  /\ (exists requester,
         find_user "u-admin" (users before_removal) = Some requester
         /\ role requester = "ADMIN")
  /\ "u-john" <> "u-admin".
Proof.
  apply (proj1 (delete_user_accepted_iff "u-john" "u-admin" before_removal)).
  reflexivity.
Defined.


Lemma administrative_change_case :
  exists e e',
    replaced_in (time_entries (fst morning_done))
                (time_entries (fst early_start_edit)) e e'
    /\ eid e' = eid e /\ userId e' = userId e /\ date e' = date e
    /\ JIso (at_time monday 8 30) = JIso (loginTime e')
    /\ (logoutTime e' = None <->
        truthy_time (JIso (at_time monday 12 0)) = false)
    /\ (forall t, logoutTime e' = Some t -> JIso (at_time monday 12 0) = JIso t)
    /\ totalHours e' = hours_of_span e'
    /\ edited e' = true /\ lastModified e' = Some (at_time monday 14 0).
Proof.
  apply (proj2 (administrative_change_of_entry (fst morning_done)
                  (fst early_start_edit))
           "e-1" (JIso (at_time monday 8 30)) (JIso (at_time monday 12 0))
           "Came early" "u-keeper" "n-1" (at_time monday 14 0)
           (at_time monday 14 0)).
  reflexivity.
Defined.

Lemma one_open_session_case :
  at_most_one_active (run later_run (fst forced_out))
  /\ forall p ws,
       get_worker_status_by_pin (Some p) (run later_run (fst forced_out))
       = (200, Some ws) ->
       (List.length (filter is_open (map fst (historical_entries ws))) <= 1)%nat.
Proof.
  apply (status_shows_one_open_session later_run (fst forced_out)).
  - apply at_most_one_activeb_spec. reflexivity.
  - reflexivity.
Defined.
